(** * Excel Sensor Cleaner: header normalisation, column detection,
      datetime coercion, the derived [Days] column and the final sort

    A shallow embedding of the helper functions of the three Streamlit
    scripts of the repository

      - [excel_cleaner_app.py]            (module [ExcelCleanerApp])
      - [excel_cleaner_app_2_like.py]     (module [ExcelCleanerApp2Like])
      - [streamlit_excel_cleaner_app.py]  (module [StreamlitExcelCleanerApp])

    and of their cleaning script, from the sheet as it is read to the frame
    that is written out (module [CleaningScript]).

    Conventions of the model.

    - A Python [str] is the list of its code points.  [str.strip] and the
      regular expression class [\s] (on [str] patterns) use the same
      predicate, CPython's whitespace table, which is written out below.
    - A pandas [DataFrame] is the ordered list of its labelled columns; the
      row index is positional (every frame of the scripts carries a
      [RangeIndex], and the scripts reset it after every row operation).
    - A timestamp is its number of nanoseconds since 1970-01-01 ([Z], not
      bounded); a missing timestamp ([NaT]) is [None].  A [float64] cell is
      the rational it denotes, [NaN] is [None].  The only float comparisons
      of the code, [mean() > 0.7] and [mean() > 0.5], are written on the
      counts; they agree with the float comparison for every column that a
      sheet can hold (up to about 10^15 rows).
    - What the scripts delegate to [pandas], [re] and [str.lower] (text and
      number parsing, regular expressions, Unicode case mapping, the default
      sorting kind) is an interface, [Runtime]; the functions are embedded
      over any implementation of it.  Where a statement needs a documented
      property of the library, it is a named hypothesis.  The default
      argsort of numpy is written out in module [Numpy], for the rows with
      equal timestamps.
    - [df[h]] is modelled for frames whose labels are pairwise distinct; for
      a repeated label pandas selects a frame instead of a series, and the
      statements that depend on [df[h]] assume distinct labels.
    - Of the script, the data flow is embedded: the upload, the widgets, the
      previews and the writing of the workbook are left out.  An empty cell
      of an [object] column is the one missing value of such a column. *)

From Stdlib Require Import String Ascii.
From Stdlib Require Import List ZArith NArith QArith Bool Lia.
From Stdlib Require Import Permutation Sorted.
Import ListNotations.

Close Scope Q_scope.
Set Implicit Arguments.

(* ================================================================== *)
(** * Python strings                                                   *)
(* ================================================================== *)

Definition char := N.
Definition pystr := list char.

(** A literal of the source, as a Python string. *)
Definition py (s : string) : pystr := map N_of_ascii (list_ascii_of_string s).

Definition NL : char := 10%N.
Definition SP : char := 32%N.

(** [str.isspace] on one character, which is also what [\s] matches. *)
Definition isspace (c : char) : bool :=
  (((9 <=? c) && (c <=? 13)) || ((28 <=? c) && (c <=? 32))
   || (c =? 133) || (c =? 160) || (c =? 5760)
   || ((8192 <=? c) && (c <=? 8202))
   || (c =? 8232) || (c =? 8233) || (c =? 8239) || (c =? 8287)
   || (c =? 12288))%N.

Fixpoint pystr_eqb (a b : pystr) : bool :=
  match a, b with
  | [], [] => true
  | x :: a', y :: b' => (x =? y)%N && pystr_eqb a' b'
  | _, _ => false
  end.

(** [s.replace("\n", " ")] *)
Definition replace_newline (s : pystr) : pystr :=
  map (fun c => if (c =? NL)%N then SP else c) s.

Fixpoint lstrip (s : pystr) : pystr :=
  match s with
  | [] => []
  | c :: s' => if isspace c then lstrip s' else s
  end.

Definition rstrip (s : pystr) : pystr := rev (lstrip (rev s)).

(** [s.strip()] *)
Definition strip (s : pystr) : pystr := rstrip (lstrip s).

(** [re.sub(r"\s+", " ", s)]: every maximal run of whitespace becomes one
    space.  [in_run] tells that the previous character was whitespace. *)
Fixpoint sub_ws (in_run : bool) (s : pystr) : pystr :=
  match s with
  | [] => []
  | c :: s' =>
      if isspace c
      then (if in_run then sub_ws true s' else SP :: sub_ws true s')
      else c :: sub_ws false s'
  end.

Definition re_sub_ws (s : pystr) : pystr := sub_ws false s.

(** [x in xs] for strings. *)
Definition str_mem (x : pystr) (xs : list pystr) : bool :=
  existsb (pystr_eqb x) xs.

(* ================================================================== *)
(** * Exceptions                                                       *)
(* ================================================================== *)

Inductive exn : Type :=
| KeyError
| PatternError
| ValueError
| TypeError
| OutOfBoundsDatetime.

Inductive result (A : Type) : Type :=
| Ok (a : A)
| Raise (e : exn).

Arguments Ok {A} a.
Arguments Raise {A} e.

Definition bind {A B} (m : result A) (k : A -> result B) : result B :=
  match m with
  | Ok a => k a
  | Raise e => Raise e
  end.

Notation "'perform' x '<-' m ';;' k" := (bind m (fun x => k))
  (at level 10, x name, m at level 100, k at level 200).

(* ================================================================== *)
(** * Tables                                                           *)
(* ================================================================== *)

(** A column label as a sheet can carry it: absent, a string, or any other
    object, of which the code only takes [str(c)]. *)
Inductive label : Type :=
| LNone
| LStr (s : pystr)
| LObj (text : pystr).

(** [str(c)] for a label that is not [None]. *)
Definition str_of (c : label) : pystr :=
  match c with
  | LNone => py "None"
  | LStr s => s
  | LObj text => text
  end.

Definition label_eqb (a b : label) : bool :=
  match a, b with
  | LNone, LNone => true
  | LStr s, LStr t => pystr_eqb s t
  | LObj s, LObj t => pystr_eqb s t
  | _, _ => false
  end.

(** A raw cell. *)
Inductive value : Type :=
| VNone
| VStr (s : pystr)
| VNum (q : Q)
| VTime (t : Z).

(** A column with its dtype: [object], [datetime64[ns]] or [float64]. *)
Inductive Series : Type :=
| SObject (l : list value)
| SDatetime (l : list (option Z))
| SNumeric (l : list (option Q)).

Definition slen (s : Series) : nat :=
  match s with
  | SObject l => length l
  | SDatetime l => length l
  | SNumeric l => length l
  end.

(** [pd.api.types.is_datetime64_any_dtype] *)
Definition is_datetime64_any_dtype (s : Series) : bool :=
  match s with
  | SDatetime _ => true
  | _ => false
  end.

Definition DataFrame := list (label * Series).

(** [df.columns] *)
Definition columns (df : DataFrame) : list label := map fst df.

(** [h in df.columns] *)
Definition has_column (df : DataFrame) (h : pystr) : bool :=
  existsb (fun c => label_eqb c (LStr h)) (columns df).

(** [df[h]]; [None] is the [KeyError] of a label that is not in the frame. *)
Fixpoint getitem (df : DataFrame) (h : pystr) : option Series :=
  match df with
  | [] => None
  | (c, s) :: df' => if label_eqb c (LStr h) then Some s else getitem df' h
  end.

(** [df[h] = s]: the column is replaced in place, a new label is appended. *)
Definition setitem (df : DataFrame) (h : pystr) (s : Series) : DataFrame :=
  if has_column df h
  then map (fun cs => if label_eqb (fst cs) (LStr h) then (fst cs, s) else cs) df
  else df ++ [(LStr h, s)].

(** [df.drop(columns=[h])] *)
Definition drop_column (df : DataFrame) (h : pystr) : DataFrame :=
  filter (fun cs => negb (label_eqb (fst cs) (LStr h))) df.

(** [list(df.columns).index(h)] for a label that is in the frame. *)
Fixpoint index_of (cols : list label) (h : pystr) : nat :=
  match cols with
  | [] => 0
  | c :: cols' => if label_eqb c (LStr h) then 0 else S (index_of cols' h)
  end.

(** [df.iloc[:, :i]] and [df.iloc[:, i:]] *)
Definition iloc_cols_to (df : DataFrame) (i : nat) : DataFrame := firstn i df.
Definition iloc_cols_from (df : DataFrame) (i : nat) : DataFrame := skipn i df.

(* ------------------------------------------------------------------ *)
(** ** Datetime series                                                 *)
(* ------------------------------------------------------------------ *)

Definition isna {A} (x : option A) : bool :=
  match x with
  | None => true
  | Some _ => false
  end.

Definition notna {A} (x : option A) : bool := negb (isna x).

Definition count_na {A} (s : list (option A)) : nat :=
  length (filter isna s).

Definition count_notna {A} (s : list (option A)) : nat :=
  length (filter notna s).

(** [s.notna().mean() > 0.7]; the mean of an empty series is [NaN], which
    is not greater than anything. *)
Definition notna_mean_gt_0_7 (s : list (option Z)) : bool :=
  (7 * length s <? 10 * count_notna s)%nat.

(** [s.isna().mean() > 0.5] *)
Definition isna_mean_gt_0_5 (s : list (option Z)) : bool :=
  (length s <? 2 * count_na s)%nat.

(** [s.isna().all()] *)
Definition isna_all (s : list (option Z)) : bool := forallb isna s.

(** [s.dropna().iloc[0]], when there is one. *)
Fixpoint first_valid (s : list (option Z)) : option Z :=
  match s with
  | [] => None
  | Some t :: _ => Some t
  | None :: s' => first_valid s'
  end.

(** [s.fillna(s2)] for two series on the same index. *)
Fixpoint fillna (s s2 : list (option Z)) : list (option Z) :=
  match s with
  | [] => []
  | x :: s' =>
      (match x with
       | Some _ => x
       | None => hd None s2
       end) :: fillna s' (tl s2)
  end.

(** [pd.Series(pd.NaT, index=series.index)] *)
Definition all_nat (n : nat) : list (option Z) := repeat None n.

Definition NS_PER_DAY : positive := 86400000000000%positive.

(** [Timestamp.normalize()]: the time of day is set to midnight. *)
Definition normalize_ts (t : Z) : Z := (t - t mod Zpos NS_PER_DAY)%Z.

(** [(dt - baseline) / pd.Timedelta(days=1)] *)
Definition days_since (baseline : Z) (dt : list (option Z)) : list (option Q) :=
  map (option_map (fun t => Qmake (t - baseline) NS_PER_DAY)) dt.

(* ================================================================== *)
(** * What the scripts take from their libraries                       *)
(* ================================================================== *)

Class Runtime : Type := {
  (** [str.lower] *)
  lower : pystr -> pystr;
  (** compiled patterns, [re.compile(pattern, re.IGNORECASE)] and
      [rx.search(h)] (true when there is a match) *)
  regex : Type;
  re_compile_ignorecase : pystr -> result regex;
  rx_search : regex -> pystr -> bool;
  (** [pd.to_datetime(series, errors="coerce", dayfirst=True)] *)
  to_datetime_dayfirst : Series -> result (list (option Z));
  (** [pd.to_numeric(series, errors="coerce")] *)
  to_numeric_coerce : Series -> result Series;
  (** [pd.to_datetime(series, unit=u, origin=o)] *)
  to_datetime_unit_origin : pystr -> pystr -> Series -> result (list (option Z));
  (** [numpy.argsort(kind="quicksort")], the default kind of
      [DataFrame.sort_values] *)
  argsort_quicksort : list Z -> list nat
}.

(** [pd.to_datetime] returns a series on the index of its argument. *)
Definition to_datetime_keeps_length (R : Runtime) : Prop :=
  forall s l, to_datetime_dayfirst s = Ok l -> length l = slen s.

(** The contract of an argsort: the positions of the keys, each once, in an
    order in which the keys ascend.  (The documentation of
    [sort_values] names [mergesort] and [stable] as the only stable kinds;
    [quicksort] promises no more than this.) *)
Definition argsort_contract (R : Runtime) : Prop :=
  forall keys,
    Permutation (argsort_quicksort keys) (seq 0 (length keys)) /\
    Sorted Z.le (map (fun j => nth j keys 0%Z) (argsort_quicksort keys)).

(* ------------------------------------------------------------------ *)
(** ** Sorting a frame by a datetime column                            *)
(* ------------------------------------------------------------------ *)

Definition valid_keys (items : list (option Z)) : list Z :=
  flat_map (fun x => match x with Some t => [t] | None => [] end) items.

(** [pandas.core.sorting.nargsort] with its defaults ([ascending=True],
    [na_position="last"]): the positions of the valid keys in the order the
    argsort gives, then the positions of the missing keys. *)
Definition nargsort {R : Runtime} (items : list (option Z)) : list nat :=
  let idx := seq 0 (length items) in
  let non_nan_idx := filter (fun i => notna (nth i items None)) idx in
  let nan_idx := filter (fun i => isna (nth i items None)) idx in
  map (fun j => nth j non_nan_idx 0%nat) (argsort_quicksort (valid_keys items))
  ++ nan_idx.

(** [l.take(indexer)] *)
Definition take {A} (indexer : list nat) (l : list A) : list A :=
  flat_map (fun i => match nth_error l i with Some x => [x] | None => [] end)
           indexer.

Definition take_series (indexer : list nat) (s : Series) : Series :=
  match s with
  | SObject l => SObject (take indexer l)
  | SDatetime l => SDatetime (take indexer l)
  | SNumeric l => SNumeric (take indexer l)
  end.

(** [df.sort_values(h).reset_index(drop=True)] for a datetime column with
    values [keys]. *)
Definition sort_values {R : Runtime} (df : DataFrame) (keys : list (option Z))
  : DataFrame :=
  map (fun cs => (fst cs, take_series (nargsort keys) (snd cs))) df.

(** Truth value of an optional string: [None] and [""] are false. *)
Definition truthy (o : option pystr) : bool :=
  match o with
  | Some (_ :: _) => true
  | _ => false
  end.

Definition DAYS : pystr := py "Days".

(* ================================================================== *)
(** * excel_cleaner_app.py                                             *)
(* ================================================================== *)

Module ExcelCleanerApp.

(** lines 65-74 *)
Fixpoint normalize_loop (cols : list label) (norm : list pystr) : list pystr :=
  match cols with
  | [] => norm
  | LNone :: rest => normalize_loop rest (norm ++ [py ""])
  | c :: rest =>
      let s := strip (replace_newline (str_of c)) in
      let s := re_sub_ws s in
      normalize_loop rest (norm ++ [s])
  end.

Definition normalize_headers (cols : list label) : list pystr :=
  normalize_loop cols [].

(** lines 76-77 *)
Definition SENSOR_DEFAULT_REGEX : pystr := py "^(ALARM_|.*_C$)".

Definition META_GUESS : list pystr :=
  [py "S/N"; py "S N"; py "SN"; py "Date/Time"; py "Date Time";
   py "Datetime"; py "Date"; py "Time"; py "Days"].

Section WithRuntime.
Context {R : Runtime}.

(** lines 85-89, with [meta_lower] built once before the loop *)
Fixpoint sensor_loop (rx : regex) (meta_lower : list pystr)
    (headers : list pystr) (sensor_cols : list pystr) : list pystr :=
  match headers with
  | [] => sensor_cols
  | h :: rest =>
      if str_mem (lower h) meta_lower
      then sensor_loop rx meta_lower rest sensor_cols
      else if rx_search rx h
           then sensor_loop rx meta_lower rest (sensor_cols ++ [h])
           else sensor_loop rx meta_lower rest sensor_cols
  end.

(** lines 80-90 *)
Definition detect_sensor_columns (df : DataFrame) (pattern : pystr)
  : result (list pystr) :=
  let headers := normalize_headers (columns df) in
  perform rx <- re_compile_ignorecase pattern ;;
  let meta_lower := map lower META_GUESS in
  Ok (sensor_loop rx meta_lower headers []).

Definition candidates : list pystr :=
  [py "Date/Time"; py "Date Time"; py "Datetime"; py "Timestamp"; py "Date"].

(** lines 97-99, the inner loop *)
Fixpoint scan_headers (c : pystr) (headers : list pystr) : option pystr :=
  match headers with
  | [] => None
  | h :: rest =>
      if pystr_eqb (lower h) (lower c) then Some h else scan_headers c rest
  end.

(** lines 96-99, the outer loop *)
Fixpoint scan_candidates (cands : list pystr) (headers : list pystr)
  : option pystr :=
  match cands with
  | [] => None
  | c :: rest =>
      match scan_headers c headers with
      | Some h => Some h
      | None => scan_candidates rest headers
      end
  end.

(** lines 100-104 *)
Fixpoint fallback_loop (df : DataFrame) (headers : list pystr)
  : result (option pystr) :=
  match headers with
  | [] => Ok None
  | h :: rest =>
      match getitem df h with
      | None => Raise KeyError
      | Some col =>
          perform s <- to_datetime_dayfirst col ;;
          if notna_mean_gt_0_7 s then Ok (Some h) else fallback_loop df rest
      end
  end.

(** lines 93-104 *)
Definition find_datetime_col (df : DataFrame) : result (option pystr) :=
  let headers := normalize_headers (columns df) in
  match scan_candidates candidates headers with
  | Some h => Ok (Some h)
  | None => fallback_loop df headers
  end.

(** lines 107-118 *)
Definition coerce_datetime (series : Series) : list (option Z) :=
  let s :=
    match to_datetime_dayfirst series with
    | Ok s => s
    | Raise _ => all_nat (slen series)
    end in
  if isna_mean_gt_0_5 s
  then
    match (perform n <- to_numeric_coerce series ;;
           to_datetime_unit_origin (py "D") (py "1899-12-30") n) with
    | Ok s2 => fillna s s2
    | Raise _ => s
    end
  else s.

(** lines 121-124.  The frame is changed in place: the first component is
    the frame after the call, which is also what is returned when nothing
    was raised; the second is the exception, if any. *)
Fixpoint coerce_numeric (df : DataFrame) (cols : list pystr)
  : DataFrame * option exn :=
  match cols with
  | [] => (df, None)
  | c :: rest =>
      match getitem df c with
      | None => (df, Some KeyError)
      | Some col =>
          match to_numeric_coerce col with
          | Raise e => (df, Some e)
          | Ok col' => coerce_numeric (setitem df c col') rest
          end
      end
  end.

(** lines 127-144.  [insert_after] is a parameter of the function and is not
    read by its body.  The result is the pair of the caller's frame after
    the call (line 133 assigns into it) and the returned frame.  The lookup
    of line 130 fails exactly when line 128 returns; [first_valid] is
    [None] exactly when line 134 returns. *)
Definition add_days_column (df : DataFrame) (dt_col : option pystr)
    (insert_after : option pystr) : DataFrame * DataFrame :=
  match dt_col with
  | None => (df, df)
  | Some h =>
      match getitem df h with
      | None => (df, df)
      | Some col =>
          let '(dt, df) :=
            match col with
            | SDatetime l => (l, df)
            | _ => let dt := coerce_datetime col in
                   (dt, setitem df h (SDatetime dt))
            end in
          match first_valid dt with
          | None => (df, df)
          | Some t0 =>
              let baseline := normalize_ts t0 in
              let days := days_since baseline dt in
              let df1 := if has_column df DAYS then drop_column df DAYS else df in
              let insert_idx :=
                if has_column df1 h
                then index_of (columns df1) h + 1
                else length (columns df1) in
              let left := iloc_cols_to df1 insert_idx in
              let right := iloc_cols_from df1 insert_idx in
              (df, left ++ [(LStr DAYS, SNumeric days)] ++ right)
          end
      end
  end.

End WithRuntime.
End ExcelCleanerApp.
(* ================================================================== *)
(** * excel_cleaner_app_2_like.py                                      *)
(* ================================================================== *)

Module ExcelCleanerApp2Like.

(** lines 26-36 *)
Fixpoint normalize_loop (cols : list label) (norm : list pystr) : list pystr :=
  match cols with
  | [] => norm
  | LNone :: rest => normalize_loop rest (norm ++ [py ""])
  | c :: rest =>
      let s := strip (replace_newline (str_of c)) in
      let s := re_sub_ws s in
      normalize_loop rest (norm ++ [s])
  end.

Definition normalize_headers (cols : list label) : list pystr :=
  normalize_loop cols [].

(** lines 38-39 *)
Definition SENSOR_DEFAULT_REGEX : pystr := py "^(ALARM_|.*_C$)".

Definition META_GUESS : list pystr :=
  [py "S/N"; py "S N"; py "SN"; py "Date/Time"; py "Date Time";
   py "Datetime"; py "Date"; py "Time"; py "Days"].

Section WithRuntime.
Context {R : Runtime}.

(** lines 48-52, with [meta_lower] built once before the loop *)
Fixpoint sensor_loop (rx : regex) (meta_lower : list pystr)
    (headers : list pystr) (sensor_cols : list pystr) : list pystr :=
  match headers with
  | [] => sensor_cols
  | h :: rest =>
      if str_mem (lower h) meta_lower
      then sensor_loop rx meta_lower rest sensor_cols
      else if rx_search rx h
           then sensor_loop rx meta_lower rest (sensor_cols ++ [h])
           else sensor_loop rx meta_lower rest sensor_cols
  end.

(** lines 42-53 *)
Definition detect_sensor_columns (df : DataFrame) (pattern : pystr)
  : result (list pystr) :=
  let headers := normalize_headers (columns df) in
  perform rx <- re_compile_ignorecase pattern ;;
  let meta_lower := map lower META_GUESS in
  Ok (sensor_loop rx meta_lower headers []).

Definition candidates : list pystr :=
  [py "Date/Time"; py "Date Time"; py "Datetime"; py "Timestamp"; py "Date"].

(** lines 61-63, the inner loop *)
Fixpoint scan_headers (c : pystr) (headers : list pystr) : option pystr :=
  match headers with
  | [] => None
  | h :: rest =>
      if pystr_eqb (lower h) (lower c) then Some h else scan_headers c rest
  end.

(** lines 60-63, the outer loop *)
Fixpoint scan_candidates (cands : list pystr) (headers : list pystr)
  : option pystr :=
  match cands with
  | [] => None
  | c :: rest =>
      match scan_headers c headers with
      | Some h => Some h
      | None => scan_candidates rest headers
      end
  end.

(** lines 64-68 *)
Fixpoint fallback_loop (df : DataFrame) (headers : list pystr)
  : result (option pystr) :=
  match headers with
  | [] => Ok None
  | h :: rest =>
      match getitem df h with
      | None => Raise KeyError
      | Some col =>
          perform s <- to_datetime_dayfirst col ;;
          if notna_mean_gt_0_7 s then Ok (Some h) else fallback_loop df rest
      end
  end.

(** lines 56-68 *)
Definition find_datetime_col (df : DataFrame) : result (option pystr) :=
  let headers := normalize_headers (columns df) in
  match scan_candidates candidates headers with
  | Some h => Ok (Some h)
  | None => fallback_loop df headers
  end.

(** lines 71-83 *)
Definition coerce_datetime (series : Series) : list (option Z) :=
  let s :=
    match to_datetime_dayfirst series with
    | Ok s => s
    | Raise _ => all_nat (slen series)
    end in
  if isna_mean_gt_0_5 s
  then
    match (perform n <- to_numeric_coerce series ;;
           to_datetime_unit_origin (py "D") (py "1899-12-30") n) with
    | Ok s2 => fillna s s2
    | Raise _ => s
    end
  else s.

(** lines 86-89.  The frame is changed in place: the first component is
    the frame after the call, which is also what is returned when nothing
    was raised; the second is the exception, if any. *)
Fixpoint coerce_numeric (df : DataFrame) (cols : list pystr)
  : DataFrame * option exn :=
  match cols with
  | [] => (df, None)
  | c :: rest =>
      match getitem df c with
      | None => (df, Some KeyError)
      | Some col =>
          match to_numeric_coerce col with
          | Raise e => (df, Some e)
          | Ok col' => coerce_numeric (setitem df c col') rest
          end
      end
  end.

(** lines 92-110.  [insert_after] is a parameter of the function and is not
    read by its body.  The result is the pair of the caller's frame after
    the call (line 99 assigns into it) and the returned frame.  The lookup
    of line 96 fails exactly when line 94 returns; [first_valid] is
    [None] exactly when line 100 returns. *)
Definition add_days_column (df : DataFrame) (dt_col : option pystr)
    (insert_after : option pystr) : DataFrame * DataFrame :=
  match dt_col with
  | None => (df, df)
  | Some h =>
      match getitem df h with
      | None => (df, df)
      | Some col =>
          let '(dt, df) :=
            match col with
            | SDatetime l => (l, df)
            | _ => let dt := coerce_datetime col in
                   (dt, setitem df h (SDatetime dt))
            end in
          match first_valid dt with
          | None => (df, df)
          | Some t0 =>
              let baseline := normalize_ts t0 in
              let days := days_since baseline dt in
              let df1 := if has_column df DAYS then drop_column df DAYS else df in
              let insert_idx :=
                if has_column df1 h
                then index_of (columns df1) h + 1
                else length (columns df1) in
              let left := iloc_cols_to df1 insert_idx in
              let right := iloc_cols_from df1 insert_idx in
              (df, left ++ [(LStr DAYS, SNumeric days)] ++ right)
          end
      end
  end.

End WithRuntime.
End ExcelCleanerApp2Like.

(* ================================================================== *)
(** * streamlit_excel_cleaner_app.py                                   *)
(* ================================================================== *)

Module StreamlitExcelCleanerApp.

(** lines 27-37 *)
Fixpoint normalize_loop (cols : list label) (norm : list pystr) : list pystr :=
  match cols with
  | [] => norm
  | LNone :: rest => normalize_loop rest (norm ++ [py ""])
  | c :: rest =>
      let s := strip (replace_newline (str_of c)) in
      let s := re_sub_ws s in
      normalize_loop rest (norm ++ [s])
  end.

Definition normalize_headers (cols : list label) : list pystr :=
  normalize_loop cols [].

(** lines 40-41 *)
Definition SENSOR_DEFAULT_REGEX : pystr := py "^(ALARM_|.*_C$)".

Definition META_GUESS : list pystr :=
  [py "S/N"; py "S N"; py "SN"; py "Date/Time"; py "Date Time";
   py "Datetime"; py "Date"; py "Time"; py "Days"].

Section WithRuntime.
Context {R : Runtime}.

(** lines 52-56; the lowered meta set is built again at every header *)
Fixpoint sensor_loop (rx : regex) (headers : list pystr)
    (sensor_cols : list pystr) : list pystr :=
  match headers with
  | [] => sensor_cols
  | h :: rest =>
      if str_mem (lower h) (map lower META_GUESS)
      then sensor_loop rx rest sensor_cols
      else if rx_search rx h
           then sensor_loop rx rest (sensor_cols ++ [h])
           else sensor_loop rx rest sensor_cols
  end.

(** lines 44-57 *)
Definition detect_sensor_columns (df : DataFrame) (pattern : pystr)
  : result (list pystr) :=
  let headers := normalize_headers (columns df) in
  perform rx <- re_compile_ignorecase pattern ;;
  Ok (sensor_loop rx headers []).

Definition candidates : list pystr :=
  [py "Date/Time"; py "Date Time"; py "Datetime"; py "Timestamp"; py "Date"].

(** lines 71-73, the inner loop *)
Fixpoint scan_headers (c : pystr) (headers : list pystr) : option pystr :=
  match headers with
  | [] => None
  | h :: rest =>
      if pystr_eqb (lower h) (lower c) then Some h else scan_headers c rest
  end.

(** lines 70-73, the outer loop *)
Fixpoint scan_candidates (cands : list pystr) (headers : list pystr)
  : option pystr :=
  match cands with
  | [] => None
  | c :: rest =>
      match scan_headers c headers with
      | Some h => Some h
      | None => scan_candidates rest headers
      end
  end.

(** lines 75-79 *)
Fixpoint fallback_loop (df : DataFrame) (headers : list pystr)
  : result (option pystr) :=
  match headers with
  | [] => Ok None
  | h :: rest =>
      match getitem df h with
      | None => Raise KeyError
      | Some col =>
          perform s <- to_datetime_dayfirst col ;;
          if notna_mean_gt_0_7 s then Ok (Some h) else fallback_loop df rest
      end
  end.

(** lines 60-79 *)
Definition find_datetime_col (df : DataFrame) : result (option pystr) :=
  let headers := normalize_headers (columns df) in
  match scan_candidates candidates headers with
  | Some h => Ok (Some h)
  | None => fallback_loop df headers
  end.

(** lines 82-97 *)
Definition coerce_datetime (series : Series) : list (option Z) :=
  let s :=
    match to_datetime_dayfirst series with
    | Ok s => s
    | Raise _ => all_nat (slen series)
    end in
  if isna_mean_gt_0_5 s
  then
    match (perform n <- to_numeric_coerce series ;;
           to_datetime_unit_origin (py "D") (py "1899-12-30") n) with
    | Ok s2 => fillna s s2
    | Raise _ => s
    end
  else s.

(** lines 100-103.  The frame is changed in place: the first component is
    the frame after the call, which is also what is returned when nothing
    was raised; the second is the exception, if any. *)
Fixpoint coerce_numeric (df : DataFrame) (cols : list pystr)
  : DataFrame * option exn :=
  match cols with
  | [] => (df, None)
  | c :: rest =>
      match getitem df c with
      | None => (df, Some KeyError)
      | Some col =>
          match to_numeric_coerce col with
          | Raise e => (df, Some e)
          | Ok col' => coerce_numeric (setitem df c col') rest
          end
      end
  end.

(** lines 106-133.  The frame of the caller is never assigned into, so
    the result is the returned frame alone.  The lookup of line 113 fails
    exactly when line 111 returns; [first_valid] is [None] exactly when
    line 116 returns. *)
Definition add_days_column (df : DataFrame) (dt_col : option pystr)
    (insert_after : option pystr) : DataFrame :=
  match dt_col with
  | None => df
  | Some h =>
      match getitem df h with
      | None => df
      | Some col =>
          let dt :=
            match col with
            | SDatetime l => l
            | _ => coerce_datetime col
            end in
          match first_valid dt with
          | None => df
          | Some t0 =>
              let baseline := normalize_ts t0 in
              let days := days_since baseline dt in
              let df1 := if has_column df DAYS then drop_column df DAYS else df in
              let insert_idx :=
                match insert_after with
                | Some a =>
                    if truthy insert_after && has_column df1 a
                    then index_of (columns df1) a + 1
                    else if has_column df1 h
                         then index_of (columns df1) h + 1
                         else length (columns df1)
                | None =>
                    if has_column df1 h
                    then index_of (columns df1) h + 1
                    else length (columns df1)
                end in
              let left := iloc_cols_to df1 insert_idx in
              let right := iloc_cols_from df1 insert_idx in
              left ++ [(LStr DAYS, SNumeric days)] ++ right
          end
      end
  end.

End WithRuntime.
End StreamlitExcelCleanerApp.

(* ================================================================== *)
(** * The last stage of the cleaning script                            *)
(* ================================================================== *)

(** [if dt_col and pd.api.types.is_datetime64_any_dtype(clean_df[dt_col]):
       clean_df = clean_df.sort_values(dt_col).reset_index(drop=True)]

    The same two lines in the three scripts: excel_cleaner_app.py 239-240,
    excel_cleaner_app_2_like.py 176-177, streamlit_excel_cleaner_app.py
    224-225. *)
Definition sort_by_datetime {R : Runtime} (clean_df : DataFrame)
    (dt_col : option pystr) : result DataFrame :=
  match dt_col with
  | Some h =>
      if truthy dt_col
      then match getitem clean_df h with
           | None => Raise KeyError
           | Some (SDatetime keys) => Ok (sort_values clean_df keys)
           | Some _ => Ok clean_df
           end
      else Ok clean_df
  | None => Ok clean_df
  end.

(* ================================================================== *)
(** * A small runtime, for running the functions on concrete sheets    *)
(* ================================================================== *)

(** The instance below implements the interface on the part of the
    libraries that needs no text parsing and no Unicode tables:
    - [lower] maps [A-Z] to [a-z];
    - a pattern is the default sensor pattern, or a text without regular
      expression metacharacters (a case-insensitive substring search);
      every other pattern is reported as an error;
    - a timestamp cell converts to itself, a number is read as nanoseconds
      since 1970-01-01 (as [pd.to_datetime] reads numbers without a unit),
      an empty cell and a text cell convert to missing (the examples hold
      no text that reads as a date);
    - as a number, a cell is its number, a text of decimal digits is the
      number it writes, and every other cell is missing;
    - with unit ["D"] and origin ["1899-12-30"], a number of days counts
      from 1899-12-30 and the whole conversion raises when one result
      leaves the [int64] range of nanoseconds;
    - the argsort inserts the positions one by one. *)
Module Plain.

Definition ascii_lower (s : pystr) : pystr :=
  map (fun c => if ((65 <=? c) && (c <=? 90))%N then (c + 32)%N else c) s.

Inductive plain_regex : Type :=
| RxDefault
| RxLiteral (s : pystr).

Fixpoint starts_with (p s : pystr) : bool :=
  match p, s with
  | [], _ => true
  | x :: p', y :: s' => (x =? y)%N && starts_with p' s'
  | _ :: _, [] => false
  end.

Definition ends_with (p s : pystr) : bool := starts_with (rev p) (rev s).

Fixpoint contains (p s : pystr) : bool :=
  starts_with p s ||
  match s with
  | [] => false
  | _ :: s' => contains p s'
  end.

Definition metachars : pystr := py ".^$*+?{}[]\|()".

Definition compile (p : pystr) : result plain_regex :=
  if pystr_eqb p (py "^(ALARM_|.*_C$)") then Ok RxDefault
  else if existsb (fun c => existsb (N.eqb c) metachars) p
       then Raise PatternError
       else Ok (RxLiteral (ascii_lower p)).

Definition search (rx : plain_regex) (h : pystr) : bool :=
  match rx with
  | RxDefault =>
      starts_with (py "alarm_") (ascii_lower h)
      || ends_with (py "_c") (ascii_lower h)
  | RxLiteral s => contains s (ascii_lower h)
  end.

Definition trunc (q : Q) : Z := Z.quot (Qnum q) (Zpos (Qden q)).

Definition cell_to_datetime (v : value) : option Z :=
  match v with
  | VTime t => Some t
  | VNum q => Some (trunc q)
  | VNone => None
  | VStr _ => None
  end.

Definition to_datetime (s : Series) : result (list (option Z)) :=
  match s with
  | SDatetime l => Ok l
  | SNumeric l => Ok (map (option_map trunc) l)
  | SObject l => Ok (map cell_to_datetime l)
  end.

Definition is_digit (c : char) : bool := ((48 <=? c) && (c <=? 57))%N.

(** The number written by a text of decimal digits. *)
Definition decimal (s : pystr) : Z :=
  fold_left (fun acc c => (10 * acc + Z.of_N (c - 48))%Z) s 0%Z.

Definition cell_to_numeric (v : value) : option Q :=
  match v with
  | VNum q => Some q
  | VStr (c :: s) =>
      if forallb is_digit (c :: s) then Some (inject_Z (decimal (c :: s)))
      else None
  | _ => None
  end.

Definition to_numeric (s : Series) : result Series :=
  match s with
  | SObject l => Ok (SNumeric (map cell_to_numeric l))
  | SNumeric l => Ok (SNumeric l)
  | SDatetime l => Ok (SNumeric (map (option_map inject_Z) l))
  end.

(** 1899-12-30 is 25569 days before 1970-01-01. *)
Definition EXCEL_ORIGIN : Z := (- 25569 * Zpos NS_PER_DAY)%Z.

Definition serial_to_ns (q : Q) : Z :=
  (Z.quot (Qnum q * Zpos NS_PER_DAY) (Zpos (Qden q)) + EXCEL_ORIGIN)%Z.

Definition in_int64 (t : Z) : bool :=
  ((- 2 ^ 63 <? t) && (t <? 2 ^ 63))%Z.

Definition to_datetime_from (unit origin : pystr) (s : Series)
  : result (list (option Z)) :=
  if pystr_eqb unit (py "D") && pystr_eqb origin (py "1899-12-30")
  then match s with
       | SNumeric l =>
           let r := map (option_map serial_to_ns) l in
           if forallb (fun x => match x with
                                | Some t => in_int64 t
                                | None => true
                                end) r
           then Ok r
           else Raise OutOfBoundsDatetime
       | _ => Raise ValueError
       end
  else Raise ValueError.

(** Insertion of position [i] in front of the first position [j] of [acc]
    for which [before (key i) (key j)] holds. *)
Fixpoint insert_by (before : Z -> Z -> bool) (keys : list Z) (i : nat)
    (acc : list nat) : list nat :=
  match acc with
  | [] => [i]
  | j :: acc' =>
      if before (nth i keys 0%Z) (nth j keys 0%Z)
      then i :: acc
      else j :: insert_by before keys i acc'
  end.

Definition argsort_by (before : Z -> Z -> bool) (keys : list Z) : list nat :=
  fold_right (insert_by before keys) [] (seq 0 (length keys)).

(** Equal keys keep the order of their positions. *)
Definition argsort_stable : list Z -> list nat := argsort_by Z.leb.

#[export] Instance runtime : Runtime := {|
  lower := ascii_lower;
  regex := plain_regex;
  re_compile_ignorecase := compile;
  rx_search := search;
  to_datetime_dayfirst := to_datetime;
  to_numeric_coerce := to_numeric;
  to_datetime_unit_origin := to_datetime_from;
  argsort_quicksort := argsort_stable
|}.

End Plain.

(* ================================================================== *)
(** * The default sort of numpy                                        *)
(* ================================================================== *)

(** [DataFrame.sort_values] passes the timestamps that are not missing to
    [numpy.argsort(kind="quicksort")].  For a [datetime64] array that is the
    indirect introsort of numpy ([aquicksort] in [npysort/quicksort.cpp]):
    [tosort] starts as the positions [0 .. n-1] and is permuted in place; a
    segment [pl .. pr] with [pr - pl > SMALL_QUICKSORT] is partitioned around
    the median of its first, middle and last key, a shorter one is sorted by
    insertion.  The larger part of a partition is put on a stack and the
    smaller one is treated first; the segments are disjoint, so here the two
    parts are sorted one after the other.

    numpy counts the partitions and sorts a segment taken from the stack by
    heapsort once [2 * floor(log2 n)] of them lie above it.  That heapsort
    is not written out: such a segment is sorted by insertion here, so for
    it the order of equal keys is not the one of numpy.  No frame of this
    development reaches the limit. *)
Module Numpy.

Definition SMALL_QUICKSORT : nat := 15.

Section Keys.
Variable v : list Z.

(** [tosort[p]] and [tosort[p] = x] *)
Definition at_ (tosort : list nat) (p : nat) : nat := nth p tosort 0.

Fixpoint put (tosort : list nat) (p x : nat) : list nat :=
  match tosort, p with
  | [], _ => []
  | _ :: t, 0 => x :: t
  | y :: t, S p' => y :: put t p' x
  end.

Definition INTP_SWAP (tosort : list nat) (p q : nat) : list nat :=
  put (put tosort p (at_ tosort q)) q (at_ tosort p).

(** [v[tosort[p]]] *)
Definition key (tosort : list nat) (p : nat) : Z := nth (at_ tosort p) v 0%Z.

Definition less (a b : Z) : bool := (a <? b)%Z.

(** [do { ++pi; } while (less(v[*pi], vp));] *)
Fixpoint up (fuel : nat) (tosort : list nat) (vp : Z) (pi : nat) : nat :=
  match fuel with
  | 0 => pi + 1
  | S fuel' =>
      let pi := pi + 1 in
      if less (key tosort pi) vp then up fuel' tosort vp pi else pi
  end.

(** [do { --pj; } while (less(vp, v[*pj]));] *)
Fixpoint down (fuel : nat) (tosort : list nat) (vp : Z) (pj : nat) : nat :=
  match fuel with
  | 0 => pj - 1
  | S fuel' =>
      let pj := pj - 1 in
      if less vp (key tosort pj) then down fuel' tosort vp pj else pj
  end.

(** The loop [for (;;)] of the partition. *)
Fixpoint exchange (fuel : nat) (tosort : list nat) (vp : Z) (pi pj : nat)
  : list nat * nat :=
  match fuel with
  | 0 => (tosort, pi)
  | S fuel' =>
      let pi := up (length tosort) tosort vp pi in
      let pj := down (length tosort) tosort vp pj in
      if pj <=? pi
      then (tosort, pi)
      else exchange fuel' (INTP_SWAP tosort pi pj) vp pi pj
  end.

(** One partition of the segment [pl .. pr]: the permuted positions and the
    place of the pivot. *)
Definition partition (tosort : list nat) (pl pr : nat) : list nat * nat :=
  let pm := pl + (pr - pl) / 2 in
  let tosort :=
    if less (key tosort pm) (key tosort pl)
    then INTP_SWAP tosort pm pl else tosort in
  let tosort :=
    if less (key tosort pr) (key tosort pm)
    then INTP_SWAP tosort pr pm else tosort in
  let tosort :=
    if less (key tosort pm) (key tosort pl)
    then INTP_SWAP tosort pm pl else tosort in
  let vp := key tosort pm in
  let pi := pl in
  let pj := pr - 1 in
  let tosort := INTP_SWAP tosort pm pj in
  let '(tosort, pi) := exchange (length tosort) tosort vp pi pj in
  let pk := pr - 1 in
  (INTP_SWAP tosort pi pk, pi).

(** [while (pj > pl && less(vp, v[*pk])) { *pj-- = *pk--; }], with
    [pk = pj - 1] throughout. *)
Fixpoint shift (fuel : nat) (tosort : list nat) (pl : nat) (vp : Z)
    (pj : nat) : list nat * nat :=
  match fuel with
  | 0 => (tosort, pj)
  | S fuel' =>
      if (pl <? pj) && less vp (key tosort (pj - 1))
      then shift fuel' (put tosort pj (at_ tosort (pj - 1))) pl vp (pj - 1)
      else (tosort, pj)
  end.

(** The body of the insertion sort for one position [pi]. *)
Definition insert_at (tosort : list nat) (pl pi : nat) : list nat :=
  let vi := at_ tosort pi in
  let vp := nth vi v 0%Z in
  let '(tosort, pj) := shift pi tosort pl vp pi in
  put tosort pj vi.

(** [for (pi = pl + 1; pi <= pr; ++pi) ...] *)
Definition insertion (tosort : list nat) (pl pr : nat) : list nat :=
  fold_left (fun a pi => insert_at a pl pi) (seq (pl + 1) (pr - pl)) tosort.

(** A segment that is being partitioned ([from_stack = false]) or that was
    taken from the stack, where the count of partitions is tested. *)
Fixpoint segment (fuel : nat) (from_stack : bool) (tosort : list nat)
    (pl pr : nat) (cdepth : Z) : list nat :=
  match fuel with
  | 0 => tosort
  | S fuel' =>
      if from_stack && (cdepth <? 0)%Z
      then insertion tosort pl pr
      else if SMALL_QUICKSORT <? pr - pl
      then
        let '(tosort, pi) := partition tosort pl pr in
        let cdepth := (cdepth - 1)%Z in
        if pi - pl <? pr - pi
        then
          let tosort := segment fuel' false tosort pl (pi - 1) cdepth in
          segment fuel' true tosort (pi + 1) pr cdepth
        else
          let tosort := segment fuel' false tosort (pi + 1) pr cdepth in
          segment fuel' true tosort pl (pi - 1) cdepth
      else insertion tosort pl pr
  end.

(** [aquicksort(v, tosort, num)] on [tosort = 0 .. num-1] *)
Definition aquicksort : list nat :=
  let num := length v in
  let cdepth := (2 * Z.of_nat (Nat.log2 num))%Z in
  segment (S num) true (seq 0 num) 0 (num - 1) cdepth.

End Keys.

(** The libraries of [Plain.runtime], with the argsort of numpy. *)
Definition runtime : Runtime := {|
  lower := Plain.ascii_lower;
  regex := Plain.plain_regex;
  re_compile_ignorecase := Plain.compile;
  rx_search := Plain.search;
  to_datetime_dayfirst := Plain.to_datetime;
  to_numeric_coerce := Plain.to_numeric;
  to_datetime_unit_origin := Plain.to_datetime_from;
  argsort_quicksort := aquicksort
|}.

End Numpy.

(* ================================================================== *)
(** * Properties stated about strings and tables                       *)
(* ================================================================== *)

(** What the body of the normalisation loop makes of one label. *)
Definition normalize_label (c : label) : pystr :=
  match c with
  | LNone => py ""
  | _ => re_sub_ws (strip (replace_newline (str_of c)))
  end.

(** The first character, if any, is not whitespace. *)
Definition no_lead (s : pystr) : Prop :=
  match s with
  | [] => True
  | c :: _ => isspace c = false
  end.

(** The last character, if any, is not whitespace. *)
Definition no_trail (s : pystr) : Prop := no_lead (rev s).

(** Every whitespace character is a space and is followed by a character
    that is not whitespace. *)
Definition ws_collapsed (s : pystr) : Prop :=
  (forall c, In c s -> isspace c = true -> c = SP) /\
  (forall l a b r, s = l ++ a :: b :: r -> isspace a = true -> isspace b = false).

(** A normalised header. *)
Definition normalized (s : pystr) : Prop :=
  ~ In NL s /\ no_lead s /\ no_trail s /\ ws_collapsed s.

(** Boolean form of [ws_collapsed], relative to the character before. *)
Fixpoint tidy (prev_ws : bool) (s : pystr) : bool :=
  match s with
  | [] => true
  | c :: s' =>
      if isspace c
      then negb prev_ws && (c =? SP)%N && tidy true s'
      else tidy false s'
  end.

(** Labels of a frame are pairwise distinct strings. *)
Definition distinct_labels (df : DataFrame) : Prop := NoDup (columns df).

(** A header that sensor detection keeps: not a meta name, and the pattern
    is found in it. *)
Definition sensor_test {R : Runtime} (rx : regex) (h : pystr) : bool :=
  negb (str_mem (lower h) (map lower ExcelCleanerApp.META_GUESS))
  && rx_search rx h.

(** The column [h] of [df] can be read and parsed, and more than 0.7 of all
    its cells (the empty ones included) are timestamps. *)
Definition clears_threshold {R : Runtime} (df : DataFrame) (h : pystr) : Prop :=
  exists col s, getitem df h = Some col /\ to_datetime_dayfirst col = Ok s /\
                7 * length s < 10 * count_notna s.

(** The column [h] of [df] can be read and parsed, and at most 0.7 of all
    its cells are timestamps. *)
Definition below_threshold {R : Runtime} (df : DataFrame) (h : pystr) : Prop :=
  exists col s, getitem df h = Some col /\ to_datetime_dayfirst col = Ok s /\
                10 * count_notna s <= 7 * length s.

(** The result of the first try block of [coerce_datetime]. *)
Definition text_pass {R : Runtime} (series : Series) : list (option Z) :=
  match to_datetime_dayfirst series with
  | Ok s => s
  | Raise _ => all_nat (slen series)
  end.

(** The value of the second try block of [coerce_datetime]. *)
Definition serial_pass {R : Runtime} (series : Series)
  : result (list (option Z)) :=
  perform n <- to_numeric_coerce series ;;
  to_datetime_unit_origin (py "D") (py "1899-12-30") n.

(* ------------------------------------------------------------------ *)
(** ** The derived column                                              *)
(* ------------------------------------------------------------------ *)

(** The timestamps [add_days_column] computes with: the column itself when
    it has the timestamp dtype, its coercion otherwise. *)
Definition datetime_of {R : Runtime} (col : Series) : list (option Z) :=
  match col with
  | SDatetime l => l
  | _ => ExcelCleanerApp.coerce_datetime col
  end.

(** The values of [Days] for these timestamps; [None] when all are
    missing. *)
Definition days_of (dt : list (option Z)) : option (list (option Q)) :=
  match first_valid dt with
  | None => None
  | Some t0 => Some (days_since (normalize_ts t0) dt)
  end.

(** The frame without its columns named [Days]. *)
Definition without_days (df : DataFrame) : DataFrame := drop_column df DAYS.

(** The column [Days] put at position [i]. *)
Definition splice (df : DataFrame) (i : nat) (days : list (option Q))
  : DataFrame :=
  firstn i df ++ [(LStr DAYS, SNumeric days)] ++ skipn i df.

(** The position excel_cleaner_app.py and excel_cleaner_app_2_like.py
    compute. *)
Definition index_after (df : DataFrame) (h : pystr) : nat :=
  if has_column df h then index_of (columns df) h + 1 else length (columns df).

(** The position streamlit_excel_cleaner_app.py computes. *)
Definition index_after_target (df : DataFrame) (h : pystr)
    (insert_after : option pystr) : nat :=
  match insert_after with
  | Some a =>
      if truthy insert_after && has_column df a
      then index_of (columns df) a + 1
      else index_after df h
  | None => index_after df h
  end.

(** The frame of the caller after excel_cleaner_app.py has looked at the
    datetime column. *)
Definition written_back {R : Runtime} (df : DataFrame) (h : pystr)
    (col : Series) : DataFrame :=
  match col with
  | SDatetime _ => df
  | _ => setitem df h (SDatetime (ExcelCleanerApp.coerce_datetime col))
  end.

(** [out] is [base] with the column [Days] right after the first column
    named [target], and nothing else changed. *)
Definition days_right_after (base : DataFrame) (target : pystr)
    (days : list (option Q)) (out : DataFrame) : Prop :=
  exists l col r,
    base = l ++ (LStr target, col) :: r /\
    has_column l target = false /\
    out = l ++ (LStr target, col) :: (LStr DAYS, SNumeric days) :: r.

(** [out] is [base] with [values] in the first column named [target] and
    the column [Days] right after it, and nothing else changed. *)
Definition days_right_after_with (base : DataFrame) (target : pystr)
    (values : Series) (days : list (option Q)) (out : DataFrame) : Prop :=
  exists l col r,
    base = l ++ (LStr target, col) :: r /\
    has_column l target = false /\
    out = l ++ (LStr target, values) :: (LStr DAYS, SNumeric days) :: r.

(** How many columns of the frame are named [h]. *)
Definition count_label (df : DataFrame) (h : pystr) : nat :=
  length (filter (fun c => label_eqb c (LStr h)) (columns df)).

(* ------------------------------------------------------------------ *)
(** ** The order of the rows                                           *)
(* ------------------------------------------------------------------ *)

(** The rows of a frame, taken in the order of [indexer]. *)
Definition take_rows (indexer : list nat) (df : DataFrame) : DataFrame :=
  map (fun cs => (fst cs, take_series indexer (snd cs))) df.

(** The rows with a timestamp, and those without, in table order. *)
Definition valid_positions (keys : list (option Z)) : list nat :=
  filter (fun i => notna (nth i keys None)) (seq 0 (length keys)).

Definition missing_positions (keys : list (option Z)) : list nat :=
  filter (fun i => isna (nth i keys None)) (seq 0 (length keys)).

(** The key at a position. *)
Definition key_at (keys : list Z) (i : nat) : Z := nth i keys 0%Z.


(** A frame as the cleaning script holds it after its first line: every
    label is a string and is normalised. *)
Definition normalized_labels (df : DataFrame) : Prop :=
  Forall (fun c => exists s, c = LStr s /\ normalized s) (columns df).

(** No column of the frame makes [pd.to_datetime] raise. *)
Definition parses_without_error {R : Runtime} (df : DataFrame) : Prop :=
  forall c col, In (c, col) df -> exists s, to_datetime_dayfirst col = Ok s.

(** The small runtime on a series that makes [pd.to_datetime] raise: the
    text pass raises [ValueError] on every series, the rest is as in
    [Plain.runtime]. *)
Definition runtime_parser_raises : Runtime := {|
  lower := Plain.ascii_lower;
  regex := Plain.plain_regex;
  re_compile_ignorecase := Plain.compile;
  rx_search := Plain.search;
  to_datetime_dayfirst := fun _ => Raise ValueError;
  to_numeric_coerce := Plain.to_numeric;
  to_datetime_unit_origin := Plain.to_datetime_from;
  argsort_quicksort := Plain.argsort_stable
|}.

(* ------------------------------------------------------------------ *)
(** ** Rows and cells                                                  *)
(* ------------------------------------------------------------------ *)

(** Every column of the frame has [n] rows. *)
Definition row_count (df : DataFrame) (n : nat) : Prop :=
  Forall (fun cs => slen (snd cs) = n) df.

(** Two columns of the same dtype that hold the same cells, each as often
    as the other, in any order. *)
Definition same_cells (a b : Series) : Prop :=
  match a, b with
  | SObject x, SObject y => Permutation x y
  | SDatetime x, SDatetime y => Permutation x y
  | SNumeric x, SNumeric y => Permutation x y
  | _, _ => False
  end.

(* ------------------------------------------------------------------ *)
(** ** The cleaning script                                             *)
(* ------------------------------------------------------------------ *)

(** [df.columns = names]: pandas raises [ValueError] unless there are as
    many names as columns. *)
Definition set_columns (df : DataFrame) (names : list pystr)
  : result DataFrame :=
  if length names =? length df
  then Ok (combine (map LStr names) (map snd df))
  else Raise ValueError.

(** [len(df)] *)
Definition nrows (df : DataFrame) : nat :=
  match df with
  | [] => 0
  | (_, s) :: _ => slen s
  end.

(** [pd.isna] of the cell in row [i] of a column: an empty cell of an
    [object] column, [NaT], [NaN]. *)
Definition cell_isna (s : Series) (i : nat) : bool :=
  match s with
  | SObject l => match nth_error l i with
                 | Some VNone => true
                 | _ => false
                 end
  | SDatetime l => match nth_error l i with
                   | Some None => true
                   | _ => false
                   end
  | SNumeric l => match nth_error l i with
                  | Some None => true
                  | _ => false
                  end
  end.

(** The rows in which some cell is not missing. *)
Definition nonblank_rows (df : DataFrame) : list nat :=
  filter (fun i => negb (forallb (fun cs => cell_isna (snd cs) i) df))
         (seq 0 (nrows df)).

(** [df.dropna(how="all").reset_index(drop=True)] *)
Definition dropna_all (df : DataFrame) : DataFrame :=
  take_rows (nonblank_rows df) df.

(** What a call of an in-place function gives its caller: the frame, or
    the exception. *)
Definition returned (r : DataFrame * option exn) : result DataFrame :=
  match r with
  | (df, None) => Ok df
  | (_, Some e) => Raise e
  end.

(** The three scripts from the sheet as [pd.read_excel] returns it to the
    frame that is shown and written out, [clean_df].  The calls that only
    display something are left out. *)
Module CleaningScript.
Section WithRuntime.
Context {R : Runtime}.

(** excel_cleaner_app.py, lines 198-240 *)
Definition excel_cleaner_app (raw_df : DataFrame) (pattern : pystr)
    (keep_blank_rows : bool) : result DataFrame :=
  perform raw_df <-
    set_columns raw_df (ExcelCleanerApp.normalize_headers (columns raw_df)) ;;
  perform dt_col <- ExcelCleanerApp.find_datetime_col raw_df ;;
  perform sensor_cols <- ExcelCleanerApp.detect_sensor_columns raw_df pattern ;;
  let clean_df := raw_df in
  perform clean_df <-
    match dt_col with
    | Some h =>
        match getitem clean_df h with
        | Some col =>
            Ok (setitem clean_df h
                  (SDatetime (ExcelCleanerApp.coerce_datetime col)))
        | None => Raise KeyError
        end
    | None => Ok clean_df
    end ;;
  let clean_df := if keep_blank_rows then clean_df else dropna_all clean_df in
  perform clean_df <-
    returned (ExcelCleanerApp.coerce_numeric clean_df sensor_cols) ;;
  let clean_df :=
    snd (ExcelCleanerApp.add_days_column clean_df dt_col dt_col) in
  sort_by_datetime clean_df dt_col.

(** excel_cleaner_app_2_like.py, lines 143-177 *)
Definition excel_cleaner_app_2_like (raw_df : DataFrame) (pattern : pystr)
    (keep_blank_rows : bool) : result DataFrame :=
  perform raw_df <-
    set_columns raw_df
      (ExcelCleanerApp2Like.normalize_headers (columns raw_df)) ;;
  perform dt_col <- ExcelCleanerApp2Like.find_datetime_col raw_df ;;
  perform sensor_cols <-
    ExcelCleanerApp2Like.detect_sensor_columns raw_df pattern ;;
  let clean_df := raw_df in
  perform clean_df <-
    match dt_col with
    | Some h =>
        match getitem clean_df h with
        | Some col =>
            Ok (setitem clean_df h
                  (SDatetime (ExcelCleanerApp2Like.coerce_datetime col)))
        | None => Raise KeyError
        end
    | None => Ok clean_df
    end ;;
  let clean_df := if keep_blank_rows then clean_df else dropna_all clean_df in
  perform clean_df <-
    returned (ExcelCleanerApp2Like.coerce_numeric clean_df sensor_cols) ;;
  let clean_df :=
    snd (ExcelCleanerApp2Like.add_days_column clean_df dt_col dt_col) in
  sort_by_datetime clean_df dt_col.

(** streamlit_excel_cleaner_app.py, lines 178-225 *)
Definition streamlit_excel_cleaner_app (raw_df : DataFrame) (pattern : pystr)
    (keep_blank_rows : bool) : result DataFrame :=
  perform raw_df <-
    set_columns raw_df
      (StreamlitExcelCleanerApp.normalize_headers (columns raw_df)) ;;
  perform dt_col <- StreamlitExcelCleanerApp.find_datetime_col raw_df ;;
  perform sensor_cols <-
    StreamlitExcelCleanerApp.detect_sensor_columns raw_df pattern ;;
  let clean_df := raw_df in
  perform clean_df <-
    match dt_col with
    | Some h =>
        match getitem clean_df h with
        | Some col =>
            Ok (setitem clean_df h
                  (SDatetime (StreamlitExcelCleanerApp.coerce_datetime col)))
        | None => Raise KeyError
        end
    | None => Ok clean_df
    end ;;
  let clean_df := if keep_blank_rows then clean_df else dropna_all clean_df in
  perform clean_df <-
    returned (StreamlitExcelCleanerApp.coerce_numeric clean_df sensor_cols) ;;
  let clean_df :=
    StreamlitExcelCleanerApp.add_days_column clean_df dt_col dt_col in
  sort_by_datetime clean_df dt_col.

End WithRuntime.
End CleaningScript.

(** The sheet with the headers the script gives it. *)
Definition with_normalized_headers (raw_df : DataFrame) : DataFrame :=
  combine (map LStr (ExcelCleanerApp.normalize_headers (columns raw_df)))
          (map snd raw_df).

(** The frame after the datetime coercion of the scripts
    ([if dt_col is not None: clean_df[dt_col] = coerce_datetime(...)]). *)
Definition datetime_stage {R : Runtime} (df : DataFrame)
    (dt_col : option pystr) : result DataFrame :=
  match dt_col with
  | Some h =>
      match getitem df h with
      | Some col =>
          Ok (setitem df h (SDatetime (ExcelCleanerApp.coerce_datetime col)))
      | None => Raise KeyError
      end
  | None => Ok df
  end.

(** The frame after [if not keep_blank_rows: ...]. *)
Definition blank_stage (keep_blank_rows : bool) (df : DataFrame) : DataFrame :=
  if keep_blank_rows then df else dropna_all df.

(** [pd.to_numeric] returns a series on the index of its argument. *)
Definition to_numeric_keeps_length (R : Runtime) : Prop :=
  forall s s', to_numeric_coerce s = Ok s' -> slen s' = slen s.

(* ------------------------------------------------------------------ *)
(** ** Sheets used as examples                                         *)
(* ------------------------------------------------------------------ *)

Module Sheets.

Definition DAY : Z := Zpos NS_PER_DAY.

(** Three headers that match a candidate: [Date], and two spellings of
    [Timestamp]. *)
Definition priority : DataFrame :=
  [(LStr (py "Date"), SObject []);
   (LStr (py "timestamp"), SObject []);
   (LStr (py "TIMESTAMP"), SObject [])].

(** One column, [When]: three timestamps and two empty cells. *)
Definition sparse_cells : list value :=
  [VTime 0; VTime DAY; VTime (2 * DAY); VNone; VNone].

Definition sparse : DataFrame := [(LStr (py "When"), SObject sparse_cells)].

(** A text column, then a column with three timestamps and one empty
    cell. *)
Definition dense : DataFrame :=
  [(LStr (py "Note"), SObject [VStr (py "a"); VStr (py "b"); VNone; VNone]);
   (LStr (py "When"), SObject [VTime 0; VTime DAY; VTime (2 * DAY); VNone])].

(** A cell that is not empty. *)
Definition nonempty (v : value) : bool :=
  match v with
  | VNone => false
  | _ => true
  end.

(** Two texts and a timestamp: a spreadsheet serial written as text, a
    text that is no number, and 1970-01-01. *)
Definition serial_text : Series :=
  SObject [VStr (py "44200"); VStr (py "n/a"); VTime 0].

(** A datetime column with the timestamp dtype, and a text column. *)
Definition typed_dates : DataFrame :=
  [(LStr (py "Date"), SDatetime [Some 0%Z; Some (DAY + DAY / 2)%Z]);
   (LStr (py "A"), SObject [VStr (py "x"); VStr (py "y")])].

(** The same sheet as it is read, with dtype [object]. *)
Definition raw_dates : DataFrame :=
  [(LStr (py "Date"), SObject [VTime 0; VTime (DAY + DAY / 2)]);
   (LStr (py "A"), SObject [VStr (py "x"); VStr (py "y")])].

(** A sheet whose datetime column has no date. *)
Definition no_dates : DataFrame :=
  [(LStr (py "Date"), SObject [VStr (py "n/a"); VNone]);
   (LStr (py "A"), SObject [VStr (py "x"); VStr (py "y")])].

(** A sheet whose datetime column is itself named [Days]. *)
Definition days_named : DataFrame :=
  [(LStr DAYS, SObject [VTime 0; VTime DAY])].


(** Rows out of order, one without a timestamp. *)
Definition unsorted : DataFrame :=
  [(LStr (py "Date"), SDatetime [Some (3 * DAY)%Z; None; Some DAY]);
   (LStr (py "Tag"), SObject [VStr (py "c"); VStr (py "b"); VStr (py "a")])].


(** Meta columns and sensor columns, in mixed case. *)
Definition sensors : DataFrame :=
  [(LStr (py "S/N"), SObject []);
   (LStr (py "ALARM_HI"), SObject []);
   (LStr (py "days"), SObject []);
   (LStr (py "probe_c"), SObject []);
   (LStr (py "Note"), SObject [])].

(** A sheet whose only header carries spaces around its text. *)
Definition padded : DataFrame :=
  [(LStr (py " When "), SObject [VTime 0])].

(** Two sensor columns holding text, and a note. *)
Definition readings : DataFrame :=
  [(LStr (py "ALARM_HI"), SObject [VStr (py "12"); VStr (py "N/A")]);
   (LStr (py "Note"), SObject [VStr (py "ok"); VNone]);
   (LStr (py "PROBE_C"), SObject [VNum (inject_Z 7); VStr (py "8")])].


(** A log as it is read: a padded header, a blank row, a row whose only
    content is a date that cannot be read, and two rows out of order. *)
Definition logged : DataFrame :=
  [(LStr (py " Date "),
    SObject [VTime (2 * DAY); VNone; VTime DAY; VStr (py "n/a")]);
   (LStr (py "ALARM_HI"),
    SObject [VStr (py "12"); VNone; VNum (inject_Z 7); VNone]);
   (LNone,
    SObject [VStr (py "late"); VNone; VStr (py "early"); VNone])].

(** What the scripts make of it.  The baseline of [Days] is the day of the
    first timestamp of the sheet, which is not the earliest one. *)
Definition logged_clean : DataFrame :=
  [(LStr (py "Date"), SDatetime [Some DAY; Some (2 * DAY)%Z]);
   (LStr DAYS, SNumeric [Some (Qmake (- DAY) NS_PER_DAY);
                         Some (Qmake 0 NS_PER_DAY)]);
   (LStr (py "ALARM_HI"), SNumeric [Some (inject_Z 7); Some (inject_Z 12)]);
   (LStr (py ""), SObject [VStr (py "early"); VStr (py "late")])].



End Sheets.

(* ================================================================== *)
(** * Header normalisation                                             *)
(* ================================================================== *)

Section Normalisation.

Lemma pystr_eqb_eq (a b : pystr) : pystr_eqb a b = true <-> a = b.
Proof.
  revert b; induction a as [|x a IH]; intros [|y b]; simpl; split;
    try congruence; try reflexivity.
  - rewrite andb_true_iff, N.eqb_eq, IH. intros [-> ->]. reflexivity.
  - intros E. injection E as -> ->.
    rewrite N.eqb_refl. simpl. apply IH. reflexivity.
Qed.

Lemma pystr_eqb_refl (a : pystr) : pystr_eqb a a = true.
Proof. apply pystr_eqb_eq. reflexivity. Qed.

Lemma pystr_eqb_neq (a b : pystr) : pystr_eqb a b = false <-> a <> b.
Proof.
  destruct (pystr_eqb a b) eqn:E.
  - apply pystr_eqb_eq in E. split; congruence.
  - split; [intros _ H | reflexivity].
    apply pystr_eqb_eq in H. congruence.
Qed.

Lemma tidy_sub_ws (b : bool) (s : pystr) : tidy b (sub_ws b s) = true.
Proof.
  revert b; induction s as [|c s IH]; intros b; simpl; [reflexivity|].
  destruct (isspace c) eqn:Hc.
  - destruct b; simpl.
    + apply IH.
    + change (isspace SP) with true. simpl. apply IH.
  - simpl. rewrite Hc. apply IH.
Qed.

Lemma sub_ws_tidy (b : bool) (s : pystr) : tidy b s = true -> sub_ws b s = s.
Proof.
  revert b; induction s as [|c s IH]; intros b; simpl; [reflexivity|].
  destruct (isspace c) eqn:Hc.
  - rewrite !andb_true_iff. intros [[Hb Hsp] Ht].
    destruct b; [discriminate|].
    apply N.eqb_eq in Hsp. subst c. f_equal. apply IH, Ht.
  - intros Ht. f_equal. apply IH, Ht.
Qed.

Lemma tidy_spaces (b : bool) (s : pystr) :
  tidy b s = true -> forall c, In c s -> isspace c = true -> c = SP.
Proof.
  revert b; induction s as [|x s IH]; intros b Ht c Hin Hc; [destruct Hin|].
  simpl in Ht. destruct Hin as [<- | Hin].
  - rewrite Hc in Ht. rewrite !andb_true_iff in Ht.
    destruct Ht as [[_ E] _]. apply N.eqb_eq in E. exact E.
  - destruct (isspace x).
    + rewrite !andb_true_iff in Ht. destruct Ht as [_ Ht]. eauto.
    + eauto.
Qed.

Lemma tidy_no_adjacent (b : bool) (s : pystr) :
  tidy b s = true ->
  forall l x y r, s = l ++ x :: y :: r -> isspace x = true -> isspace y = false.
Proof.
  revert b; induction s as [|c s IH]; intros b Ht l x y r E Hx.
  - destruct l; discriminate.
  - simpl in Ht. destruct l as [|c' l]; simpl in E; injection E as -> ->.
    + rewrite Hx in Ht. rewrite !andb_true_iff in Ht.
      destruct Ht as [_ Ht]. simpl in Ht.
      destruct (isspace y); [discriminate | reflexivity].
    + destruct (isspace c').
      * rewrite !andb_true_iff in Ht. destruct Ht as [_ Ht].
        eapply IH; eauto.
      * eapply IH; eauto.
Qed.

Lemma tidy_ws_collapsed (s : pystr) : tidy false s = true -> ws_collapsed s.
Proof.
  intros Ht. split.
  - eapply tidy_spaces; eauto.
  - eapply tidy_no_adjacent; eauto.
Qed.

Lemma ws_collapsed_no_newline (s : pystr) : ws_collapsed s -> ~ In NL s.
Proof.
  intros [H _] Hin. specialize (H NL Hin eq_refl). discriminate.
Qed.

Lemma lstrip_no_lead (s : pystr) : no_lead (lstrip s).
Proof.
  induction s as [|c s IH]; simpl; [exact I|].
  destruct (isspace c) eqn:Hc; [exact IH | exact Hc].
Qed.

Lemma lstrip_fixed (s : pystr) : no_lead s -> lstrip s = s.
Proof.
  destruct s as [|c s]; simpl; [reflexivity|]. intros ->. reflexivity.
Qed.

(** [lstrip] removes a prefix. *)
Lemma lstrip_suffix (s : pystr) : exists p, s = p ++ lstrip s.
Proof.
  induction s as [|c s [p IH]]; simpl.
  - exists []. reflexivity.
  - destruct (isspace c).
    + exists (c :: p). simpl. f_equal. exact IH.
    + exists []. reflexivity.
Qed.

(** [rstrip] removes a suffix. *)
Lemma rstrip_prefix (s : pystr) : exists w, s = rstrip s ++ w.
Proof.
  unfold rstrip. destruct (lstrip_suffix (rev s)) as [p E].
  exists (rev p). rewrite <- rev_app_distr, <- E, rev_involutive. reflexivity.
Qed.

Lemma rstrip_no_trail (s : pystr) : no_trail (rstrip s).
Proof.
  unfold no_trail, rstrip. rewrite rev_involutive. apply lstrip_no_lead.
Qed.

Lemma rstrip_no_lead (s : pystr) : no_lead s -> no_lead (rstrip s).
Proof.
  intros H. destruct (rstrip_prefix s) as [w E].
  destruct (rstrip s) as [|c r]; [exact I|].
  rewrite E in H. exact H.
Qed.

Lemma strip_fixed (s : pystr) : no_lead s -> no_trail s -> strip s = s.
Proof.
  intros H1 H2. unfold strip. rewrite (lstrip_fixed s H1).
  unfold rstrip. rewrite (lstrip_fixed (rev s) H2). apply rev_involutive.
Qed.

Lemma sub_ws_no_lead (s : pystr) : no_lead s -> no_lead (sub_ws false s).
Proof.
  destruct s as [|c s]; simpl; [trivial|]. intros Hc. rewrite Hc. exact Hc.
Qed.

Lemma sub_ws_snoc (b : bool) (s : pystr) (c : char) :
  isspace c = false -> sub_ws b (s ++ [c]) = sub_ws b s ++ [c].
Proof.
  intros Hc. revert b; induction s as [|a s IH]; intros b; simpl.
  - rewrite Hc. reflexivity.
  - destruct (isspace a); [destruct b|]; simpl; rewrite IH; reflexivity.
Qed.

Lemma sub_ws_no_trail (s : pystr) : no_trail s -> no_trail (sub_ws false s).
Proof.
  unfold no_trail. intros H.
  destruct (rev s) as [|c r] eqn:E.
  - apply (f_equal (@rev char)) in E. rewrite rev_involutive in E.
    subst s. exact I.
  - apply (f_equal (@rev char)) in E. rewrite rev_involutive in E.
    simpl in E. subst s. simpl in H.
    rewrite (sub_ws_snoc false (rev r) c H), rev_app_distr. simpl. exact H.
Qed.

Lemma replace_newline_fixed (s : pystr) : ~ In NL s -> replace_newline s = s.
Proof.
  unfold replace_newline. induction s as [|c s IH]; simpl; [reflexivity|].
  intros H. destruct (c =? NL)%N eqn:E.
  - apply N.eqb_eq in E. exfalso. apply H. left. exact E.
  - f_equal. apply IH. intros Hin. apply H. right. exact Hin.
Qed.

Lemma normalize_label_normalized (c : label) : normalized (normalize_label c).
Proof.
  assert (G : forall x, normalized (re_sub_ws (strip (replace_newline x)))).
  { intros x. unfold re_sub_ws.
    set (y := strip (replace_newline x)).
    assert (Hl : no_lead y)
      by (apply rstrip_no_lead, lstrip_no_lead).
    assert (Ht : no_trail y) by apply rstrip_no_trail.
    assert (Hc : ws_collapsed (sub_ws false y))
      by apply tidy_ws_collapsed, tidy_sub_ws.
    repeat split; try apply Hc.
    - apply ws_collapsed_no_newline, Hc.
    - apply sub_ws_no_lead, Hl.
    - apply sub_ws_no_trail, Ht. }
  destruct c; simpl; try apply G.
  repeat split; simpl; try tauto; try discriminate.
  intros [|? [|? l]] a b r E; discriminate.
Qed.

(** A normalised header is left as it is. *)
Lemma normalize_label_fixed (s : pystr) :
  normalized s -> normalize_label (LStr s) = s.
Proof.
  intros (Hn & Hl & Ht & Hc). simpl.
  rewrite (replace_newline_fixed s Hn), (strip_fixed s Hl Ht).
  apply sub_ws_tidy.
  (* the boolean form follows from the two clauses of [ws_collapsed] *)
  destruct Hc as [Hsp Hadj]. clear Hn Hl Ht.
  assert (G : forall b (t : pystr) pre, s = pre ++ t ->
            (b = true -> no_lead t) -> tidy b t = true).
  2: { apply (G false s []); [reflexivity | discriminate]. }
  intros b t; revert b; induction t as [|c t IH]; intros b pre E Hb;
    [reflexivity|].
  assert (Hin : In c s) by (rewrite E; apply in_or_app; right; left; reflexivity).
  simpl. destruct (isspace c) eqn:Hws.
  - destruct b; [specialize (Hb eq_refl); simpl in Hb; congruence|].
    simpl. rewrite (Hsp c Hin Hws). simpl.
    apply (IH true (pre ++ [c])).
    + rewrite E, <- app_assoc. reflexivity.
    + intros _. destruct t as [|d t]; [exact I|]. simpl.
      apply (Hadj pre c d t E Hws).
  - apply (IH false (pre ++ [c])).
    + rewrite E, <- app_assoc. reflexivity.
    + discriminate.
Qed.

End Normalisation.

(* ------------------------------------------------------------------ *)
(** ** The loop of [normalize_headers], in the three scripts           *)
(* ------------------------------------------------------------------ *)

Ltac loop_appends IH :=
  simpl; rewrite IH, <- app_assoc; reflexivity.

Lemma normalize_loop_app (cols : list label) (norm : list pystr) :
  ExcelCleanerApp.normalize_loop cols norm = norm ++ map normalize_label cols.
Proof.
  revert norm; induction cols as [|c cols IH]; intros norm.
  - simpl. rewrite app_nil_r. reflexivity.
  - destruct c; loop_appends IH.
Qed.

Lemma normalize_loop_app_2_like (cols : list label) (norm : list pystr) :
  ExcelCleanerApp2Like.normalize_loop cols norm
  = norm ++ map normalize_label cols.
Proof.
  revert norm; induction cols as [|c cols IH]; intros norm.
  - simpl. rewrite app_nil_r. reflexivity.
  - destruct c; loop_appends IH.
Qed.

Lemma normalize_loop_app_streamlit (cols : list label) (norm : list pystr) :
  StreamlitExcelCleanerApp.normalize_loop cols norm
  = norm ++ map normalize_label cols.
Proof.
  revert norm; induction cols as [|c cols IH]; intros norm.
  - simpl. rewrite app_nil_r. reflexivity.
  - destruct c; loop_appends IH.
Qed.

Lemma normalize_headers_map (cols : list label) :
  ExcelCleanerApp.normalize_headers cols = map normalize_label cols.
Proof. apply normalize_loop_app. Qed.

Lemma normalize_headers_2_like (cols : list label) :
  ExcelCleanerApp2Like.normalize_headers cols
  = ExcelCleanerApp.normalize_headers cols.
Proof.
  unfold ExcelCleanerApp2Like.normalize_headers.
  rewrite normalize_loop_app_2_like, normalize_headers_map. reflexivity.
Qed.

Lemma normalize_headers_streamlit (cols : list label) :
  StreamlitExcelCleanerApp.normalize_headers cols
  = ExcelCleanerApp.normalize_headers cols.
Proof.
  unfold StreamlitExcelCleanerApp.normalize_headers.
  rewrite normalize_loop_app_streamlit, normalize_headers_map. reflexivity.
Qed.

Lemma map_normalize_label_fixed (l : list pystr) :
  Forall normalized l -> map normalize_label (map LStr l) = l.
Proof.
  induction 1 as [|s l Hs _ IH]; simpl in *; [reflexivity|].
  rewrite IH. f_equal. apply (normalize_label_fixed Hs).
Qed.

Lemma normalize_headers_normalized (cols : list label) :
  Forall normalized (ExcelCleanerApp.normalize_headers cols).
Proof.
  rewrite normalize_headers_map. apply Forall_forall. intros s Hs.
  apply in_map_iff in Hs. destruct Hs as (c & <- & _).
  apply normalize_label_normalized.
Qed.

(** C7.  Header normalisation, as written in excel_cleaner_app.py and in
    streamlit_excel_cleaner_app.py, is idempotent on every sequence of
    labels (strings, [None], or any other object); its result has the
    length and the order of the input (it is the image of the input under
    the per-label normalisation), and each resulting string has no newline,
    no leading or trailing whitespace, and only single spaces as internal
    whitespace. *)
Theorem normalize_headers_idempotent (cols : list label) :
  let out := ExcelCleanerApp.normalize_headers cols in
  StreamlitExcelCleanerApp.normalize_headers cols = out /\
  ExcelCleanerApp.normalize_headers (map LStr out) = out /\
  StreamlitExcelCleanerApp.normalize_headers
    (map LStr (StreamlitExcelCleanerApp.normalize_headers cols))
  = StreamlitExcelCleanerApp.normalize_headers cols /\
  length out = length cols /\
  out = map normalize_label cols /\
  Forall normalized out.
Proof.
  intros out. subst out.
  assert (Hfix : ExcelCleanerApp.normalize_headers
                   (map LStr (ExcelCleanerApp.normalize_headers cols))
                 = ExcelCleanerApp.normalize_headers cols).
  { rewrite (normalize_headers_map (map LStr _)).
    apply map_normalize_label_fixed, normalize_headers_normalized. }
  repeat apply conj.
  - apply normalize_headers_streamlit.
  - exact Hfix.
  - rewrite (normalize_headers_streamlit cols).
    rewrite (normalize_headers_streamlit (map LStr _)). exact Hfix.
  - rewrite normalize_headers_map. apply length_map.
  - apply normalize_headers_map.
  - apply normalize_headers_normalized.
Qed.

(* ================================================================== *)
(** * Sensor detection                                                 *)
(* ================================================================== *)

Section SensorDetection.
Context {R : Runtime}.

Lemma sensor_loop_filter (rx : regex) (headers acc : list pystr) :
  ExcelCleanerApp.sensor_loop rx (map lower ExcelCleanerApp.META_GUESS)
    headers acc
  = acc ++ filter (sensor_test rx) headers.
Proof.
  revert acc; induction headers as [|h headers IH]; intros acc.
  - simpl. rewrite app_nil_r. reflexivity.
  - cbn [ExcelCleanerApp.sensor_loop filter]. unfold sensor_test at 1.
    destruct (str_mem (lower h) (map lower ExcelCleanerApp.META_GUESS));
      cbn [negb andb].
    + apply IH.
    + destruct (rx_search rx h).
      * rewrite IH, <- app_assoc. reflexivity.
      * apply IH.
Qed.

Lemma sensor_loop_filter_streamlit (rx : regex) (headers acc : list pystr) :
  StreamlitExcelCleanerApp.sensor_loop rx headers acc
  = acc ++ filter (sensor_test rx) headers.
Proof.
  revert acc; induction headers as [|h headers IH]; intros acc.
  - simpl. rewrite app_nil_r. reflexivity.
  - cbn [StreamlitExcelCleanerApp.sensor_loop filter].
    unfold sensor_test at 1.
    change StreamlitExcelCleanerApp.META_GUESS with ExcelCleanerApp.META_GUESS.
    destruct (str_mem (lower h) (map lower ExcelCleanerApp.META_GUESS));
      cbn [negb andb].
    + apply IH.
    + destruct (rx_search rx h).
      * rewrite IH, <- app_assoc. reflexivity.
      * apply IH.
Qed.

Lemma detect_sensor_columns_filter (df : DataFrame) (pattern : pystr) :
  ExcelCleanerApp.detect_sensor_columns df pattern
  = match re_compile_ignorecase pattern with
    | Raise e => Raise e
    | Ok rx =>
        Ok (filter (sensor_test rx)
              (ExcelCleanerApp.normalize_headers (columns df)))
    end.
Proof.
  unfold ExcelCleanerApp.detect_sensor_columns, bind.
  destruct (re_compile_ignorecase pattern) as [rx|e]; [|reflexivity].
  rewrite sensor_loop_filter. reflexivity.
Qed.

Lemma detect_sensor_columns_2_like (df : DataFrame) (pattern : pystr) :
  ExcelCleanerApp2Like.detect_sensor_columns df pattern
  = ExcelCleanerApp.detect_sensor_columns df pattern.
Proof. reflexivity. Qed.

Lemma detect_sensor_columns_streamlit (df : DataFrame) (pattern : pystr) :
  StreamlitExcelCleanerApp.detect_sensor_columns df pattern
  = ExcelCleanerApp.detect_sensor_columns df pattern.
Proof.
  rewrite detect_sensor_columns_filter.
  unfold StreamlitExcelCleanerApp.detect_sensor_columns, bind.
  destruct (re_compile_ignorecase pattern) as [rx|e]; [|reflexivity].
  rewrite sensor_loop_filter_streamlit, normalize_headers_streamlit.
  reflexivity.
Qed.

(** C8.  In excel_cleaner_app.py and in streamlit_excel_cleaner_app.py,
    [detect_sensor_columns] raises exactly the error of [re.compile] when
    the pattern does not compile, whatever the frame is (also for a frame
    without columns: no header is classified and nothing is returned in its
    place); when the pattern compiles it returns a list and does not raise:
    the normalised headers, in order, that are no meta name and in which
    the pattern is found. *)
Theorem detect_sensor_columns_raises_iff_pattern_invalid
    (df : DataFrame) (pattern : pystr) :
  let outcome :=
    match re_compile_ignorecase pattern with
    | Raise e => Raise e
    | Ok rx =>
        Ok (filter (sensor_test rx)
              (ExcelCleanerApp.normalize_headers (columns df)))
    end in
  ExcelCleanerApp.detect_sensor_columns df pattern = outcome /\
  StreamlitExcelCleanerApp.detect_sensor_columns df pattern = outcome.
Proof.
  intros outcome. split.
  - apply detect_sensor_columns_filter.
  - rewrite detect_sensor_columns_streamlit.
    apply detect_sensor_columns_filter.
Qed.

End SensorDetection.

(* ================================================================== *)
(** * The five helpers are the same function in the three scripts      *)
(* ================================================================== *)

Section SameHelpers.
Context {R : Runtime}.

Lemma find_datetime_col_2_like (df : DataFrame) :
  ExcelCleanerApp2Like.find_datetime_col df
  = ExcelCleanerApp.find_datetime_col df.
Proof. reflexivity. Qed.

Lemma find_datetime_col_streamlit (df : DataFrame) :
  StreamlitExcelCleanerApp.find_datetime_col df
  = ExcelCleanerApp.find_datetime_col df.
Proof. reflexivity. Qed.

Lemma coerce_datetime_2_like (series : Series) :
  ExcelCleanerApp2Like.coerce_datetime series
  = ExcelCleanerApp.coerce_datetime series.
Proof. reflexivity. Qed.

Lemma coerce_datetime_streamlit (series : Series) :
  StreamlitExcelCleanerApp.coerce_datetime series
  = ExcelCleanerApp.coerce_datetime series.
Proof. reflexivity. Qed.

Lemma coerce_numeric_2_like (df : DataFrame) (cols : list pystr) :
  ExcelCleanerApp2Like.coerce_numeric df cols
  = ExcelCleanerApp.coerce_numeric df cols.
Proof. reflexivity. Qed.

Lemma coerce_numeric_streamlit (df : DataFrame) (cols : list pystr) :
  StreamlitExcelCleanerApp.coerce_numeric df cols
  = ExcelCleanerApp.coerce_numeric df cols.
Proof. reflexivity. Qed.

(** C10.  [normalize_headers], [detect_sensor_columns], [find_datetime_col],
    [coerce_datetime] and [coerce_numeric] of excel_cleaner_app_2_like.py
    and of streamlit_excel_cleaner_app.py return, on every input, what the
    function of the same name of excel_cleaner_app.py returns, and raise
    when and what it raises (for [coerce_numeric]: with the same frame left
    behind); so the three versions of each function agree pairwise. *)
Theorem helpers_agree_across_scripts :
  (forall cols,
      ExcelCleanerApp2Like.normalize_headers cols
      = ExcelCleanerApp.normalize_headers cols /\
      StreamlitExcelCleanerApp.normalize_headers cols
      = ExcelCleanerApp.normalize_headers cols) /\
  (forall df pattern,
      ExcelCleanerApp2Like.detect_sensor_columns df pattern
      = ExcelCleanerApp.detect_sensor_columns df pattern /\
      StreamlitExcelCleanerApp.detect_sensor_columns df pattern
      = ExcelCleanerApp.detect_sensor_columns df pattern) /\
  (forall df,
      ExcelCleanerApp2Like.find_datetime_col df
      = ExcelCleanerApp.find_datetime_col df /\
      StreamlitExcelCleanerApp.find_datetime_col df
      = ExcelCleanerApp.find_datetime_col df) /\
  (forall series,
      ExcelCleanerApp2Like.coerce_datetime series
      = ExcelCleanerApp.coerce_datetime series /\
      StreamlitExcelCleanerApp.coerce_datetime series
      = ExcelCleanerApp.coerce_datetime series) /\
  (forall df cols,
      ExcelCleanerApp2Like.coerce_numeric df cols
      = ExcelCleanerApp.coerce_numeric df cols /\
      StreamlitExcelCleanerApp.coerce_numeric df cols
      = ExcelCleanerApp.coerce_numeric df cols).
Proof.
  split; [|split; [|split; [|split]]]; intros; split.
  - apply normalize_headers_2_like.
  - apply normalize_headers_streamlit.
  - apply detect_sensor_columns_2_like.
  - apply detect_sensor_columns_streamlit.
  - apply find_datetime_col_2_like.
  - apply find_datetime_col_streamlit.
  - apply coerce_datetime_2_like.
  - apply coerce_datetime_streamlit.
  - apply coerce_numeric_2_like.
  - apply coerce_numeric_streamlit.
Qed.

End SameHelpers.

(* ================================================================== *)
(** * Datetime column detection                                        *)
(* ================================================================== *)

Section DatetimeDetection.
Context {R : Runtime}.

Lemma scan_headers_none (c : pystr) (headers : list pystr) :
  ExcelCleanerApp.scan_headers c headers = None <->
  (forall h, In h headers -> lower h <> lower c).
Proof.
  induction headers as [|h headers IH]; simpl.
  - split; [intros _ h [] | reflexivity].
  - destruct (pystr_eqb (lower h) (lower c)) eqn:E.
    + split; [discriminate|]. intros H. apply pystr_eqb_eq in E.
      exfalso. apply (H h); auto.
    + apply pystr_eqb_neq in E. rewrite IH. split.
      * intros H h' [<- | Hin]; auto.
      * intros H h' Hin. apply H. auto.
Qed.

Lemma scan_headers_some (c : pystr) (headers : list pystr) (h : pystr) :
  ExcelCleanerApp.scan_headers c headers = Some h ->
  exists hs1 hs2,
    headers = hs1 ++ h :: hs2 /\
    (forall h', In h' hs1 -> lower h' <> lower c) /\
    lower h = lower c.
Proof.
  induction headers as [|x headers IH]; simpl; [discriminate|].
  destruct (pystr_eqb (lower x) (lower c)) eqn:E.
  - intros [= ->]. apply pystr_eqb_eq in E.
    exists [], headers. repeat apply conj; auto; intros h' [].
  - intros H. destruct (IH H) as (hs1 & hs2 & -> & Hn & Hh).
    apply pystr_eqb_neq in E.
    exists (x :: hs1), hs2. repeat apply conj; auto;
      intros h' [<- | Hin]; auto.
Qed.

Lemma scan_candidates_none (cands headers : list pystr) :
  ExcelCleanerApp.scan_candidates cands headers = None <->
  (forall c h, In c cands -> In h headers -> lower h <> lower c).
Proof.
  induction cands as [|c cands IH]; simpl.
  - split; [intros _ c h [] | reflexivity].
  - destruct (ExcelCleanerApp.scan_headers c headers) as [h|] eqn:E.
    + split; [discriminate|]. intros H.
      destruct (scan_headers_some _ _ E) as (hs1 & hs2 & -> & _ & Hh).
      exfalso. apply (H c h); auto. apply in_or_app. right. left. reflexivity.
    + rewrite IH. rewrite scan_headers_none in E. split.
      * intros H c' h' [<- | Hin] Hh; auto.
      * intros H c' h' Hin Hh. apply H; auto.
Qed.

Lemma scan_candidates_some (cands headers : list pystr) (h0 : pystr) :
  ExcelCleanerApp.scan_candidates cands headers = Some h0 ->
  exists cs1 c0 cs2 hs1 hs2,
    cands = cs1 ++ c0 :: cs2 /\
    (forall c h, In c cs1 -> In h headers -> lower h <> lower c) /\
    headers = hs1 ++ h0 :: hs2 /\
    (forall h, In h hs1 -> lower h <> lower c0) /\
    lower h0 = lower c0.
Proof.
  induction cands as [|c cands IH]; simpl; [discriminate|].
  destruct (ExcelCleanerApp.scan_headers c headers) as [h|] eqn:E.
  - intros [= ->].
    destruct (scan_headers_some _ _ E) as (hs1 & hs2 & Hh & Hn & Heq).
    exists [], c, cands, hs1, hs2. repeat apply conj; auto;
      intros c' h' [].
  - intros H.
    destruct (IH H) as (cs1 & c0 & cs2 & hs1 & hs2 & -> & Hc & Hh & Hn & Heq).
    rewrite scan_headers_none in E.
    exists (c :: cs1), c0, cs2, hs1, hs2. repeat apply conj; auto;
      intros c' h' [<- | Hin] Hh'; auto.
Qed.

(** The preferred path reads nothing of the runtime but [lower]. *)
Lemma scan_headers_only_lower (R' : Runtime) (c : pystr) (headers : list pystr) :
  @lower R' = @lower R ->
  @ExcelCleanerApp.scan_headers R' c headers
  = @ExcelCleanerApp.scan_headers R c headers.
Proof.
  intros HL. induction headers as [|h headers IH]; [reflexivity|].
  cbn [ExcelCleanerApp.scan_headers]. rewrite HL, IH. reflexivity.
Qed.

Lemma scan_candidates_only_lower (R' : Runtime) (cands headers : list pystr) :
  @lower R' = @lower R ->
  @ExcelCleanerApp.scan_candidates R' cands headers
  = @ExcelCleanerApp.scan_candidates R cands headers.
Proof.
  intros HL. induction cands as [|c cands IH]; [reflexivity|].
  cbn [ExcelCleanerApp.scan_candidates].
  rewrite (scan_headers_only_lower R' c headers HL), IH. reflexivity.
Qed.

Lemma fallback_loop_first (df : DataFrame) (hs1 : list pystr) (h : pystr)
    (hs2 : list pystr) :
  Forall (below_threshold df) hs1 ->
  clears_threshold df h ->
  ExcelCleanerApp.fallback_loop df (hs1 ++ h :: hs2) = Ok (Some h).
Proof.
  intros Hb (col & s & Hg & Hp & Hr).
  induction Hb as [|x hs1 (c' & s' & Hg' & Hp' & Hr') _ IH]; simpl.
  - rewrite Hg. simpl. rewrite Hp. simpl.
    unfold notna_mean_gt_0_7.
    destruct (Nat.ltb_spec (7 * length s) (10 * count_notna s)); [reflexivity | lia].
  - rewrite Hg'. simpl. rewrite Hp'. simpl.
    unfold notna_mean_gt_0_7.
    destruct (Nat.ltb_spec (7 * length s') (10 * count_notna s')); [lia | exact IH].
Qed.

Lemma fallback_loop_none (df : DataFrame) (headers : list pystr) :
  Forall (below_threshold df) headers ->
  ExcelCleanerApp.fallback_loop df headers = Ok None.
Proof.
  induction 1 as [|x hs (c' & s' & Hg' & Hp' & Hr') _ IH]; simpl; [reflexivity|].
  rewrite Hg'. simpl. rewrite Hp'. simpl.
  unfold notna_mean_gt_0_7.
  destruct (Nat.ltb_spec (7 * length s') (10 * count_notna s')); [lia | exact IH].
Qed.

End DatetimeDetection.

Section DatetimeDetectionClaims.
Context {R : Runtime}.

(** C6.  In [find_datetime_col] (excel_cleaner_app.py and
    streamlit_excel_cleaner_app.py) the candidates are Date/Time, Date Time,
    Datetime, Timestamp, Date, in this order; when some normalised header
    equals some candidate up to case, the function returns the first header,
    in table order, that matches the earliest candidate with any match.  The
    outcome is the same under every runtime with the same [lower]: no column
    is read or parsed, so the fallback is not consulted. *)
Theorem find_datetime_col_preferred (df : DataFrame) :
  let headers := ExcelCleanerApp.normalize_headers (columns df) in
  (exists h c, In h headers /\ In c ExcelCleanerApp.candidates /\
               lower h = lower c) ->
  ExcelCleanerApp.candidates
  = map py ["Date/Time"; "Date Time"; "Datetime"; "Timestamp"; "Date"]%string /\
  exists cs1 c0 cs2 hs1 h0 hs2,
    ExcelCleanerApp.candidates = cs1 ++ c0 :: cs2 /\
    (forall c h, In c cs1 -> In h headers -> lower h <> lower c) /\
    headers = hs1 ++ h0 :: hs2 /\
    (forall h, In h hs1 -> lower h <> lower c0) /\
    lower h0 = lower c0 /\
    ExcelCleanerApp.find_datetime_col df = Ok (Some h0) /\
    StreamlitExcelCleanerApp.find_datetime_col df = Ok (Some h0) /\
    (forall R' : Runtime, @lower R' = @lower R ->
       @ExcelCleanerApp.find_datetime_col R' df = Ok (Some h0) /\
       @StreamlitExcelCleanerApp.find_datetime_col R' df = Ok (Some h0)).
Proof.
  intros headers (h & c & Hh & Hc & Heq).
  split; [reflexivity|].
  destruct (ExcelCleanerApp.scan_candidates ExcelCleanerApp.candidates headers)
    as [h0|] eqn:E.
  - destruct (scan_candidates_some _ _ E)
      as (cs1 & c0 & cs2 & hs1 & hs2 & Hcs & Hn & Hhs & Hn' & Hm).
    assert (F : ExcelCleanerApp.find_datetime_col df = Ok (Some h0)).
    { unfold ExcelCleanerApp.find_datetime_col. fold headers.
      rewrite E. reflexivity. }
    exists cs1, c0, cs2, hs1, h0, hs2.
    split; [exact Hcs|]. split; [exact Hn|]. split; [exact Hhs|].
    split; [exact Hn'|]. split; [exact Hm|]. split; [exact F|].
    split; [rewrite find_datetime_col_streamlit; exact F|].
    intros R' HL.
    assert (F' : @ExcelCleanerApp.find_datetime_col R' df = Ok (Some h0)).
    { unfold ExcelCleanerApp.find_datetime_col. fold headers.
      rewrite (scan_candidates_only_lower R' _ _ HL), E. reflexivity. }
    split; [exact F'|].
    rewrite (@find_datetime_col_streamlit R'). exact F'.
  - exfalso. rewrite scan_candidates_none in E. apply (E c h Hc Hh Heq).
Qed.

(** C3, as the code has it.  In a frame with distinct labels, when no
    normalised header equals a candidate up to case, [find_datetime_col]
    (excel_cleaner_app.py and
    streamlit_excel_cleaner_app.py) returns the first column, in table
    order, of which more than 0.7 of ALL cells parse as dates (an empty cell
    counts in the denominator like any other cell that does not parse),
    provided the columns before it can be read and parsed and stay at or
    below 0.7; it returns [None], without raising, when every column can be
    read and parsed and stays at or below 0.7. *)
Theorem find_datetime_col_fallback (df : DataFrame) :
  let headers := ExcelCleanerApp.normalize_headers (columns df) in
  distinct_labels df ->
  (forall h c, In h headers -> In c ExcelCleanerApp.candidates ->
               lower h <> lower c) ->
  (forall hs1 h hs2,
      headers = hs1 ++ h :: hs2 ->
      Forall (below_threshold df) hs1 ->
      clears_threshold df h ->
      ExcelCleanerApp.find_datetime_col df = Ok (Some h) /\
      StreamlitExcelCleanerApp.find_datetime_col df = Ok (Some h)) /\
  (Forall (below_threshold df) headers ->
      ExcelCleanerApp.find_datetime_col df = Ok None /\
      StreamlitExcelCleanerApp.find_datetime_col df = Ok None).
Proof.
  intros headers _ Hno.
  assert (E : ExcelCleanerApp.scan_candidates ExcelCleanerApp.candidates
                headers = None).
  { apply scan_candidates_none. intros c h Hc Hh. apply Hno; assumption. }
  split.
  - intros hs1 h hs2 Hhs Hb Hc.
    assert (F : ExcelCleanerApp.find_datetime_col df = Ok (Some h)).
    { unfold ExcelCleanerApp.find_datetime_col. fold headers.
      rewrite E, Hhs. apply fallback_loop_first; assumption. }
    split; [exact F | rewrite find_datetime_col_streamlit; exact F].
  - intros Hb.
    assert (F : ExcelCleanerApp.find_datetime_col df = Ok None).
    { unfold ExcelCleanerApp.find_datetime_col. fold headers.
      rewrite E. apply fallback_loop_none; assumption. }
    split; [exact F | rewrite find_datetime_col_streamlit; exact F].
Qed.

End DatetimeDetectionClaims.

(** A sheet with the headers [Date], [timestamp], [TIMESTAMP]: the result is
    [timestamp]. *)
Lemma find_datetime_col_preferred_witness :
  @ExcelCleanerApp.find_datetime_col Plain.runtime Sheets.priority
  = Ok (Some (py "timestamp")).
Proof.
  destruct (@find_datetime_col_preferred Plain.runtime Sheets.priority)
    as (_ & cs1 & c0 & cs2 & hs1 & h0 & hs2 & _ & _ & _ & _ & _ & F & _).
  - exists (py "Date"), (py "Date"). vm_compute. auto 10.
  - vm_compute in F. injection F as <-. vm_compute. reflexivity.
Defined.

Ltac labels_distinct :=
  unfold distinct_labels; cbn [columns map fst];
  repeat (constructor; [cbn [In]; intuition discriminate|]); constructor.

Ltac no_candidate_matches :=
  let h := fresh "h" in
  let c := fresh "c" in
  let Hh := fresh "Hh" in
  let Hc := fresh "Hc" in
  intros h c Hh Hc; vm_compute in Hh, Hc;
  repeat (destruct Hh as [Hh | Hh]; [subst h|]); [..|destruct Hh];
  repeat (destruct Hc as [Hc | Hc]; [subst c|]); try destruct Hc;
  vm_compute; discriminate.

(** In [Sheets.dense] the text column is skipped and [When], three
    timestamps in four cells, is returned; in [Sheets.sparse] the only
    column has three timestamps in five cells and nothing is returned. *)
Lemma find_datetime_col_fallback_witness :
  @ExcelCleanerApp.find_datetime_col Plain.runtime Sheets.dense
  = Ok (Some (py "When")) /\
  @ExcelCleanerApp.find_datetime_col Plain.runtime Sheets.sparse = Ok None.
Proof.
  split.
  - destruct (@find_datetime_col_fallback Plain.runtime Sheets.dense)
      as [H _]; [labels_distinct | no_candidate_matches|].
    apply (H [py "Note"] (py "When") []).
    + reflexivity.
    + constructor; [|constructor].
      eexists _, _. split; [reflexivity|]. split; [reflexivity|].
      vm_compute. lia.
    + eexists _, _. split; [reflexivity|]. split; [reflexivity|].
      vm_compute. lia.
  - destruct (@find_datetime_col_fallback Plain.runtime Sheets.sparse)
      as [_ H]; [labels_distinct | no_candidate_matches|].
    apply H. constructor; [|constructor].
    eexists _, _. split; [reflexivity|]. split; [reflexivity|].
    vm_compute. lia.
Defined.

(** C3, as the claim states it, fails on [Sheets.sparse]: no header matches
    a candidate; the column [When] has three values that are not empty and
    each of them parses, a rate of 3/3 across the non-empty values; the
    function returns [None], in the two scripts, because the two empty
    cells are counted: 3/5 is not more than 0.7. *)
Lemma find_datetime_col_counts_empty_cells :
  (forall h c,
      In h (ExcelCleanerApp.normalize_headers (columns Sheets.sparse)) ->
      In c (@ExcelCleanerApp.candidates) ->
      @lower Plain.runtime h <> @lower Plain.runtime c) /\
  getitem Sheets.sparse (py "When") = Some (SObject Sheets.sparse_cells) /\
  (let filled := filter Sheets.nonempty Sheets.sparse_cells in
   exists s, @to_datetime_dayfirst Plain.runtime (SObject filled) = Ok s /\
             length filled = 3 /\ count_notna s = 3) /\
  @ExcelCleanerApp.find_datetime_col Plain.runtime Sheets.sparse = Ok None /\
  @StreamlitExcelCleanerApp.find_datetime_col Plain.runtime Sheets.sparse
  = Ok None.
Proof.
  split; [no_candidate_matches|].
  split; [reflexivity|].
  split; [eexists; split; [reflexivity | split; reflexivity]|].
  split; reflexivity.
Qed.

(* ================================================================== *)
(** * Datetime coercion                                                *)
(* ================================================================== *)

Section DatetimeCoercion.
Context {R : Runtime}.

Lemma fillna_length (s s2 : list (option Z)) :
  length (fillna s s2) = length s.
Proof.
  revert s2; induction s as [|x s IH]; intros s2; simpl; [reflexivity|].
  rewrite IH. reflexivity.
Qed.

Lemma fillna_keeps (s s2 : list (option Z)) (i : nat) (t : Z) :
  nth_error s i = Some (Some t) -> nth_error (fillna s s2) i = Some (Some t).
Proof.
  revert s2 i; induction s as [|x s IH]; intros s2 [|i]; simpl;
    try discriminate.
  - intros [= ->]. reflexivity.
  - apply IH.
Qed.

Lemma fillna_fills (s s2 : list (option Z)) (i : nat) :
  nth_error s i = Some None ->
  nth_error (fillna s s2) i = Some (nth i s2 None).
Proof.
  revert s2 i; induction s as [|x s IH]; intros s2 [|i]; simpl;
    try discriminate.
  - intros [= ->]. destruct s2; reflexivity.
  - intros H. rewrite (IH (tl s2) i H). destruct s2; simpl; [|reflexivity].
    destruct i; reflexivity.
Qed.

Lemma text_pass_length (series : Series) :
  to_datetime_keeps_length R -> length (text_pass series) = slen series.
Proof.
  intros HL. unfold text_pass.
  destruct (to_datetime_dayfirst series) as [s|e] eqn:E.
  - apply (HL _ _ E).
  - apply repeat_length.
Qed.

Lemma coerce_datetime_unfold (series : Series) :
  ExcelCleanerApp.coerce_datetime series
  = if isna_mean_gt_0_5 (text_pass series)
    then match serial_pass series with
         | Ok s2 => fillna (text_pass series) s2
         | Raise _ => text_pass series
         end
    else text_pass series.
Proof. reflexivity. Qed.

(** C4.  [coerce_datetime] (the same in excel_cleaner_app.py and
    streamlit_excel_cleaner_app.py) returns a series, never an exception,
    of the length of its input (given that [pd.to_datetime] keeps the
    length); a timestamp found by the text pass is in the result at its
    place; when at most half of the text-pass results are missing the
    result is the text pass alone; when strictly more than half are missing
    and the reading of the values as day numbers from 1899-12-30 succeeds,
    every slot the text pass left missing holds what that reading gives
    there (a timestamp or missing), and when that reading raises the result
    is the text pass. *)
Theorem coerce_datetime_two_passes (series : Series) :
  to_datetime_keeps_length R ->
  let s1 := text_pass series in
  let out := ExcelCleanerApp.coerce_datetime series in
  StreamlitExcelCleanerApp.coerce_datetime series = out /\
  length out = slen series /\
  (forall i t, nth_error s1 i = Some (Some t) ->
               nth_error out i = Some (Some t)) /\
  (2 * count_na s1 <= length s1 -> out = s1) /\
  (length s1 < 2 * count_na s1 ->
     match serial_pass series with
     | Ok s2 => forall i, nth_error s1 i = Some None ->
                          nth_error out i = Some (nth i s2 None)
     | Raise _ => out = s1
     end).
Proof.
  intros HL s1 out. subst out.
  split; [apply coerce_datetime_streamlit|].
  rewrite coerce_datetime_unfold. fold s1.
  assert (Hlen : length s1 = slen series) by (apply text_pass_length, HL).
  unfold isna_mean_gt_0_5.
  destruct (Nat.ltb_spec (length s1) (2 * count_na s1)) as [Hgt | Hle].
  - destruct (serial_pass series) as [s2|e].
    + split; [rewrite fillna_length; exact Hlen|].
      split; [intros i t; apply fillna_keeps|].
      split; [lia|]. intros _ i. apply fillna_fills.
    + split; [exact Hlen|]. split; [auto|]. split; [lia|]. reflexivity.
  - split; [exact Hlen|]. split; [auto|]. split; [reflexivity|]. lia.
Qed.

End DatetimeCoercion.

Lemma plain_to_datetime_keeps_length : to_datetime_keeps_length Plain.runtime.
Proof.
  intros [l|l|l] r; simpl; intros [= <-]; simpl;
    try rewrite length_map; reflexivity.
Qed.

(** On [Sheets.serial_text] two of three text-pass results are missing; the
    text ["44200"] becomes day 18631 after 1970-01-01 (2021-01-04), the
    text ["n/a"] stays missing, and the timestamp of the third cell is
    kept. *)
Lemma coerce_datetime_two_passes_witness :
  @ExcelCleanerApp.coerce_datetime Plain.runtime Sheets.serial_text
  = [Some (18631 * Sheets.DAY)%Z; None; Some 0%Z].
Proof.
  destruct (@coerce_datetime_two_passes Plain.runtime Sheets.serial_text
              plain_to_datetime_keeps_length)
    as (_ & Hlen & Hkeep & _ & Hfill).
  specialize (Hfill ltac:(vm_compute; lia)).
  pose proof (Hfill 0 eq_refl) as H0.
  pose proof (Hfill 1 eq_refl) as H1.
  pose proof (Hkeep 2 0%Z eq_refl) as H2.
  clear Hfill Hkeep.
  destruct (@ExcelCleanerApp.coerce_datetime Plain.runtime Sheets.serial_text)
    as [|a [|b [|c [|d l]]]]; try discriminate Hlen.
  simpl in H0, H1, H2. injection H0 as ->. injection H1 as ->.
  injection H2 as ->. reflexivity.
Defined.

(* ================================================================== *)
(** * Frames: lookup, assignment, dropping and splicing of columns     *)
(* ================================================================== *)

Section Frames.

Lemma label_eqb_eq (a b : label) : label_eqb a b = true <-> a = b.
Proof.
  destruct a, b; simpl; try (split; [discriminate | congruence]).
  - split; reflexivity.
  - rewrite pystr_eqb_eq. split; congruence.
  - rewrite pystr_eqb_eq. split; congruence.
Qed.

Lemma label_eqb_str (h k : pystr) :
  label_eqb (LStr h) (LStr k) = pystr_eqb h k.
Proof. reflexivity. Qed.

Lemma label_eqb_str_neq (h k : pystr) :
  h <> k -> label_eqb (LStr h) (LStr k) = false.
Proof. intros H. simpl. apply pystr_eqb_neq, H. Qed.

Lemma has_column_app (l r : DataFrame) (h : pystr) :
  has_column (l ++ r) h = has_column l h || has_column r h.
Proof. unfold has_column, columns. rewrite map_app, existsb_app. reflexivity. Qed.

Lemma has_column_cons (c : label) (s : Series) (df : DataFrame) (h : pystr) :
  has_column ((c, s) :: df) h = label_eqb c (LStr h) || has_column df h.
Proof. reflexivity. Qed.

Lemma getitem_has_column (df : DataFrame) (h : pystr) :
  has_column df h = true <-> exists col, getitem df h = Some col.
Proof.
  induction df as [|[c s] df IH]; simpl.
  - split; [discriminate | intros [col H]; discriminate].
  - rewrite has_column_cons. destruct (label_eqb c (LStr h)); simpl.
    + split; [eauto | reflexivity].
    + exact IH.
Qed.

Lemma getitem_none (df : DataFrame) (h : pystr) :
  has_column df h = false <-> getitem df h = None.
Proof.
  destruct (has_column df h) eqn:E.
  - apply getitem_has_column in E. destruct E as [col E].
    rewrite E. split; discriminate.
  - split; [|reflexivity]. intros _.
    destruct (getitem df h) as [col|] eqn:G; [|reflexivity].
    assert (H : has_column df h = true) by (apply getitem_has_column; eauto).
    congruence.
Qed.

Lemma getitem_app (l r : DataFrame) (h : pystr) :
  getitem (l ++ r) h
  = match getitem l h with
    | Some col => Some col
    | None => getitem r h
    end.
Proof.
  induction l as [|[c s] l IH]; simpl; [reflexivity|].
  destruct (label_eqb c (LStr h)); [reflexivity | exact IH].
Qed.

(** The position of the first column named [h]. *)
Lemma split_at_column (df : DataFrame) (h : pystr) :
  has_column df h = true ->
  exists l col r,
    df = l ++ (LStr h, col) :: r /\
    has_column l h = false /\
    index_of (columns df) h = length l.
Proof.
  induction df as [|[c s] df IH]; [discriminate|].
  rewrite has_column_cons. simpl.
  destruct (label_eqb c (LStr h)) eqn:E; simpl.
  - intros _. apply label_eqb_eq in E. subst c.
    exists [], s, df. repeat apply conj; reflexivity.
  - intros H. destruct (IH H) as (l & col & r & -> & Hl & Hi).
    exists ((c, s) :: l), col, r. repeat apply conj.
    + reflexivity.
    + rewrite has_column_cons, E. exact Hl.
    + simpl. f_equal. exact Hi.
Qed.

Lemma firstn_length_app {A} (l r : list A) : firstn (length l) (l ++ r) = l.
Proof. induction l as [|x l IH]; simpl; [reflexivity | rewrite IH; reflexivity]. Qed.

Lemma skipn_length_app {A} (l r : list A) : skipn (length l) (l ++ r) = r.
Proof. induction l as [|x l IH]; simpl; [reflexivity | exact IH]. Qed.

Lemma splice_after_column (df : DataFrame) (h : pystr)
    (days : list (option Q)) :
  has_column df h = true ->
  days_right_after df h days (splice df (index_of (columns df) h + 1) days).
Proof.
  intros H. destruct (split_at_column df h H) as (l & col & r & -> & Hl & Hi).
  exists l, col, r. repeat apply conj; auto.
  unfold splice. rewrite Hi.
  replace (length l + 1) with (length (l ++ [(LStr h, col)]))
    by (rewrite length_app; reflexivity).
  assert (E : l ++ (LStr h, col) :: r = (l ++ [(LStr h, col)]) ++ r)
    by (rewrite <- app_assoc; reflexivity).
  rewrite E at 1 2. rewrite firstn_length_app, skipn_length_app.
  rewrite <- !app_assoc. reflexivity.
Qed.

Lemma drop_column_app (l r : DataFrame) (h : pystr) :
  drop_column (l ++ r) h = drop_column l h ++ drop_column r h.
Proof. apply filter_app. Qed.

Lemma drop_column_absent (df : DataFrame) (h : pystr) :
  has_column df h = false -> drop_column df h = df.
Proof.
  induction df as [|[c s] df IH]; [reflexivity|].
  rewrite has_column_cons. intros H. apply orb_false_iff in H.
  destruct H as [Hc Hd]. unfold drop_column in *. simpl.
  rewrite Hc. simpl. f_equal. apply IH, Hd.
Qed.

Lemma has_column_drop_same (df : DataFrame) (h : pystr) :
  has_column (drop_column df h) h = false.
Proof.
  induction df as [|[c s] df IH]; [reflexivity|].
  unfold drop_column in *. simpl.
  destruct (label_eqb c (LStr h)) eqn:E; simpl; [exact IH|].
  rewrite has_column_cons, E. exact IH.
Qed.

Lemma getitem_drop_other (df : DataFrame) (h k : pystr) :
  h <> k -> getitem (drop_column df k) h = getitem df h.
Proof.
  intros Hn. induction df as [|[c s] df IH]; [reflexivity|].
  unfold drop_column in *. simpl.
  destruct (label_eqb c (LStr k)) eqn:E; simpl.
  - apply label_eqb_eq in E. subst c.
    rewrite (label_eqb_str_neq (fun H => Hn (eq_sym H))). exact IH.
  - destruct (label_eqb c (LStr h)); [reflexivity | exact IH].
Qed.

Lemma has_column_drop_other (df : DataFrame) (h k : pystr) :
  h <> k -> has_column (drop_column df k) h = has_column df h.
Proof.
  intros Hn.
  destruct (has_column df h) eqn:E.
  - apply getitem_has_column. apply getitem_has_column in E.
    rewrite (getitem_drop_other df Hn). exact E.
  - apply getitem_none. apply getitem_none in E.
    rewrite (getitem_drop_other df Hn). exact E.
Qed.

(** The frame before the test of line "if Days in df.columns" and the
    frame after it. *)
Lemma drop_if_present (df : DataFrame) :
  (if has_column df DAYS then drop_column df DAYS else df) = without_days df.
Proof.
  unfold without_days. destruct (has_column df DAYS) eqn:E; [reflexivity|].
  symmetry. apply drop_column_absent, E.
Qed.

Lemma without_days_splice (base : DataFrame) (i : nat)
    (days : list (option Q)) :
  has_column base DAYS = false ->
  without_days (splice base i days) = base.
Proof.
  intros H. unfold without_days, splice.
  rewrite !drop_column_app.
  assert (E : drop_column [(LStr DAYS, SNumeric days)] DAYS = [])
    by reflexivity.
  rewrite E. simpl. rewrite <- drop_column_app, firstn_skipn.
  apply drop_column_absent, H.
Qed.

Lemma has_column_without_days (df : DataFrame) :
  has_column (without_days df) DAYS = false.
Proof. apply has_column_drop_same. Qed.

Lemma getitem_splice_other (base : DataFrame) (i : nat)
    (days : list (option Q)) (h : pystr) :
  h <> DAYS -> getitem (splice base i days) h = getitem base h.
Proof.
  intros Hn. unfold splice.
  rewrite <- (firstn_skipn i base) at 3.
  rewrite !getitem_app. cbn [getitem].
  rewrite (label_eqb_str_neq (fun H => Hn (eq_sym H))). reflexivity.
Qed.

Lemma getitem_splice_days (base : DataFrame) (i : nat)
    (days : list (option Q)) :
  has_column base DAYS = false ->
  getitem (splice base i days) DAYS = Some (SNumeric days).
Proof.
  intros H. unfold splice. rewrite getitem_app.
  assert (E : getitem (firstn i base) DAYS = None).
  { apply getitem_none. rewrite <- (firstn_skipn i base) in H.
    rewrite has_column_app in H. apply orb_false_iff in H. apply H. }
  rewrite E. reflexivity.
Qed.

Lemma count_label_app (l r : DataFrame) (h : pystr) :
  count_label (l ++ r) h = count_label l h + count_label r h.
Proof.
  unfold count_label, columns. rewrite map_app, filter_app, length_app.
  reflexivity.
Qed.

Lemma count_label_absent (df : DataFrame) (h : pystr) :
  has_column df h = false -> count_label df h = 0.
Proof.
  induction df as [|[c s] df IH]; [reflexivity|].
  rewrite has_column_cons. intros H. apply orb_false_iff in H.
  destruct H as [Hc Hd]. unfold count_label in *. simpl.
  rewrite Hc. apply IH, Hd.
Qed.

Lemma count_label_splice (base : DataFrame) (i : nat)
    (days : list (option Q)) :
  has_column base DAYS = false -> count_label (splice base i days) DAYS = 1.
Proof.
  intros H. unfold splice. rewrite !count_label_app.
  rewrite <- (firstn_skipn i base) in H. rewrite has_column_app in H.
  apply orb_false_iff in H. destruct H as [H1 H2].
  rewrite (count_label_absent _ _ H1), (count_label_absent _ _ H2).
  reflexivity.
Qed.

Lemma columns_setitem (df : DataFrame) (h : pystr) (s : Series) :
  has_column df h = true -> columns (setitem df h s) = columns df.
Proof.
  intros H. unfold setitem. rewrite H. unfold columns. rewrite map_map.
  apply map_ext. intros [c x]. simpl.
  destruct (label_eqb c (LStr h)); reflexivity.
Qed.

Lemma getitem_setitem_same (df : DataFrame) (h : pystr) (s : Series) :
  has_column df h = true -> getitem (setitem df h s) h = Some s.
Proof.
  intros H. unfold setitem. rewrite H.
  induction df as [|[c x] df IH]; [discriminate|].
  rewrite has_column_cons in H. simpl.
  destruct (label_eqb c (LStr h)) eqn:E; simpl; rewrite E; [reflexivity|].
  apply IH. exact H.
Qed.

Lemma has_column_setitem (df : DataFrame) (h k : pystr) (s : Series) :
  has_column df h = true ->
  has_column (setitem df h s) k = has_column df k.
Proof.
  intros H. unfold has_column. rewrite (columns_setitem df h s H). reflexivity.
Qed.

End Frames.

(* ================================================================== *)
(** * The derived column [Days]                                        *)
(* ================================================================== *)

Section DerivedDays.
Context {R : Runtime}.

Lemma add_days_column_2_like (df : DataFrame) (dt_col ia : option pystr) :
  ExcelCleanerApp2Like.add_days_column df dt_col ia
  = ExcelCleanerApp.add_days_column df dt_col ia.
Proof. reflexivity. Qed.

(** streamlit_excel_cleaner_app.py: what the function returns. *)
Lemma add_days_column_streamlit_eq (df : DataFrame) (h : pystr)
    (ia : option pystr) :
  StreamlitExcelCleanerApp.add_days_column df (Some h) ia
  = match getitem df h with
    | None => df
    | Some col =>
        match days_of (datetime_of col) with
        | None => df
        | Some days =>
            splice (without_days df)
                   (index_after_target (without_days df) h ia) days
        end
    end.
Proof.
  unfold StreamlitExcelCleanerApp.add_days_column.
  destruct (getitem df h) as [col|]; [|reflexivity].
  change (match col with
          | SDatetime l => l
          | _ => StreamlitExcelCleanerApp.coerce_datetime col
          end) with (datetime_of col).
  unfold days_of.
  destruct (first_valid (datetime_of col)) as [t0|]; [|reflexivity].
  cbv zeta. rewrite drop_if_present.
  unfold index_after_target, index_after, splice, iloc_cols_to, iloc_cols_from.
  destruct ia; reflexivity.
Qed.

(** excel_cleaner_app.py: the frame of the caller after the call, and what
    the function returns. *)
Lemma add_days_column_eq (df : DataFrame) (h : pystr) (ia : option pystr) :
  ExcelCleanerApp.add_days_column df (Some h) ia
  = match getitem df h with
    | None => (df, df)
    | Some col =>
        let df' := written_back df h col in
        match days_of (datetime_of col) with
        | None => (df', df')
        | Some days =>
            (df', splice (without_days df')
                         (index_after (without_days df') h) days)
        end
    end.
Proof.
  unfold ExcelCleanerApp.add_days_column.
  destruct (getitem df h) as [col|]; [|reflexivity].
  unfold days_of.
  destruct col as [l|l|l]; cbn [datetime_of written_back]; cbv zeta;
    match goal with
    | |- context [first_valid ?dt] => destruct (first_valid dt) as [t0|]
    end; try reflexivity;
    rewrite drop_if_present; reflexivity.
Qed.

(** The column the second run finds is the coerced one. *)
Lemma getitem_written_back (df : DataFrame) (h : pystr) (col : Series) :
  getitem df h = Some col ->
  getitem (written_back df h col) h = Some (SDatetime (datetime_of col)).
Proof.
  intros G.
  assert (H : has_column df h = true) by (apply getitem_has_column; eauto).
  destruct col; simpl; try (apply getitem_setitem_same, H). exact G.
Qed.

Lemma has_column_written_back (df : DataFrame) (h k : pystr) (col : Series) :
  getitem df h = Some col ->
  has_column (written_back df h col) k = has_column df k.
Proof.
  intros G.
  assert (H : has_column df h = true) by (apply getitem_has_column; eauto).
  destruct col; simpl; try (apply has_column_setitem, H). reflexivity.
Qed.

(** The test [dt.isna().all()] and the lookup of the first timestamp. *)
Lemma isna_all_first_valid (dt : list (option Z)) :
  isna_all dt = true <-> first_valid dt = None.
Proof.
  induction dt as [|[t|] dt IH]; simpl.
  - split; reflexivity.
  - split; discriminate.
  - exact IH.
Qed.

(** Assignment to a column that is in the frame and the removal of another
    column can be done in either order. *)
Lemma drop_column_setitem (df : DataFrame) (h k : pystr) (s : Series) :
  has_column df h = true -> h <> k ->
  drop_column (setitem df h s) k = setitem (drop_column df k) h s.
Proof.
  intros H Hn. unfold setitem.
  rewrite H, (has_column_drop_other _ Hn), H. unfold drop_column.
  clear H. induction df as [|[c x] df IH]; [reflexivity|].
  cbn [map filter fst].
  destruct (label_eqb c (LStr h)) eqn:E; cbn [fst];
    destruct (label_eqb c (LStr k)) eqn:E'; cbn [negb map fst];
    rewrite ?E; rewrite IH; reflexivity.
Qed.

(** In a frame with distinct labels, assignment to a column changes that
    column and nothing else. *)
Lemma setitem_at (l r : DataFrame) (h : pystr) (col s : Series) :
  has_column l h = false -> has_column r h = false ->
  setitem (l ++ (LStr h, col) :: r) h s = l ++ (LStr h, s) :: r.
Proof.
  intros Hl Hr. unfold setitem.
  rewrite has_column_app, has_column_cons, label_eqb_str, pystr_eqb_refl,
    orb_true_r.
  assert (Keep : forall d, has_column d h = false ->
            map (fun cs => if label_eqb (fst cs) (LStr h)
                           then (fst cs, s) else cs) d = d).
  { induction d as [|[c x] d IH]; [reflexivity|].
    rewrite has_column_cons. intros H. apply orb_false_iff in H.
    destruct H as [Hc Hd']. cbn [map fst]. rewrite Hc, (IH Hd').
    reflexivity. }
  rewrite map_app. cbn [map fst].
  rewrite label_eqb_str, pystr_eqb_refl, (Keep l Hl), (Keep r Hr).
  reflexivity.
Qed.

Lemma distinct_after_first (l r : DataFrame) (h : pystr) (col : Series) :
  distinct_labels (l ++ (LStr h, col) :: r) -> has_column r h = false.
Proof.
  unfold distinct_labels, columns. rewrite map_app. cbn [map fst].
  intros H. apply NoDup_remove_2 in H.
  destruct (has_column r h) eqn:E; [|reflexivity].
  exfalso. apply H. apply in_or_app. right.
  unfold has_column in E. apply existsb_exists in E.
  destruct E as (c & Hc & Ec). apply label_eqb_eq in Ec. subst c. exact Hc.
Qed.

Lemma distinct_without_days (df : DataFrame) :
  distinct_labels df -> distinct_labels (without_days df).
Proof.
  unfold distinct_labels, without_days, drop_column, columns.
  induction df as [|[c x] df IH]; cbn [map filter fst]; [auto|].
  intros H. inversion H as [|? ? Hc Hd']; subst.
  destruct (negb (label_eqb c (LStr DAYS))); [|apply IH, Hd'].
  cbn [map fst]. constructor; [|apply IH, Hd'].
  intros Hin. apply Hc. apply in_map_iff in Hin.
  destruct Hin as (y & Ey & Hy). apply filter_In in Hy.
  apply in_map_iff. exists y. split; [exact Ey | apply Hy].
Qed.

(** The frame without [Days] before and after the datetime column is
    written back: the same columns around the datetime column. *)
Lemma without_days_written_back (df : DataFrame) (h : pystr) (col : Series) :
  distinct_labels df ->
  getitem df h = Some col ->
  h <> DAYS ->
  exists l r,
    without_days df = l ++ (LStr h, col) :: r /\
    without_days (written_back df h col)
    = l ++ (LStr h, SDatetime (datetime_of col)) :: r /\
    has_column l h = false.
Proof.
  intros Hnd G Hn.
  assert (Hh : has_column df h = true) by (apply getitem_has_column; eauto).
  assert (Hw : has_column (without_days df) h = true)
    by (unfold without_days; rewrite (has_column_drop_other _ Hn); exact Hh).
  destruct (split_at_column _ _ Hw) as (l & c0 & r & Eb & Hl & _).
  assert (Ec : c0 = col).
  { assert (Gw : getitem (without_days df) h = Some col)
      by (unfold without_days; rewrite (getitem_drop_other _ Hn); exact G).
    rewrite Eb, getitem_app in Gw.
    apply getitem_none in Hl. rewrite Hl in Gw. cbn [getitem] in Gw.
    rewrite label_eqb_str, pystr_eqb_refl in Gw. congruence. }
  subst c0. exists l, r. split; [exact Eb|]. split; [|exact Hl].
  assert (Hr : has_column r h = false).
  { apply (distinct_after_first l r h col). rewrite <- Eb.
    apply distinct_without_days, Hnd. }
  destruct col as [x|x|x]; cbn [written_back datetime_of];
    try exact Eb;
    unfold without_days;
    rewrite (drop_column_setitem _ _ Hh Hn);
    fold (without_days df); rewrite Eb; apply setitem_at; assumption.
Qed.

(** [Days] spliced in after the first column named [h]. *)
Lemma splice_after_first (l r : DataFrame) (h : pystr) (col : Series)
    (days : list (option Q)) :
  has_column l h = false ->
  splice (l ++ (LStr h, col) :: r)
         (index_of (columns (l ++ (LStr h, col) :: r)) h + 1) days
  = l ++ (LStr h, col) :: (LStr DAYS, SNumeric days) :: r.
Proof.
  intros Hl.
  assert (Hi : index_of (columns (l ++ (LStr h, col) :: r)) h = length l).
  { clear days. induction l as [|[c x] l IH]; cbn [app columns map fst index_of].
    - rewrite label_eqb_str, pystr_eqb_refl. reflexivity.
    - rewrite has_column_cons in Hl. apply orb_false_iff in Hl.
      destruct Hl as [Hc Hl]. rewrite Hc. cbn [length]. f_equal.
      apply IH, Hl. }
  unfold splice. rewrite Hi.
  replace (length l + 1) with (length (l ++ [(LStr h, col)]))
    by (rewrite length_app; reflexivity).
  assert (E : l ++ (LStr h, col) :: r = (l ++ [(LStr h, col)]) ++ r)
    by (rewrite <- app_assoc; reflexivity).
  rewrite E at 1 2. rewrite firstn_length_app, skipn_length_app.
  rewrite <- !app_assoc. reflexivity.
Qed.

Lemma index_after_present (df : DataFrame) (h : pystr) :
  has_column df h = true -> index_after df h = index_of (columns df) h + 1.
Proof. unfold index_after. intros ->. reflexivity. Qed.

End DerivedDays.

Section DerivedDaysClaims.
Context {R : Runtime}.

(** C9.  For a frame with distinct labels whose datetime column [h] is
    present and has not the timestamp dtype:
    - in streamlit_excel_cleaner_app.py the returned frame has, apart from
      columns named [Days], the columns of the input, in order and with
      their values; the datetime column keeps its raw values;
    - in excel_cleaner_app.py and excel_cleaner_app_2_like.py the frame of
      the caller has, after the call, the coerced values in the datetime
      column, and so has the returned frame. *)
Theorem add_days_column_write_back (df : DataFrame) (h : pystr)
    (ia : option pystr) (col : Series) :
  distinct_labels df ->
  getitem df h = Some col ->
  is_datetime64_any_dtype col = false ->
  let coerced := SDatetime (ExcelCleanerApp.coerce_datetime col) in
  let out := StreamlitExcelCleanerApp.add_days_column df (Some h) ia in
  let r1 := ExcelCleanerApp.add_days_column df (Some h) ia in
  let r2 := ExcelCleanerApp2Like.add_days_column df (Some h) ia in
  without_days out = without_days df /\
  (h <> DAYS -> getitem out h = Some col) /\
  fst r1 = setitem df h coerced /\
  (h <> DAYS -> getitem (snd r1) h = Some coerced) /\
  fst r2 = setitem df h coerced /\
  (h <> DAYS -> getitem (snd r2) h = Some coerced).
Proof.
  intros _ G Hty coerced out r1 r2.
  assert (Hh : has_column df h = true) by (apply getitem_has_column; eauto).
  assert (S1 : without_days out = without_days df /\
               (h <> DAYS -> getitem out h = Some col)).
  { subst out. rewrite add_days_column_streamlit_eq, G.
    destruct (days_of (datetime_of col)) as [days|]; [|auto].
    split.
    - apply without_days_splice, has_column_without_days.
    - intros Hn. rewrite (getitem_splice_other _ _ _ Hn).
      unfold without_days. rewrite (getitem_drop_other df Hn). exact G. }
  assert (S2 : fst r1 = setitem df h coerced /\
               (h <> DAYS -> getitem (snd r1) h = Some coerced)).
  { subst r1. rewrite add_days_column_eq, G. cbv zeta.
    assert (W : written_back df h col = setitem df h coerced)
      by (destruct col; [reflexivity | discriminate Hty | reflexivity]).
    assert (GW : getitem (setitem df h coerced) h = Some coerced)
      by (apply getitem_setitem_same, Hh).
    rewrite W.
    destruct (days_of (datetime_of col)) as [days|]; simpl; [|auto].
    split; [reflexivity|]. intros Hn.
    rewrite (getitem_splice_other _ _ _ Hn).
    unfold without_days. rewrite (getitem_drop_other _ Hn). exact GW. }
  destruct S1 as [A B]. destruct S2 as [C D].
  split; [exact A|]. split; [exact B|]. split; [exact C|].
  split; [exact D|]. split; [exact C | exact D].
Qed.

(** C5, as the code has it.  For a frame with distinct labels and a
    datetime column [h] that is not itself named [Days], when
    [add_days_column] produces a [Days] column, a second run on the
    returned frame with the same datetime column (and any [insert_after])
    returns a frame with exactly one column [Days], which holds the values
    of the first run.  With the same [insert_after] the second run returns
    the frame of the first run; in excel_cleaner_app.py it also leaves the
    frame it is given as it is. *)
Theorem add_days_column_twice (df : DataFrame) (h : pystr)
    (ia : option pystr) (col : Series) (days : list (option Q)) :
  distinct_labels df ->
  h <> DAYS ->
  getitem df h = Some col ->
  days_of (datetime_of col) = Some days ->
  let out := snd (ExcelCleanerApp.add_days_column df (Some h) ia) in
  let out' := StreamlitExcelCleanerApp.add_days_column df (Some h) ia in
  getitem out DAYS = Some (SNumeric days) /\
  getitem out' DAYS = Some (SNumeric days) /\
  (forall ia2,
      ExcelCleanerApp.add_days_column out (Some h) ia2 = (out, out) /\
      count_label out DAYS = 1) /\
  (forall ia2,
      let again := StreamlitExcelCleanerApp.add_days_column out' (Some h) ia2 in
      count_label again DAYS = 1 /\
      getitem again DAYS = Some (SNumeric days)) /\
  StreamlitExcelCleanerApp.add_days_column out' (Some h) ia = out'.
Proof.
  intros _ Hn G Hd out out'.
  set (base := without_days (written_back df h col)).
  assert (Eout : out = splice base (index_after base h) days).
  { subst out. rewrite add_days_column_eq, G. cbv zeta. rewrite Hd.
    reflexivity. }
  set (base' := without_days df).
  assert (Eout' : out' = splice base' (index_after_target base' h ia) days).
  { subst out'. rewrite add_days_column_streamlit_eq, G, Hd. reflexivity. }
  clearbody out out'. subst out out'.
  assert (Hb : has_column base DAYS = false)
    by apply has_column_without_days.
  assert (Hb' : has_column base' DAYS = false)
    by apply has_column_without_days.
  assert (Again : forall ia2,
             StreamlitExcelCleanerApp.add_days_column
               (splice base' (index_after_target base' h ia) days)
               (Some h) ia2
             = splice base' (index_after_target base' h ia2) days).
  { intros ia2.
    set (o := splice base' (index_after_target base' h ia) days).
    assert (Go : getitem o h = Some col).
    { subst o. rewrite (getitem_splice_other _ _ _ Hn).
      subst base'. unfold without_days. rewrite (getitem_drop_other _ Hn).
      exact G. }
    rewrite add_days_column_streamlit_eq, Go, Hd.
    assert (Wo : without_days o = base')
      by (apply without_days_splice, Hb').
    rewrite Wo. reflexivity. }
  split; [apply getitem_splice_days, Hb|].
  split; [apply getitem_splice_days, Hb'|].
  split; [|split].
  - intros ia2. split; [|apply count_label_splice, Hb].
    set (o := splice base (index_after base h) days).
    assert (Go : getitem o h = Some (SDatetime (datetime_of col))).
    { subst o. rewrite (getitem_splice_other _ _ _ Hn).
      subst base. unfold without_days. rewrite (getitem_drop_other _ Hn).
      apply getitem_written_back, G. }
    rewrite add_days_column_eq, Go. cbv zeta.
    cbn [datetime_of written_back]. rewrite Hd.
    assert (Wo : without_days o = base)
      by (apply without_days_splice, Hb).
    rewrite Wo. reflexivity.
  - intros ia2. cbv zeta. rewrite Again.
    split; [apply count_label_splice, Hb' | apply getitem_splice_days, Hb'].
  - apply Again.
Qed.

(** C2, as the code has it.  For a frame with distinct labels whose
    datetime column [h] is present and yields a [Days] column:
    - in streamlit_excel_cleaner_app.py, a supplied target that is not the
      empty string, is not [Days] and is in the frame gets [Days]
      immediately after it; without a target, [Days] comes immediately
      after the datetime column (not named [Days]);
    - in excel_cleaner_app.py and excel_cleaner_app_2_like.py, without a
      target or with the datetime column as target, [Days] comes
      immediately after the datetime column.
    In each case no other column moves or changes: the returned frame is
    the input frame without its [Days] column, with the new [Days] column
    put in.  In excel_cleaner_app.py and excel_cleaner_app_2_like.py the
    datetime column of the returned frame holds the coerced timestamps
    (its own values when it has the timestamp dtype already). *)
Theorem add_days_column_position (df : DataFrame) (h : pystr) (col : Series)
    (days : list (option Q)) :
  distinct_labels df ->
  getitem df h = Some col ->
  days_of (datetime_of col) = Some days ->
  (forall a, a <> [] -> a <> DAYS -> has_column df a = true ->
     days_right_after (without_days df) a days
       (StreamlitExcelCleanerApp.add_days_column df (Some h) (Some a))) /\
  (h <> DAYS ->
     days_right_after (without_days df) h days
       (StreamlitExcelCleanerApp.add_days_column df (Some h) None)) /\
  (h <> DAYS -> forall ia, ia = None \/ ia = Some h ->
     let r := ExcelCleanerApp.add_days_column df (Some h) ia in
     days_right_after (without_days (fst r)) h days (snd r) /\
     days_right_after_with (without_days df) h
       (SDatetime (datetime_of col)) days (snd r)) /\
  (h <> DAYS -> forall ia, ia = None \/ ia = Some h ->
     let r := ExcelCleanerApp2Like.add_days_column df (Some h) ia in
     days_right_after (without_days (fst r)) h days (snd r) /\
     days_right_after_with (without_days df) h
       (SDatetime (datetime_of col)) days (snd r)).
Proof.
  intros Hnd G Hd.
  assert (Hh : has_column df h = true) by (apply getitem_has_column; eauto).
  assert (P : h <> DAYS -> forall ia,
             let r := ExcelCleanerApp.add_days_column df (Some h) ia in
             days_right_after (without_days (fst r)) h days (snd r) /\
             days_right_after_with (without_days df) h
               (SDatetime (datetime_of col)) days (snd r)).
  { intros Hn ia. rewrite add_days_column_eq, G. cbv zeta. rewrite Hd.
    cbn [fst snd].
    assert (Hw : has_column (without_days (written_back df h col)) h = true).
    { unfold without_days. rewrite (has_column_drop_other _ Hn).
      rewrite (@has_column_written_back R df h h col G). exact Hh. }
    rewrite (index_after_present _ _ Hw).
    split; [apply splice_after_column, Hw|].
    destruct (without_days_written_back Hnd G Hn)
      as (l & r & Eb & Ew & Hl).
    exists l, col, r. split; [exact Eb|]. split; [exact Hl|].
    rewrite Ew. apply splice_after_first, Hl. }
  split; [|split; [|split]].
  - intros a Ha Hn Hc. rewrite add_days_column_streamlit_eq, G, Hd.
    assert (Hw : has_column (without_days df) a = true).
    { unfold without_days. rewrite (has_column_drop_other _ Hn). exact Hc. }
    unfold index_after_target. rewrite Hw.
    destruct a as [|x a]; [congruence|]. cbn [truthy andb].
    apply splice_after_column, Hw.
  - intros Hn. rewrite add_days_column_streamlit_eq, G, Hd.
    assert (Hw : has_column (without_days df) h = true).
    { unfold without_days. rewrite (has_column_drop_other _ Hn). exact Hh. }
    cbn [index_after_target]. rewrite (index_after_present _ _ Hw).
    apply splice_after_column, Hw.
  - intros Hn ia _. apply P, Hn.
  - intros Hn ia _. apply P, Hn.
Qed.

End DerivedDaysClaims.

Lemma raw_dates_distinct : distinct_labels Sheets.raw_dates.
Proof. labels_distinct. Qed.

Lemma typed_dates_distinct : distinct_labels Sheets.typed_dates.
Proof. labels_distinct. Qed.

Lemma date_is_not_days : py "Date" <> DAYS.
Proof. discriminate. Qed.

(** On [Sheets.raw_dates] the streamlit script returns the raw datetime
    column; the other script leaves the coerced column in the frame of the
    caller. *)
Lemma add_days_column_write_back_witness :
  getitem (@StreamlitExcelCleanerApp.add_days_column Plain.runtime
             Sheets.raw_dates (Some (py "Date")) (Some (py "Date")))
          (py "Date")
  = Some (SObject [VTime 0; VTime (Sheets.DAY + Sheets.DAY / 2)]) /\
  getitem (fst (@ExcelCleanerApp.add_days_column Plain.runtime
                  Sheets.raw_dates (Some (py "Date")) (Some (py "Date"))))
          (py "Date")
  = Some (SDatetime [Some 0%Z; Some (Sheets.DAY + Sheets.DAY / 2)%Z]).
Proof.
  destruct (@add_days_column_write_back Plain.runtime Sheets.raw_dates
              (py "Date") (Some (py "Date")) _
              raw_dates_distinct eq_refl eq_refl)
    as (_ & B & C & _).
  split.
  - apply B, date_is_not_days.
  - rewrite C. reflexivity.
Defined.

(** On [Sheets.raw_dates] a second run returns the frame of the first
    run, in the two scripts. *)
Lemma add_days_column_twice_witness :
  (let out := snd (@ExcelCleanerApp.add_days_column Plain.runtime
                     Sheets.raw_dates (Some (py "Date")) (Some (py "Date"))) in
   @ExcelCleanerApp.add_days_column Plain.runtime out
     (Some (py "Date")) (Some (py "Date")) = (out, out)) /\
  (let out := @StreamlitExcelCleanerApp.add_days_column Plain.runtime
                Sheets.raw_dates (Some (py "Date")) (Some (py "Date")) in
   @StreamlitExcelCleanerApp.add_days_column Plain.runtime out
     (Some (py "Date")) (Some (py "Date")) = out).
Proof.
  destruct (@add_days_column_twice Plain.runtime Sheets.raw_dates
              (py "Date") (Some (py "Date")) _ _
              raw_dates_distinct date_is_not_days eq_refl eq_refl)
    as (_ & _ & A & _ & B).
  split; [exact (proj1 (A (Some (py "Date")))) | exact B].
Defined.

(** C5, as the claim states it, fails when the datetime column is itself
    named [Days].  On [Sheets.days_named] (timestamps 1970-01-01 and
    1970-01-02) the first run replaces the column by the day counts 0 and
    1; the second run reads these numbers as timestamps (nanoseconds after
    1970-01-01) and returns 0 and 1/86400000000000.  So in
    excel_cleaner_app.py, so in streamlit_excel_cleaner_app.py. *)
Lemma add_days_column_twice_on_days :
  let ns := NS_PER_DAY in
  let first := [Some (Qmake 0 ns); Some (Qmake (Zpos ns) ns)] in
  let second := [Some (Qmake 0 ns); Some (Qmake 1 ns)] in
  let out := snd (@ExcelCleanerApp.add_days_column Plain.runtime
                    Sheets.days_named (Some DAYS) None) in
  let out' := @StreamlitExcelCleanerApp.add_days_column Plain.runtime
                Sheets.days_named (Some DAYS) None in
  getitem out DAYS = Some (SNumeric first) /\
  getitem (snd (@ExcelCleanerApp.add_days_column Plain.runtime
                  out (Some DAYS) None)) DAYS = Some (SNumeric second) /\
  getitem out' DAYS = Some (SNumeric first) /\
  getitem (@StreamlitExcelCleanerApp.add_days_column Plain.runtime
             out' (Some DAYS) None) DAYS = Some (SNumeric second) /\
  first <> second.
Proof.
  cbv zeta. repeat apply conj; try (vm_compute; reflexivity).
  discriminate.
Qed.

(** On [Sheets.typed_dates], with target [A], the streamlit script puts
    [Days] right after [A]; with the datetime column as target
    excel_cleaner_app.py puts it right after [Date]. *)
Lemma add_days_column_position_witness :
  let days := [Some (Qmake 0 NS_PER_DAY);
               Some (Qmake (Sheets.DAY + Sheets.DAY / 2) NS_PER_DAY)] in
  days_right_after (without_days Sheets.typed_dates) (py "A") days
    (@StreamlitExcelCleanerApp.add_days_column Plain.runtime
       Sheets.typed_dates (Some (py "Date")) (Some (py "A"))) /\
  (let r := @ExcelCleanerApp.add_days_column Plain.runtime
              Sheets.typed_dates (Some (py "Date")) (Some (py "Date")) in
   days_right_after (without_days (fst r)) (py "Date") days (snd r) /\
   days_right_after_with (without_days Sheets.typed_dates) (py "Date")
     (SDatetime [Some 0%Z; Some (Sheets.DAY + Sheets.DAY / 2)%Z]) days
     (snd r)).
Proof.
  intros days.
  destruct (@add_days_column_position Plain.runtime Sheets.typed_dates
              (py "Date") _ days typed_dates_distinct eq_refl eq_refl)
    as (A & _ & C & _).
  split.
  - apply A; [discriminate | discriminate | reflexivity].
  - apply (C date_is_not_days (Some (py "Date")) (or_intror eq_refl)).
Defined.

(** C2, as the claim states it, fails.  On [Sheets.typed_dates], with
    datetime column [Date] and target [A] (both in the frame),
    excel_cleaner_app.py and excel_cleaner_app_2_like.py return the columns
    Date, Days, A: the target is not read.  streamlit_excel_cleaner_app.py
    returns Date, A, Days.  On [Sheets.no_dates], whose datetime column has
    no date, streamlit_excel_cleaner_app.py returns the frame as it is: no
    [Days] column is inserted after the target. *)
Lemma add_days_column_target_not_followed :
  columns (snd (@ExcelCleanerApp.add_days_column Plain.runtime
                  Sheets.typed_dates (Some (py "Date")) (Some (py "A"))))
  = [LStr (py "Date"); LStr DAYS; LStr (py "A")] /\
  columns (snd (@ExcelCleanerApp2Like.add_days_column Plain.runtime
                  Sheets.typed_dates (Some (py "Date")) (Some (py "A"))))
  = [LStr (py "Date"); LStr DAYS; LStr (py "A")] /\
  columns (@StreamlitExcelCleanerApp.add_days_column Plain.runtime
             Sheets.typed_dates (Some (py "Date")) (Some (py "A")))
  = [LStr (py "Date"); LStr (py "A"); LStr DAYS] /\
  has_column Sheets.no_dates (py "Date") = true /\
  has_column Sheets.no_dates (py "A") = true /\
  @StreamlitExcelCleanerApp.add_days_column Plain.runtime
    Sheets.no_dates (Some (py "Date")) (Some (py "A")) = Sheets.no_dates.
Proof.
  repeat apply conj; vm_compute; reflexivity.
Qed.

(* ================================================================== *)
(** * The final sort                                                   *)
(* ================================================================== *)

Section InsertionArgsort.
Variable before : Z -> Z -> bool.
Hypothesis before_true : forall a b, before a b = true -> (a <= b)%Z.
Hypothesis before_false : forall a b, before a b = false -> (b <= a)%Z.
Variable keys : list Z.

Lemma insert_by_perm (i : nat) (acc : list nat) :
  Permutation (Plain.insert_by before keys i acc) (i :: acc).
Proof.
  induction acc as [|j acc IH]; simpl; [reflexivity|].
  destruct (before (nth i keys 0%Z) (nth j keys 0%Z)); [reflexivity|].
  rewrite IH. apply perm_swap.
Qed.

Lemma insert_by_hd (a : Z) (i : nat) (acc : list nat) :
  HdRel Z.le a (map (key_at keys) acc) -> (a <= key_at keys i)%Z ->
  HdRel Z.le a (map (key_at keys) (Plain.insert_by before keys i acc)).
Proof.
  intros H Hi. destruct acc as [|j acc]; simpl.
  - constructor. exact Hi.
  - destruct (before (nth i keys 0%Z) (nth j keys 0%Z)); simpl.
    + constructor. exact Hi.
    + constructor. inversion H. assumption.
Qed.

Lemma insert_by_sorted (i : nat) (acc : list nat) :
  Sorted Z.le (map (key_at keys) acc) ->
  Sorted Z.le (map (key_at keys) (Plain.insert_by before keys i acc)).
Proof.
  induction acc as [|j acc IH]; simpl; intros H.
  - repeat constructor.
  - destruct (before (nth i keys 0%Z) (nth j keys 0%Z)) eqn:E; simpl.
    + constructor; [exact H|]. constructor. apply before_true, E.
    + apply Sorted_inv in H. destruct H as [Hs Hh].
      constructor; [apply IH, Hs|].
      apply insert_by_hd; [exact Hh | apply before_false, E].
Qed.

Lemma fold_insert_perm (l : list nat) :
  Permutation (fold_right (Plain.insert_by before keys) [] l) l.
Proof.
  induction l as [|i l IH]; simpl; [reflexivity|].
  rewrite insert_by_perm. constructor. exact IH.
Qed.

Lemma fold_insert_sorted (l : list nat) :
  Sorted Z.le (map (key_at keys) (fold_right (Plain.insert_by before keys) [] l)).
Proof.
  induction l as [|i l IH]; simpl; [constructor|].
  apply insert_by_sorted, IH.
Qed.

End InsertionArgsort.

Lemma argsort_by_contract (before : Z -> Z -> bool) :
  (forall a b, before a b = true -> (a <= b)%Z) ->
  (forall a b, before a b = false -> (b <= a)%Z) ->
  forall keys,
    Permutation (Plain.argsort_by before keys) (seq 0 (length keys)) /\
    Sorted Z.le (map (fun j => nth j keys 0%Z) (Plain.argsort_by before keys)).
Proof.
  intros Ht Hf keys. split.
  - apply fold_insert_perm.
  - apply fold_insert_sorted; assumption.
Qed.

Lemma plain_argsort_contract : argsort_contract Plain.runtime.
Proof.
  intros keys. apply argsort_by_contract; intros a b H.
  - apply Z.leb_le, H.
  - apply Z.leb_gt in H. lia.
Qed.


Section Nargsort.

Lemma map_nth_seq {A} (l : list A) (d : A) :
  map (fun j => nth j l d) (seq 0 (length l)) = l.
Proof.
  induction l as [|x l IH]; simpl; [reflexivity|].
  f_equal. rewrite <- seq_shift, map_map. exact IH.
Qed.

Lemma filter_partition_perm {A} (f : A -> bool) (l : list A) :
  Permutation (filter f l ++ filter (fun x => negb (f x)) l) l.
Proof.
  induction l as [|x l IH]; simpl; [reflexivity|].
  destruct (f x); simpl.
  - constructor. exact IH.
  - rewrite <- Permutation_middle. constructor. exact IH.
Qed.

(** The keys at the valid positions are the valid keys, in order. *)
Lemma keys_at_valid_from (keys : list (option Z)) (start : nat) :
  map (fun i => nth (i - start) keys None)
      (filter (fun i => notna (nth (i - start) keys None))
              (seq start (length keys)))
  = map Some (valid_keys keys).
Proof.
  revert start; induction keys as [|x keys IH]; intros start;
    [reflexivity|].
  cbn [length seq filter].
  replace (nth (start - start) (x :: keys) None) with x
    by (rewrite Nat.sub_diag; reflexivity).
  assert (E : forall (g : option Z -> bool),
             filter (fun i => g (nth (i - start) (x :: keys) None))
                    (seq (S start) (length keys))
             = filter (fun i => g (nth (i - S start) keys None))
                      (seq (S start) (length keys))).
  { intros g. apply filter_ext_in. intros i Hi. apply in_seq in Hi.
    replace (i - start) with (S (i - S start)) by lia. reflexivity. }
  assert (M : forall l, (forall i, In i l -> S start <= i) ->
             map (fun i => nth (i - start) (x :: keys) None) l
             = map (fun i => nth (i - S start) keys None) l).
  { intros l Hl. apply map_ext_in. intros i Hi. apply Hl in Hi.
    replace (i - start) with (S (i - S start)) by lia. reflexivity. }
  assert (Hge : forall i,
             In i (filter (fun i => notna (nth (i - S start) keys None))
                          (seq (S start) (length keys))) -> S start <= i).
  { intros i Hi. apply filter_In in Hi. destruct Hi as [Hi _].
    apply in_seq in Hi. lia. }
  rewrite (E notna).
  destruct x as [t|].
  - change (notna (Some t)) with true. cbn iota. cbn [map].
    replace (nth (start - start) (Some t :: keys) None) with (Some t)
      by (rewrite Nat.sub_diag; reflexivity).
    rewrite (M _ Hge), (IH (S start)). reflexivity.
  - change (notna (@None Z)) with false. cbn iota.
    rewrite (M _ Hge), (IH (S start)). reflexivity.
Qed.

Lemma keys_at_valid (keys : list (option Z)) :
  map (fun i => nth i keys None) (valid_positions keys)
  = map Some (valid_keys keys).
Proof.
  unfold valid_positions. rewrite <- (keys_at_valid_from keys 0).
  rewrite (filter_ext (fun i => notna (nth (i - 0) keys None))
                      (fun i => notna (nth i keys None)))
    by (intros i; rewrite Nat.sub_0_r; reflexivity).
  apply map_ext. intros i. rewrite Nat.sub_0_r. reflexivity.
Qed.

Lemma valid_positions_length (keys : list (option Z)) :
  length (valid_positions keys) = length (valid_keys keys).
Proof.
  rewrite <- (length_map (fun i => nth i keys None)), keys_at_valid.
  apply length_map.
Qed.

Lemma key_at_valid (keys : list (option Z)) (j : nat) :
  j < length (valid_keys keys) ->
  nth (nth j (valid_positions keys) 0) keys None
  = Some (nth j (valid_keys keys) 0%Z).
Proof.
  intros Hj.
  assert (E : nth j (map (fun i => nth i keys None) (valid_positions keys))
                  None
              = nth j (map Some (valid_keys keys)) None)
    by (rewrite keys_at_valid; reflexivity).
  rewrite (nth_indep _ None (nth 0 keys None)) in E
    by (rewrite length_map, valid_positions_length; exact Hj).
  rewrite (map_nth (fun i => nth i keys None)) in E.
  rewrite E.
  rewrite (nth_indep _ None (Some 0%Z)) by (rewrite length_map; exact Hj).
  apply (map_nth Some).
Qed.

Lemma missing_positions_missing (keys : list (option Z)) :
  Forall (fun i => nth i keys None = None) (missing_positions keys).
Proof.
  apply Forall_forall. intros i Hi. apply filter_In in Hi.
  destruct Hi as [_ Hi]. destruct (nth i keys None); [discriminate|reflexivity].
Qed.


Context {R : Runtime}.
Hypothesis contract : argsort_contract R.

Lemma nargsort_split (keys : list (option Z)) :
  nargsort keys
  = map (fun j => nth j (valid_positions keys) 0)
        (argsort_quicksort (valid_keys keys))
    ++ missing_positions keys.
Proof. reflexivity. Qed.

Lemma nargsort_perm (keys : list (option Z)) :
  Permutation (nargsort keys) (seq 0 (length keys)).
Proof.
  rewrite nargsort_split.
  destruct (contract (valid_keys keys)) as [Hp _].
  rewrite (Permutation_map _ Hp), <- valid_positions_length, map_nth_seq.
  unfold valid_positions, missing_positions, notna.
  rewrite (filter_ext (fun i => isna (nth i keys None))
             (fun i => negb (negb (isna (nth i keys None)))))
    by (intros i; rewrite negb_involutive; reflexivity).
  apply (filter_partition_perm (fun i => negb (isna (nth i keys None)))).
Qed.

Lemma nargsort_valid_ascending (keys : list (option Z)) :
  let valid := map (fun j => nth j (valid_positions keys) 0)
                   (argsort_quicksort (valid_keys keys)) in
  let ts := map (fun j => nth j (valid_keys keys) 0%Z)
                (argsort_quicksort (valid_keys keys)) in
  map (fun i => nth i keys None) valid = map Some ts /\ Sorted Z.le ts.
Proof.
  intros valid ts. destruct (contract (valid_keys keys)) as [Hp Hs].
  split; [|exact Hs].
  subst valid ts. rewrite !map_map. apply map_ext_in. intros j Hj.
  apply key_at_valid.
  apply (Permutation_in _ Hp) in Hj. apply in_seq in Hj. lia.
Qed.

End Nargsort.

Section FinalSort.
Context {R : Runtime}.


End FinalSort.

Lemma unsorted_distinct : distinct_labels Sheets.unsorted.
Proof. labels_distinct. Qed.



(* ================================================================== *)
(** * Further properties of the detection functions                    *)
(* ================================================================== *)

Section DetectionProperties.
Context {R : Runtime}.

Lemma str_mem_false (x : pystr) (xs : list pystr) :
  str_mem x xs = false -> forall y, In y xs -> x <> y.
Proof.
  unfold str_mem. intros H y Hy E. subst y.
  assert (T : existsb (pystr_eqb x) xs = true).
  { apply existsb_exists. exists x. split; [exact Hy | apply pystr_eqb_refl]. }
  congruence.
Qed.

Lemma sensor_test_true (rx : regex) (h : pystr) :
  sensor_test rx h = true ->
  (forall m, In m ExcelCleanerApp.META_GUESS -> lower h <> lower m) /\
  rx_search rx h = true.
Proof.
  unfold sensor_test. intros H. apply andb_true_iff in H.
  destruct H as [Hm Hs]. split; [|exact Hs].
  apply negb_true_iff in Hm. intros m Hin.
  eapply str_mem_false; [exact Hm | apply in_map, Hin].
Qed.

(** X1.  Whatever the pattern, a header returned by
    [detect_sensor_columns] (in each of the three scripts) is a normalised
    header of the frame, equals no meta name up to case, and is matched by
    the compiled pattern: a meta column is never reported as a sensor, even
    when the pattern matches it. *)
Theorem detect_sensor_columns_excludes_meta (df : DataFrame)
    (pattern : pystr) (l : list pystr) :
  ExcelCleanerApp.detect_sensor_columns df pattern = Ok l \/
  ExcelCleanerApp2Like.detect_sensor_columns df pattern = Ok l \/
  StreamlitExcelCleanerApp.detect_sensor_columns df pattern = Ok l ->
  forall h, In h l ->
    In h (ExcelCleanerApp.normalize_headers (columns df)) /\
    (forall m, In m ExcelCleanerApp.META_GUESS -> lower h <> lower m) /\
    exists rx, re_compile_ignorecase pattern = Ok rx /\ rx_search rx h = true.
Proof.
  intros H.
  assert (E : ExcelCleanerApp.detect_sensor_columns df pattern = Ok l).
  { destruct H as [H | [H | H]]; [exact H | exact H |].
    rewrite <- detect_sensor_columns_streamlit. exact H. }
  clear H. rewrite detect_sensor_columns_filter in E.
  destruct (re_compile_ignorecase pattern) as [rx|e]; [|discriminate].
  injection E as <-. intros h Hin. apply filter_In in Hin.
  destruct Hin as [Hin Ht]. apply sensor_test_true in Ht.
  destruct Ht as [Hm Hs].
  split; [exact Hin|]. split; [exact Hm|]. exists rx. split; [reflexivity | exact Hs].
Qed.

Lemma fallback_loop_some (df : DataFrame) (headers : list pystr) (h : pystr) :
  ExcelCleanerApp.fallback_loop df headers = Ok (Some h) -> In h headers.
Proof.
  induction headers as [|x headers IH]; simpl; [discriminate|].
  destruct (getitem df x) as [col|]; [|discriminate]. simpl.
  destruct (to_datetime_dayfirst col) as [s|e]; [|discriminate]. simpl.
  destruct (notna_mean_gt_0_7 s).
  - intros [= ->]. left. reflexivity.
  - intros H. right. apply IH, H.
Qed.

Lemma find_datetime_col_header (df : DataFrame) (h : pystr) :
  ExcelCleanerApp.find_datetime_col df = Ok (Some h) ->
  In h (ExcelCleanerApp.normalize_headers (columns df)).
Proof.
  intros E. unfold ExcelCleanerApp.find_datetime_col in E.
  destruct (ExcelCleanerApp.scan_candidates ExcelCleanerApp.candidates
              (ExcelCleanerApp.normalize_headers (columns df)))
    as [h0|] eqn:S.
  - injection E as ->.
    destruct (scan_candidates_some _ _ S)
      as (_ & _ & _ & hs1 & hs2 & _ & _ & -> & _).
    apply in_or_app. right. left. reflexivity.
  - apply (fallback_loop_some _ _ E).
Qed.

(** X2.  A column name returned by [find_datetime_col] (in each of the
    three scripts) is one of the normalised headers of the frame, on the
    preferred path and on the fallback alike. *)
Theorem find_datetime_col_returns_a_header (df : DataFrame) (h : pystr) :
  ExcelCleanerApp.find_datetime_col df = Ok (Some h) \/
  ExcelCleanerApp2Like.find_datetime_col df = Ok (Some h) \/
  StreamlitExcelCleanerApp.find_datetime_col df = Ok (Some h) ->
  In h (ExcelCleanerApp.normalize_headers (columns df)).
Proof.
  intros H.
  assert (E : ExcelCleanerApp.find_datetime_col df = Ok (Some h))
    by (destruct H as [H | [H | H]]; exact H).
  apply find_datetime_col_header, E.
Qed.

Lemma normalized_labels_headers (df : DataFrame) :
  normalized_labels df ->
  map LStr (ExcelCleanerApp.normalize_headers (columns df)) = columns df.
Proof.
  unfold normalized_labels. rewrite normalize_headers_map.
  induction (columns df) as [|c cols IH]; intros H; [reflexivity|].
  inversion H as [|? ? (s & -> & Hs) Ht]; subst. simpl map at 1.
  cbn [map]. rewrite (IH Ht). f_equal. f_equal.
  apply (normalize_label_fixed Hs).
Qed.

Lemma has_column_in (df : DataFrame) (h : pystr) :
  In (LStr h) (columns df) -> has_column df h = true.
Proof.
  intros H. unfold has_column. apply existsb_exists.
  exists (LStr h). split; [exact H | apply label_eqb_eq; reflexivity].
Qed.

Lemma getitem_in (df : DataFrame) (h : pystr) (col : Series) :
  getitem df h = Some col -> In (LStr h, col) df.
Proof.
  induction df as [|[c s] df IH]; simpl; [discriminate|].
  destruct (label_eqb c (LStr h)) eqn:E.
  - intros [= ->]. apply label_eqb_eq in E. subst c. left. reflexivity.
  - intros H. right. apply IH, H.
Qed.

Lemma fallback_loop_ok (df : DataFrame) (headers : list pystr) :
  parses_without_error df ->
  Forall (fun h => has_column df h = true) headers ->
  exists r, ExcelCleanerApp.fallback_loop df headers = Ok r.
Proof.
  intros Hp. induction 1 as [|h headers Hh _ IH]; simpl; [eauto|].
  apply getitem_has_column in Hh. destruct Hh as [col G]. rewrite G. simpl.
  destruct (Hp _ _ (getitem_in _ _ G)) as [s Hs]. rewrite Hs. simpl.
  destruct (notna_mean_gt_0_7 s); [eauto | exact IH].
Qed.

Lemma find_datetime_col_ok (df : DataFrame) :
  normalized_labels df ->
  parses_without_error df ->
  exists r, ExcelCleanerApp.find_datetime_col df = Ok r.
Proof.
  intros Hn Hp. unfold ExcelCleanerApp.find_datetime_col.
  destruct (ExcelCleanerApp.scan_candidates ExcelCleanerApp.candidates
              (ExcelCleanerApp.normalize_headers (columns df))); [eauto|].
  apply fallback_loop_ok; [exact Hp|].
  apply Forall_forall. intros h Hh. apply has_column_in.
  rewrite <- (normalized_labels_headers Hn). apply in_map, Hh.
Qed.

(** X3.  On a frame as the cleaning script passes it (distinct labels, each
    a normalised string), [find_datetime_col] raises only what
    [pd.to_datetime] raises: when no column makes the parser raise, it
    returns a column name or [None], and no [KeyError] comes from its
    lookups [df[h]]. *)
Theorem find_datetime_col_no_key_error (df : DataFrame) :
  distinct_labels df ->
  normalized_labels df ->
  parses_without_error df ->
  exists r,
    ExcelCleanerApp.find_datetime_col df = Ok r /\
    ExcelCleanerApp2Like.find_datetime_col df = Ok r /\
    StreamlitExcelCleanerApp.find_datetime_col df = Ok r.
Proof.
  intros _ Hn Hp.
  destruct (find_datetime_col_ok Hn Hp) as [r E]. exists r. repeat split; exact E.
Qed.

(** X4.  When no header matches a candidate and the fallback reaches a
    normalised header that is not a label of the frame (the frame was
    passed with labels that are not normalised), [find_datetime_col] raises
    [KeyError]: the lookup [df[h]] is not guarded. *)
Theorem find_datetime_col_key_error (df : DataFrame)
    (hs1 : list pystr) (h : pystr) (hs2 : list pystr) :
  let headers := ExcelCleanerApp.normalize_headers (columns df) in
  (forall x c, In x headers -> In c ExcelCleanerApp.candidates ->
               lower x <> lower c) ->
  headers = hs1 ++ h :: hs2 ->
  Forall (below_threshold df) hs1 ->
  has_column df h = false ->
  ExcelCleanerApp.find_datetime_col df = Raise KeyError /\
  ExcelCleanerApp2Like.find_datetime_col df = Raise KeyError /\
  StreamlitExcelCleanerApp.find_datetime_col df = Raise KeyError.
Proof.
  intros headers Hno Hhs Hb Hh.
  assert (E : ExcelCleanerApp.find_datetime_col df = Raise KeyError).
  { unfold ExcelCleanerApp.find_datetime_col. fold headers.
    assert (S : ExcelCleanerApp.scan_candidates ExcelCleanerApp.candidates
                  headers = None).
    { apply scan_candidates_none. intros c x Hc Hx. apply Hno; assumption. }
    rewrite S, Hhs. clear S Hhs Hno.
    induction Hb as [|x hs (c' & s' & Hg' & Hp' & Hr') _ IH]; simpl.
    - apply getitem_none in Hh. rewrite Hh. reflexivity.
    - rewrite Hg'. simpl. rewrite Hp'. simpl. unfold notna_mean_gt_0_7.
      destruct (Nat.ltb_spec (7 * length s') (10 * count_notna s'));
        [lia | exact IH]. }
  repeat split; exact E.
Qed.


(** X18.  When the pattern compiles, [detect_sensor_columns] (in each of
    the three scripts) returns every normalised header that equals no meta
    name up to case and is matched by the pattern, each as often as it
    occurs among the headers and in the order of the headers; it returns
    nothing else. *)
Theorem detect_sensor_columns_complete (df : DataFrame) (pattern : pystr)
    (rx : regex) :
  re_compile_ignorecase pattern = Ok rx ->
  let headers := ExcelCleanerApp.normalize_headers (columns df) in
  let meta_lower := map lower ExcelCleanerApp.META_GUESS in
  exists l,
    ExcelCleanerApp.detect_sensor_columns df pattern = Ok l /\
    ExcelCleanerApp2Like.detect_sensor_columns df pattern = Ok l /\
    StreamlitExcelCleanerApp.detect_sensor_columns df pattern = Ok l /\
    l = filter (fun h => negb (str_mem (lower h) meta_lower)
                         && rx_search rx h) headers /\
    (forall h, In h l <->
       In h headers /\ str_mem (lower h) meta_lower = false /\
       rx_search rx h = true).
Proof.
  intros Hrx headers meta_lower.
  exists (filter (sensor_test rx) headers).
  assert (E : ExcelCleanerApp.detect_sensor_columns df pattern
              = Ok (filter (sensor_test rx) headers))
    by (rewrite detect_sensor_columns_filter, Hrx; reflexivity).
  split; [exact E|]. split; [exact E|].
  split; [rewrite detect_sensor_columns_streamlit; exact E|].
  split; [reflexivity|].
  intros h. rewrite filter_In. unfold sensor_test. fold meta_lower.
  rewrite andb_true_iff, negb_true_iff. reflexivity.
Qed.

End DetectionProperties.

Lemma normalized_by_check (s : pystr) :
  tidy false s = true -> no_lead s -> no_trail s -> normalized s.
Proof.
  intros Ht Hl Hr. pose proof (tidy_ws_collapsed s Ht) as Hc.
  split; [apply ws_collapsed_no_newline, Hc|]. auto.
Qed.

Ltac normalized_labels_by_check :=
  unfold normalized_labels; cbn [columns map fst];
  repeat (constructor;
          [eexists; split; [reflexivity|];
           apply normalized_by_check; vm_compute; reflexivity|]);
  constructor.

Lemma plain_parses_without_error (df : DataFrame) :
  @parses_without_error Plain.runtime df.
Proof. intros c [l|l|l] _; eexists; reflexivity. Qed.

(** On [Sheets.sensors] with the default pattern, [ALARM_HI] is reported:
    it is a header of the sheet and the pattern matches it. *)
Lemma detect_sensor_columns_excludes_meta_witness :
  In (py "ALARM_HI")
     (ExcelCleanerApp.normalize_headers (columns Sheets.sensors)) /\
  exists rx,
    @re_compile_ignorecase Plain.runtime ExcelCleanerApp.SENSOR_DEFAULT_REGEX
    = Ok rx /\
    @rx_search Plain.runtime rx (py "ALARM_HI") = true.
Proof.
  destruct (@detect_sensor_columns_excludes_meta Plain.runtime Sheets.sensors
              ExcelCleanerApp.SENSOR_DEFAULT_REGEX
              [py "ALARM_HI"; py "probe_c"]
              (or_introl eq_refl) (py "ALARM_HI") (or_introl eq_refl))
    as (A & _ & B).
  split; [exact A | exact B].
Defined.

Lemma find_datetime_col_returns_a_header_witness :
  In (py "timestamp")
     (ExcelCleanerApp.normalize_headers (columns Sheets.priority)).
Proof.
  apply (@find_datetime_col_returns_a_header Plain.runtime).
  left. vm_compute. reflexivity.
Defined.

Lemma find_datetime_col_no_key_error_witness :
  exists r,
    @ExcelCleanerApp.find_datetime_col Plain.runtime Sheets.dense = Ok r.
Proof.
  destruct (@find_datetime_col_no_key_error Plain.runtime Sheets.dense)
    as (r & E & _).
  - labels_distinct.
  - normalized_labels_by_check.
  - apply plain_parses_without_error.
  - exists r. exact E.
Defined.

(** [Sheets.padded] has the label [" When "]; the header [When] is looked
    up and is not a label. *)
Lemma find_datetime_col_key_error_witness :
  @ExcelCleanerApp.find_datetime_col Plain.runtime Sheets.padded
  = Raise KeyError.
Proof.
  destruct (@find_datetime_col_key_error Plain.runtime Sheets.padded
              [] (py "When") []) as (E & _).
  - no_candidate_matches.
  - reflexivity.
  - constructor.
  - reflexivity.
  - exact E.
Defined.

(* ================================================================== *)
(** * Further properties of the coercions                              *)
(* ================================================================== *)

Section CoercionProperties.
Context {R : Runtime}.

Lemma count_na_all_nat (n : nat) : count_na (all_nat n) = n.
Proof.
  unfold count_na, all_nat.
  induction n as [|n IH]; simpl; [reflexivity | rewrite IH; reflexivity].
Qed.

Lemma fillna_all_nat (n : nat) (s2 : list (option Z)) :
  length s2 = n -> fillna (all_nat n) s2 = s2.
Proof.
  revert s2; induction n as [|n IH]; intros [|x s2] H; simpl in *;
    try discriminate; [reflexivity|].
  f_equal. apply IH. lia.
Qed.

(** X5.  When [pd.to_datetime] raises on the series, [coerce_datetime] (the
    same in the three scripts) does not raise: it returns a series of the
    length of the input that is what the spreadsheet-serial reading gives
    (when that reading returns a series on the same index), and that is
    all missing when the serial reading raises too. *)
Theorem coerce_datetime_parser_raises (series : Series) (e : exn) :
  to_datetime_dayfirst series = Raise e ->
  let out := ExcelCleanerApp.coerce_datetime series in
  ExcelCleanerApp2Like.coerce_datetime series = out /\
  StreamlitExcelCleanerApp.coerce_datetime series = out /\
  length out = slen series /\
  (forall s2, serial_pass series = Ok s2 -> length s2 = slen series ->
              out = s2) /\
  (forall e', serial_pass series = Raise e' -> out = all_nat (slen series)).
Proof.
  intros E out. subst out.
  split; [reflexivity|]. split; [reflexivity|].
  rewrite coerce_datetime_unfold. unfold text_pass. rewrite E.
  unfold isna_mean_gt_0_5. rewrite count_na_all_nat.
  assert (L : length (all_nat (slen series)) = slen series)
    by apply repeat_length.
  rewrite L.
  destruct (Nat.ltb_spec (slen series) (2 * slen series)) as [Hn | Hn].
  - destruct (serial_pass series) as [s2|e2].
    + split; [rewrite fillna_length; exact L|].
      split; [|discriminate].
      intros s2' [= <-] Hl. apply fillna_all_nat, Hl.
    + split; [exact L|]. split; [discriminate | reflexivity].
  - assert (Z0 : slen series = 0) by lia.
    split; [exact L|]. split; [|reflexivity].
    intros s2 _ Hl. rewrite Z0 in *.
    destruct s2; [reflexivity | discriminate].
Qed.

Lemma getitem_setitem_other (df : DataFrame) (h k : pystr) (s : Series) :
  has_column df h = true -> h <> k ->
  getitem (setitem df h s) k = getitem df k.
Proof.
  intros H Hn. unfold setitem. rewrite H. clear H.
  induction df as [|[c x] df IH]; [reflexivity|]. simpl.
  destruct (label_eqb c (LStr h)) eqn:E; simpl.
  - apply label_eqb_eq in E. subst c.
    rewrite (label_eqb_str_neq Hn). exact IH.
  - destruct (label_eqb c (LStr k)); [reflexivity | exact IH].
Qed.

Lemma coerce_numeric_app (df : DataFrame) (cs1 cs2 : list pystr) :
  ExcelCleanerApp.coerce_numeric df (cs1 ++ cs2)
  = match ExcelCleanerApp.coerce_numeric df cs1 with
    | (df1, None) => ExcelCleanerApp.coerce_numeric df1 cs2
    | r => r
    end.
Proof.
  revert df; induction cs1 as [|c cs1 IH]; intros df; simpl.
  - reflexivity.
  - destruct (getitem df c) as [col|]; [|reflexivity].
    destruct (to_numeric_coerce col) as [col'|e]; [|reflexivity].
    apply IH.
Qed.

Lemma coerce_numeric_keeps (df : DataFrame) (cols : list pystr) :
  columns (fst (ExcelCleanerApp.coerce_numeric df cols)) = columns df /\
  (forall k, ~ In k cols ->
     getitem (fst (ExcelCleanerApp.coerce_numeric df cols)) k = getitem df k).
Proof.
  revert df; induction cols as [|c cols IH]; intros df; simpl.
  - split; reflexivity.
  - destruct (getitem df c) as [col|] eqn:G; [|split; reflexivity].
    destruct (to_numeric_coerce col) as [col'|e]; [|split; reflexivity].
    assert (H : has_column df c = true) by (apply getitem_has_column; eauto).
    destruct (IH (setitem df c col')) as [A B]. split.
    + rewrite A. apply columns_setitem, H.
    + intros k Hk. rewrite B by tauto.
      apply getitem_setitem_other; [exact H | tauto].
Qed.

(** X6.  [coerce_numeric] (the same in the three scripts) keeps the labels
    of the frame and their order, and leaves every column it is not asked
    to convert as it is; this holds for the frame it leaves behind when it
    raises as well. *)
Theorem coerce_numeric_frame (df : DataFrame) (cols : list pystr) :
  distinct_labels df ->
  let after := fst (ExcelCleanerApp.coerce_numeric df cols) in
  ExcelCleanerApp2Like.coerce_numeric df cols
  = ExcelCleanerApp.coerce_numeric df cols /\
  StreamlitExcelCleanerApp.coerce_numeric df cols
  = ExcelCleanerApp.coerce_numeric df cols /\
  columns after = columns df /\
  (forall k, ~ In k cols -> getitem after k = getitem df k).
Proof.
  intros _ after. subst after.
  split; [reflexivity|]. split; [reflexivity|].
  apply coerce_numeric_keeps.
Qed.

(** X7.  When the named columns are distinct, are all in the frame, and
    [pd.to_numeric] raises on none of them, [coerce_numeric] does not raise
    and each named column holds what [pd.to_numeric] returns for it. *)
Theorem coerce_numeric_converts (df : DataFrame) (cols : list pystr) :
  distinct_labels df ->
  NoDup cols ->
  (forall c, In c cols ->
     exists col col', getitem df c = Some col /\
                      to_numeric_coerce col = Ok col') ->
  let r := ExcelCleanerApp.coerce_numeric df cols in
  snd r = None /\
  forall c col, In c cols -> getitem df c = Some col ->
    exists col', to_numeric_coerce col = Ok col' /\
                 getitem (fst r) c = Some col'.
Proof.
  intros _ Hnd. revert df; induction Hnd as [|c cols Hc Hnd IH];
    intros df Hok r; subst r; simpl.
  - split; [reflexivity | intros c col []].
  - destruct (Hok c (or_introl eq_refl)) as (col & col' & G & T).
    rewrite G, T.
    assert (H : has_column df c = true) by (apply getitem_has_column; eauto).
    assert (Hok' : forall c0, In c0 cols ->
              exists col0 col0', getitem (setitem df c col') c0 = Some col0 /\
                                 to_numeric_coerce col0 = Ok col0').
    { intros c0 Hc0. destruct (Hok c0 (or_intror Hc0)) as (x & x' & Gx & Tx).
      exists x, x'. split; [|exact Tx].
      rewrite getitem_setitem_other; [exact Gx | exact H |].
      intros ->. contradiction. }
    destruct (IH (setitem df c col') Hok') as [A B].
    split; [exact A|].
    intros c0 col0 [<- | Hc0] G0.
    + rewrite G in G0. injection G0 as <-. exists col'. split; [exact T|].
      destruct (coerce_numeric_keeps (setitem df c col') cols) as [_ F].
      rewrite (F c Hc). apply getitem_setitem_same, H.
    + apply B; [exact Hc0|].
      rewrite getitem_setitem_other; [exact G0 | exact H |].
      intros ->. contradiction.
Qed.

(** X8.  [coerce_numeric] works in place: when the column [c] it has to
    convert is not in the frame it raises [KeyError], and when
    [pd.to_numeric] raises on [c] it raises that exception; in both cases
    the conversions of the columns named before [c] stay in the frame and
    the columns named after [c] are not converted. *)
Theorem coerce_numeric_stops_at_error (df df1 : DataFrame)
    (cs1 : list pystr) (c : pystr) (cs2 : list pystr) :
  ExcelCleanerApp.coerce_numeric df cs1 = (df1, None) ->
  (getitem df1 c = None ->
     ExcelCleanerApp.coerce_numeric df (cs1 ++ c :: cs2)
     = (df1, Some KeyError)) /\
  (forall col e, getitem df1 c = Some col ->
     to_numeric_coerce col = Raise e ->
     ExcelCleanerApp.coerce_numeric df (cs1 ++ c :: cs2) = (df1, Some e)).
Proof.
  intros E. split.
  - intros G. rewrite coerce_numeric_app, E. simpl. rewrite G. reflexivity.
  - intros col e G T. rewrite coerce_numeric_app, E. simpl.
    rewrite G, T. reflexivity.
Qed.

End CoercionProperties.

(** With a text parser that raises, the number 44200 is read as a
    spreadsheet serial: day 18631 after 1970-01-01. *)
Lemma coerce_datetime_parser_raises_witness :
  @ExcelCleanerApp.coerce_datetime runtime_parser_raises
    (SObject [VNum (inject_Z 44200); VNone])
  = [Some (18631 * Sheets.DAY)%Z; None].
Proof.
  destruct (@coerce_datetime_parser_raises runtime_parser_raises
              (SObject [VNum (inject_Z 44200); VNone]) ValueError eq_refl)
    as (_ & _ & _ & H & _).
  apply H; reflexivity.
Defined.

Lemma readings_distinct : distinct_labels Sheets.readings.
Proof. labels_distinct. Qed.

Lemma coerce_numeric_frame_witness :
  columns (fst (@ExcelCleanerApp.coerce_numeric Plain.runtime Sheets.readings
                  [py "ALARM_HI"; py "PROBE_C"]))
  = columns Sheets.readings.
Proof.
  destruct (@coerce_numeric_frame Plain.runtime Sheets.readings
              [py "ALARM_HI"; py "PROBE_C"] readings_distinct)
    as (_ & _ & H & _).
  exact H.
Defined.

Lemma coerce_numeric_converts_witness :
  snd (@ExcelCleanerApp.coerce_numeric Plain.runtime Sheets.readings
         [py "ALARM_HI"; py "PROBE_C"]) = None.
Proof.
  destruct (@coerce_numeric_converts Plain.runtime Sheets.readings
              [py "ALARM_HI"; py "PROBE_C"] readings_distinct)
    as [H _].
  - repeat (constructor; [cbn [In]; intuition discriminate|]). constructor.
  - intros c [<- | [<- | []]]; eexists _, _; split; reflexivity.
  - exact H.
Defined.

(** A column that is not in the sheet, named between two sensor columns:
    [KeyError], the first column is converted, the last one is not. *)
Lemma coerce_numeric_stops_at_error_witness :
  let r := @ExcelCleanerApp.coerce_numeric Plain.runtime Sheets.readings
             [py "ALARM_HI"; py "Missing"; py "PROBE_C"] in
  snd r = Some KeyError /\
  getitem (fst r) (py "ALARM_HI")
  = Some (SNumeric [Some (inject_Z 12); None]) /\
  getitem (fst r) (py "PROBE_C")
  = Some (SObject [VNum (inject_Z 7); VStr (py "8")]).
Proof.
  destruct (@coerce_numeric_stops_at_error Plain.runtime Sheets.readings _
              [py "ALARM_HI"] (py "Missing") [py "PROBE_C"] eq_refl)
    as [K _].
  cbv zeta. change ([py "ALARM_HI"; py "Missing"; py "PROBE_C"])
    with ([py "ALARM_HI"] ++ py "Missing" :: [py "PROBE_C"]).
  rewrite (K eq_refl). repeat split.
Defined.

(* ================================================================== *)
(** * Further properties of the derived column                         *)
(* ================================================================== *)

Section DaysProperties.
Context {R : Runtime}.

Lemma columns_drop_column (df : DataFrame) (h : pystr) :
  columns (drop_column df h)
  = filter (fun c => negb (label_eqb c (LStr h))) (columns df).
Proof.
  unfold columns, drop_column.
  induction df as [|[c s] df IH]; [reflexivity|]. simpl.
  destruct (label_eqb c (LStr h)); simpl; rewrite IH; reflexivity.
Qed.

Lemma columns_written_back (df : DataFrame) (h : pystr) (col : Series) :
  getitem df h = Some col -> columns (written_back df h col) = columns df.
Proof.
  intros G.
  assert (H : has_column df h = true) by (apply getitem_has_column; eauto).
  destruct col; simpl; try (apply columns_setitem, H). reflexivity.
Qed.

Lemma getitem_written_back_other (df : DataFrame) (h k : pystr)
    (col : Series) :
  getitem df h = Some col -> h <> k ->
  getitem (written_back df h col) k = getitem df k.
Proof.
  intros G Hn.
  assert (H : has_column df h = true) by (apply getitem_has_column; eauto).
  destruct col; simpl; try (apply getitem_setitem_other; assumption).
  reflexivity.
Qed.

Lemma columns_without_days_written_back (df : DataFrame) (h : pystr)
    (col : Series) :
  getitem df h = Some col ->
  columns (without_days (written_back df h col)) = columns (without_days df).
Proof.
  intros G. unfold without_days.
  rewrite !columns_drop_column, (columns_written_back _ _ G). reflexivity.
Qed.

Lemma add_days_column_frame (df : DataFrame)
    (dt_col ia : option pystr) :
  let r := ExcelCleanerApp.add_days_column df dt_col ia in
  let out := StreamlitExcelCleanerApp.add_days_column df dt_col ia in
  ExcelCleanerApp2Like.add_days_column df dt_col ia = r /\
  columns (fst r) = columns df /\
  columns (without_days (snd r)) = columns (without_days df) /\
  without_days out = without_days df /\
  (forall k, k <> DAYS -> dt_col <> Some k ->
     getitem (fst r) k = getitem df k /\ getitem (snd r) k = getitem df k).
Proof.
  intros r out. subst r out. split; [reflexivity|].
  destruct dt_col as [h|]; [|repeat apply conj; try reflexivity;
                              intros; split; reflexivity].
  rewrite add_days_column_eq, add_days_column_streamlit_eq.
  destruct (getitem df h) as [col|] eqn:G;
    [|repeat apply conj; try reflexivity; intros; split; reflexivity].
  cbv zeta.
  assert (B : has_column (without_days (written_back df h col)) DAYS = false)
    by apply has_column_without_days.
  assert (B' : has_column (without_days df) DAYS = false)
    by apply has_column_without_days.
  destruct (days_of (datetime_of col)) as [days|]; cbn [fst snd].
  - split; [apply columns_written_back, G|].
    split; [rewrite without_days_splice by exact B;
            apply columns_without_days_written_back, G|].
    split; [apply without_days_splice, B'|].
    intros k Hk Hd.
    assert (Hn : h <> k) by congruence.
    split; [apply getitem_written_back_other; assumption|].
    rewrite (getitem_splice_other _ _ _ Hk). unfold without_days.
    rewrite (getitem_drop_other _ Hk).
    apply getitem_written_back_other; assumption.
  - split; [apply columns_written_back, G|].
    split; [apply columns_without_days_written_back, G|].
    split; [reflexivity|].
    intros k Hk Hd.
    assert (Hn : h <> k) by congruence.
    split; apply getitem_written_back_other; assumption.
Qed.

(** X9.  Whatever its arguments, [add_days_column] neither drops, renames
    nor reorders a column other than [Days]: in excel_cleaner_app.py (and
    excel_cleaner_app_2_like.py, which has the same function) the frame of
    the caller keeps its labels and the returned frame has, apart from
    [Days], the labels of the input in their order; in
    streamlit_excel_cleaner_app.py the returned frame is, apart from
    [Days], the input.  Every column other than [Days] and the datetime
    column keeps its values. *)
Theorem add_days_column_keeps_other_columns (df : DataFrame)
    (dt_col ia : option pystr) :
  distinct_labels df ->
  let r := ExcelCleanerApp.add_days_column df dt_col ia in
  let out := StreamlitExcelCleanerApp.add_days_column df dt_col ia in
  ExcelCleanerApp2Like.add_days_column df dt_col ia = r /\
  columns (fst r) = columns df /\
  columns (without_days (snd r)) = columns (without_days df) /\
  without_days out = without_days df /\
  (forall k, k <> DAYS -> dt_col <> Some k ->
     getitem (fst r) k = getitem df k /\ getitem (snd r) k = getitem df k).
Proof. intros _. apply add_days_column_frame. Qed.

Lemma first_valid_none_days_of (dt : list (option Z)) :
  isna_all dt = true -> days_of dt = None.
Proof.
  intros H. apply isna_all_first_valid in H. unfold days_of. rewrite H.
  reflexivity.
Qed.

(** X10.  When the datetime column is in the frame and holds no timestamp
    (after coercion, when it has not the timestamp dtype), no [Days] column
    is made.  streamlit_excel_cleaner_app.py returns the frame as it is.
    excel_cleaner_app.py and excel_cleaner_app_2_like.py return the frame
    of the caller, in which the datetime column now holds the (all
    missing) coerced timestamps; only a column that had the timestamp
    dtype already is left as it was. *)
Theorem add_days_column_all_missing (df : DataFrame) (h : pystr)
    (ia : option pystr) (col : Series) :
  distinct_labels df ->
  getitem df h = Some col ->
  isna_all (datetime_of col) = true ->
  let r := ExcelCleanerApp.add_days_column df (Some h) ia in
  StreamlitExcelCleanerApp.add_days_column df (Some h) ia = df /\
  ExcelCleanerApp2Like.add_days_column df (Some h) ia = r /\
  snd r = fst r /\
  has_column (fst r) DAYS = has_column df DAYS /\
  getitem (fst r) h = Some (SDatetime (datetime_of col)) /\
  (is_datetime64_any_dtype col = true -> fst r = df).
Proof.
  intros _ G Hall r. subst r.
  apply first_valid_none_days_of in Hall.
  split; [rewrite add_days_column_streamlit_eq, G, Hall; reflexivity|].
  split; [reflexivity|].
  rewrite add_days_column_eq, G. cbv zeta. rewrite Hall. cbn [fst snd].
  split; [reflexivity|].
  split; [apply has_column_written_back, G|].
  split; [apply getitem_written_back, G|].
  destruct col; simpl; [discriminate | reflexivity | discriminate].
Qed.

Lemma days_since_length (baseline : Z) (dt : list (option Z)) :
  length (days_since baseline dt) = length dt.
Proof. apply length_map. Qed.

Lemma days_since_nth (baseline : Z) (dt : list (option Z)) (i : nat) :
  nth_error (days_since baseline dt) i
  = option_map (option_map (fun t => Qmake (t - baseline) NS_PER_DAY))
               (nth_error dt i).
Proof. apply nth_error_map. Qed.

Lemma normalize_ts_bounds (t : Z) :
  (normalize_ts t <= t < normalize_ts t + Zpos NS_PER_DAY)%Z /\
  (normalize_ts t mod Zpos NS_PER_DAY = 0)%Z.
Proof.
  unfold normalize_ts.
  pose proof (Z.mod_pos_bound t (Zpos NS_PER_DAY) eq_refl) as B.
  split; [lia|].
  rewrite Zminus_mod, Zmod_mod, Z.sub_diag. reflexivity.
Qed.

(** X11.  When the datetime column holds a timestamp, the three scripts
    give the same [Days] column.  It has a value for each row: missing
    where the timestamp is missing, and otherwise the time elapsed since
    the baseline, in days.  The baseline is the midnight at or before the
    first timestamp of the column, less than a day before it; rows dated
    before the baseline get negative values. *)
Theorem add_days_column_days_values (df : DataFrame) (h : pystr)
    (ia : option pystr) (col : Series) (t0 : Z) :
  distinct_labels df ->
  getitem df h = Some col ->
  first_valid (datetime_of col) = Some t0 ->
  let dt := datetime_of col in
  let baseline := normalize_ts t0 in
  let day := Zpos NS_PER_DAY in
  exists days,
    getitem (snd (ExcelCleanerApp.add_days_column df (Some h) ia)) DAYS
    = Some (SNumeric days) /\
    getitem (snd (ExcelCleanerApp2Like.add_days_column df (Some h) ia)) DAYS
    = Some (SNumeric days) /\
    getitem (StreamlitExcelCleanerApp.add_days_column df (Some h) ia) DAYS
    = Some (SNumeric days) /\
    length days = length dt /\
    (forall i, nth_error dt i = Some None -> nth_error days i = Some None) /\
    (forall i t, nth_error dt i = Some (Some t) ->
       exists q, nth_error days i = Some (Some q) /\
                 (q * inject_Z day == inject_Z (t - baseline))%Q /\
                 ((0 <= q)%Q <-> (baseline <= t)%Z)) /\
    (baseline <= t0 < baseline + day)%Z /\
    (baseline mod day = 0)%Z.
Proof.
  intros _ G F dt baseline day.
  exists (days_since baseline dt).
  assert (Hd : days_of (datetime_of col) = Some (days_since baseline dt))
    by (unfold days_of; rewrite F; reflexivity).
  assert (A : getitem (snd (ExcelCleanerApp.add_days_column df (Some h) ia))
                DAYS = Some (SNumeric (days_since baseline dt))).
  { rewrite add_days_column_eq, G. cbv zeta. rewrite Hd. cbn [snd].
    apply getitem_splice_days, has_column_without_days. }
  split; [exact A|]. split; [exact A|].
  split; [rewrite add_days_column_streamlit_eq, G, Hd;
          apply getitem_splice_days, has_column_without_days|].
  split; [apply days_since_length|].
  split; [intros i Hi; rewrite days_since_nth, Hi; reflexivity|].
  split; [|apply normalize_ts_bounds].
  intros i t Hi. exists (Qmake (t - baseline) NS_PER_DAY).
  split; [rewrite days_since_nth, Hi; reflexivity|].
  split.
  - unfold Qeq, Qmult, inject_Z, day. cbn [Qnum Qden].
    rewrite Pos.mul_1_r. ring.
  - unfold Qle. cbn [Qnum Qden]. lia.
Qed.

End DaysProperties.

Lemma no_dates_distinct : distinct_labels Sheets.no_dates.
Proof. labels_distinct. Qed.

(** On [Sheets.raw_dates] the text column [A] leaves the function as it
    went in. *)
Lemma add_days_column_keeps_other_columns_witness :
  getitem (snd (@ExcelCleanerApp.add_days_column Plain.runtime
                  Sheets.raw_dates (Some (py "Date")) None))
          (py "A")
  = Some (SObject [VStr (py "x"); VStr (py "y")]).
Proof.
  destruct (@add_days_column_keeps_other_columns Plain.runtime
              Sheets.raw_dates (Some (py "Date")) None raw_dates_distinct)
    as (_ & _ & _ & _ & H).
  destruct (H (py "A")) as [_ E]; [discriminate | discriminate | exact E].
Defined.

(** On [Sheets.no_dates], whose datetime column holds a text and an empty
    cell, excel_cleaner_app.py leaves two missing timestamps in the column;
    streamlit_excel_cleaner_app.py returns the sheet as it is. *)
Lemma add_days_column_all_missing_witness :
  @StreamlitExcelCleanerApp.add_days_column Plain.runtime Sheets.no_dates
    (Some (py "Date")) (Some (py "Date")) = Sheets.no_dates /\
  getitem (fst (@ExcelCleanerApp.add_days_column Plain.runtime
                  Sheets.no_dates (Some (py "Date")) (Some (py "Date"))))
          (py "Date")
  = Some (SDatetime [None; None]).
Proof.
  destruct (@add_days_column_all_missing Plain.runtime Sheets.no_dates
              (py "Date") (Some (py "Date")) _
              no_dates_distinct eq_refl eq_refl)
    as (A & _ & _ & _ & B & _).
  split; [exact A | exact B].
Defined.

(** On [Sheets.typed_dates] the baseline is the first timestamp, which is
    a midnight, and the row dated a day and a half later has 3/2. *)
Lemma add_days_column_days_values_witness :
  exists days,
    getitem (@StreamlitExcelCleanerApp.add_days_column Plain.runtime
               Sheets.typed_dates (Some (py "Date")) None) DAYS
    = Some (SNumeric days) /\
    exists q, nth_error days 1 = Some (Some q) /\
              (q * inject_Z Sheets.DAY
               == inject_Z (Sheets.DAY + Sheets.DAY / 2))%Q.
Proof.
  destruct (@add_days_column_days_values Plain.runtime Sheets.typed_dates
              (py "Date") None _ 0%Z typed_dates_distinct eq_refl eq_refl)
    as (days & _ & _ & A & _ & _ & B & _).
  exists days. split; [exact A|].
  destruct (B 1 (Sheets.DAY + Sheets.DAY / 2)%Z eq_refl) as (q & Hq & E & _).
  exists q. split; [exact Hq | exact E].
Defined.

(* ================================================================== *)
(** * Further properties of the final sort                             *)
(* ================================================================== *)

Section SortProperties.
Context {R : Runtime}.

Lemma take_seq_from {A} (pre l : list A) :
  take (seq (length pre) (length l)) (pre ++ l) = l.
Proof.
  revert pre; induction l as [|x l IH]; intros pre; [reflexivity|].
  unfold take in *. cbn [length seq flat_map].
  rewrite nth_error_app2, Nat.sub_diag by lia. cbn [nth_error app].
  f_equal.
  specialize (IH (pre ++ [x])).
  rewrite length_app, Nat.add_1_r, <- app_assoc in IH. exact IH.
Qed.

Lemma take_seq {A} (l : list A) : take (seq 0 (length l)) l = l.
Proof. apply (take_seq_from [] l). Qed.

Lemma take_perm {A} (indexer : list nat) (l : list A) :
  Permutation indexer (seq 0 (length l)) -> Permutation (take indexer l) l.
Proof.
  intros H. rewrite <- (take_seq l) at 2. unfold take.
  apply Permutation_flat_map, H.
Qed.

Lemma take_series_same_cells (indexer : list nat) (s : Series) :
  Permutation indexer (seq 0 (slen s)) ->
  same_cells (take_series indexer s) s /\
  slen (take_series indexer s) = slen s.
Proof.
  intros H.
  destruct s as [l|l|l]; cbn [take_series same_cells slen] in *;
    (split; [apply take_perm, H
            | apply Permutation_length, take_perm, H]).
Qed.

Lemma same_cells_refl (s : Series) : same_cells s s.
Proof. destruct s; simpl; reflexivity. Qed.

Lemma getitem_row_count (df : DataFrame) (h : pystr) (col : Series)
    (n : nat) :
  row_count df n -> getitem df h = Some col -> slen col = n.
Proof.
  intros H G. apply getitem_in in G.
  unfold row_count in H. rewrite Forall_forall in H.
  apply (H _ G).
Qed.

Lemma take_rows_keeps_cells (indexer : list nat) (df : DataFrame) (n : nat) :
  Permutation indexer (seq 0 n) ->
  row_count df n ->
  columns (take_rows indexer df) = columns df /\
  row_count (take_rows indexer df) n /\
  Forall2 (fun a b => same_cells (snd a) (snd b)) (take_rows indexer df) df.
Proof.
  intros P Hn. unfold take_rows.
  induction df as [|[c s] df IH].
  - repeat split; constructor.
  - apply Forall_cons_iff in Hn. destruct Hn as [Hs Hdf]. cbn [snd] in Hs.
    destruct (IH Hdf) as (A & B & C).
    rewrite <- Hs in P.
    destruct (@take_series_same_cells indexer s P) as [S1 S2].
    cbn [map fst snd]. split; [|split].
    + unfold columns in *. cbn [map fst]. f_equal. exact A.
    + constructor; [cbn [snd]; rewrite S2; exact Hs | exact B].
    + constructor; [exact S1 | exact C].
Qed.

Lemma frame_same_cells_refl (df : DataFrame) :
  Forall2 (fun a b => same_cells (snd a) (snd b)) df df.
Proof.
  induction df as [|a df IH]; constructor; [apply same_cells_refl | exact IH].
Qed.

Lemma sort_by_datetime_frame (clean_df : DataFrame) (dt_col : option pystr)
    (n : nat) :
  argsort_contract R ->
  row_count clean_df n ->
  (forall h, dt_col = Some h -> has_column clean_df h = true) ->
  exists out,
    sort_by_datetime clean_df dt_col = Ok out /\
    columns out = columns clean_df /\
    row_count out n /\
    Forall2 (fun a b => same_cells (snd a) (snd b)) out clean_df.
Proof.
  intros contract Hn Hin.
  assert (Same : columns clean_df = columns clean_df /\
                 row_count clean_df n /\
                 Forall2 (fun a b => same_cells (snd a) (snd b))
                         clean_df clean_df).
  { split; [reflexivity|]. split; [exact Hn | apply frame_same_cells_refl]. }
  unfold sort_by_datetime.
  destruct dt_col as [h|]; [|exists clean_df; split; [reflexivity | exact Same]].
  destruct (truthy (Some h));
    [|exists clean_df; split; [reflexivity | exact Same]].
  destruct (getitem clean_df h) as [col|] eqn:G.
  2:{ apply getitem_none in G. rewrite (Hin h eq_refl) in G. discriminate. }
  destruct col as [l|keys|l];
    try (exists clean_df; split; [reflexivity | exact Same]).
  exists (sort_values clean_df keys). split; [reflexivity|].
  assert (Hk : length keys = n) by apply (getitem_row_count _ Hn G).
  pose proof (nargsort_perm contract keys) as P. rewrite Hk in P.
  apply (take_rows_keeps_cells P Hn).
Qed.

(** X12.  The last stage of the script loses nothing.  On a frame whose
    columns all have [n] rows, and for a datetime column that is in the
    frame (or none at all), it returns a frame with the same labels in the
    same order, in which every column has the dtype it had and holds the
    cells it held, each as often as before, in [n] rows.  Of the sort only
    the contract of an argsort is assumed. *)
Theorem sort_by_datetime_keeps_cells (clean_df : DataFrame)
    (dt_col : option pystr) (n : nat) :
  argsort_contract R ->
  distinct_labels clean_df ->
  row_count clean_df n ->
  (forall h, dt_col = Some h -> has_column clean_df h = true) ->
  exists out,
    sort_by_datetime clean_df dt_col = Ok out /\
    columns out = columns clean_df /\
    row_count out n /\
    Forall2 (fun a b => same_cells (snd a) (snd b)) out clean_df.
Proof. intros C _. apply sort_by_datetime_frame, C. Qed.

End SortProperties.

(** On [Sheets.unsorted] the sorted frame has the labels of the sheet. *)
Lemma sort_by_datetime_keeps_cells_witness :
  exists out,
    @sort_by_datetime Plain.runtime Sheets.unsorted (Some (py "Date")) = Ok out /\
    columns out = [LStr (py "Date"); LStr (py "Tag")].
Proof.
  destruct (@sort_by_datetime_keeps_cells Plain.runtime Sheets.unsorted
              (Some (py "Date")) 3 plain_argsort_contract unsorted_distinct)
    as (out & A & B & _).
  - repeat constructor.
  - intros h [= <-]. reflexivity.
  - exists out. split; [exact A | exact B].
Defined.

(* ================================================================== *)
(** * The cleaning script as a whole                                   *)
(* ================================================================== *)

Section ScriptProperties.
Context {R : Runtime}.

Lemma set_columns_normalized (raw_df : DataFrame) :
  set_columns raw_df (ExcelCleanerApp.normalize_headers (columns raw_df))
  = Ok (with_normalized_headers raw_df).
Proof.
  unfold set_columns.
  assert (L : length (ExcelCleanerApp.normalize_headers (columns raw_df))
              = length raw_df).
  { rewrite normalize_headers_map. unfold columns. rewrite !length_map.
    reflexivity. }
  rewrite L, Nat.eqb_refl. reflexivity.
Qed.

Lemma columns_with_normalized_headers (raw_df : DataFrame) :
  columns (with_normalized_headers raw_df)
  = map LStr (ExcelCleanerApp.normalize_headers (columns raw_df)).
Proof.
  unfold with_normalized_headers. rewrite normalize_headers_map.
  unfold columns.
  induction raw_df as [|[c s] df IH]; [reflexivity|].
  cbn [map combine fst snd]. f_equal. exact IH.
Qed.

Lemma snd_with_normalized_headers (raw_df : DataFrame) :
  map snd (with_normalized_headers raw_df) = map snd raw_df.
Proof.
  unfold with_normalized_headers. rewrite normalize_headers_map.
  unfold columns.
  induction raw_df as [|[c s] df IH]; [reflexivity|].
  cbn [map combine fst snd]. f_equal. exact IH.
Qed.

(** The scripts as a chain of their stages, on the sheet with its
    normalised headers. *)
Lemma excel_cleaner_app_eq (raw_df : DataFrame) (pattern : pystr)
    (keep : bool) :
  CleaningScript.excel_cleaner_app raw_df pattern keep
  = let df := with_normalized_headers raw_df in
    perform dt_col <- ExcelCleanerApp.find_datetime_col df ;;
    perform cols <- ExcelCleanerApp.detect_sensor_columns df pattern ;;
    perform df1 <- datetime_stage df dt_col ;;
    perform df3 <-
      returned (ExcelCleanerApp.coerce_numeric (blank_stage keep df1) cols) ;;
    sort_by_datetime
      (snd (ExcelCleanerApp.add_days_column df3 dt_col dt_col)) dt_col.
Proof.
  unfold CleaningScript.excel_cleaner_app.
  rewrite set_columns_normalized. reflexivity.
Qed.

Lemma excel_cleaner_app_2_like_eq (raw_df : DataFrame) (pattern : pystr)
    (keep : bool) :
  CleaningScript.excel_cleaner_app_2_like raw_df pattern keep
  = CleaningScript.excel_cleaner_app raw_df pattern keep.
Proof. reflexivity. Qed.

Lemma streamlit_excel_cleaner_app_eq (raw_df : DataFrame) (pattern : pystr)
    (keep : bool) :
  CleaningScript.streamlit_excel_cleaner_app raw_df pattern keep
  = let df := with_normalized_headers raw_df in
    perform dt_col <- ExcelCleanerApp.find_datetime_col df ;;
    perform cols <- ExcelCleanerApp.detect_sensor_columns df pattern ;;
    perform df1 <- datetime_stage df dt_col ;;
    perform df3 <-
      returned (ExcelCleanerApp.coerce_numeric (blank_stage keep df1) cols) ;;
    sort_by_datetime
      (StreamlitExcelCleanerApp.add_days_column df3 dt_col dt_col) dt_col.
Proof.
  unfold CleaningScript.streamlit_excel_cleaner_app.
  rewrite normalize_headers_streamlit, set_columns_normalized.
  cbn [bind]. cbv zeta.
  rewrite find_datetime_col_streamlit, detect_sensor_columns_streamlit.
  reflexivity.
Qed.

(** A run of the stages that returns a frame went through each of them. *)
Lemma stages_ok (add : DataFrame -> option pystr -> DataFrame)
    (df : DataFrame) (pattern : pystr) (keep : bool) (out : DataFrame) :
  (perform dt_col <- ExcelCleanerApp.find_datetime_col df ;;
   perform cols <- ExcelCleanerApp.detect_sensor_columns df pattern ;;
   perform df1 <- datetime_stage df dt_col ;;
   perform df3 <-
     returned (ExcelCleanerApp.coerce_numeric (blank_stage keep df1) cols) ;;
   sort_by_datetime (add df3 dt_col) dt_col) = Ok out ->
  exists dt_col cols df1 df3,
    ExcelCleanerApp.find_datetime_col df = Ok dt_col /\
    ExcelCleanerApp.detect_sensor_columns df pattern = Ok cols /\
    datetime_stage df dt_col = Ok df1 /\
    ExcelCleanerApp.coerce_numeric (blank_stage keep df1) cols = (df3, None) /\
    sort_by_datetime (add df3 dt_col) dt_col = Ok out.
Proof.
  destruct (ExcelCleanerApp.find_datetime_col df) as [dt_col|e];
    cbn [bind]; [|discriminate].
  destruct (ExcelCleanerApp.detect_sensor_columns df pattern) as [cols|e];
    cbn [bind]; [|discriminate].
  destruct (datetime_stage df dt_col) as [df1|e] eqn:D;
    cbn [bind]; [|discriminate].
  destruct (ExcelCleanerApp.coerce_numeric (blank_stage keep df1) cols)
    as [df3 [e|]] eqn:N; cbn [returned bind]; [discriminate|].
  intros H.
  exists dt_col, cols, df1, df3. repeat split; assumption.
Qed.


Lemma datetime_stage_frame (df : DataFrame) (dt_col : option pystr)
    (df1 : DataFrame) :
  datetime_stage df dt_col = Ok df1 ->
  columns df1 = columns df /\
  (forall k, dt_col <> Some k -> getitem df1 k = getitem df k) /\
  (forall h, dt_col = Some h ->
     exists col, getitem df h = Some col /\
       getitem df1 h = Some (SDatetime (ExcelCleanerApp.coerce_datetime col))).
Proof.
  unfold datetime_stage. destruct dt_col as [h|].
  - destruct (getitem df h) as [col|] eqn:G; [|discriminate].
    intros [= <-].
    assert (H : has_column df h = true) by (apply getitem_has_column; eauto).
    split; [apply columns_setitem, H|]. split.
    + intros k Hk. apply getitem_setitem_other; [exact H | congruence].
    + intros h' [= <-]. exists col. split; [exact G|].
      apply getitem_setitem_same, H.
  - intros [= <-]. split; [reflexivity|]. split; [reflexivity|].
    discriminate.
Qed.

Lemma columns_take_rows (indexer : list nat) (df : DataFrame) :
  columns (take_rows indexer df) = columns df.
Proof.
  unfold columns, take_rows. rewrite map_map. reflexivity.
Qed.

Lemma getitem_take_rows (indexer : list nat) (df : DataFrame) (h : pystr) :
  getitem (take_rows indexer df) h
  = option_map (take_series indexer) (getitem df h).
Proof.
  unfold take_rows.
  induction df as [|[c s] df IH]; [reflexivity|]. cbn [map getitem fst snd].
  destruct (label_eqb c (LStr h)); [reflexivity | exact IH].
Qed.

Lemma columns_blank_stage (keep : bool) (df : DataFrame) :
  columns (blank_stage keep df) = columns df.
Proof. destruct keep; [reflexivity | apply columns_take_rows]. Qed.

Lemma sort_by_datetime_columns (df : DataFrame) (dt_col : option pystr)
    (out : DataFrame) :
  sort_by_datetime df dt_col = Ok out -> columns out = columns df.
Proof.
  unfold sort_by_datetime. destruct dt_col as [h|]; [|intros [= <-]; reflexivity].
  destruct (truthy (Some h)); [|intros [= <-]; reflexivity].
  destruct (getitem df h) as [[l|keys|l]|]; try discriminate;
    intros [= <-]; try reflexivity.
  apply (columns_take_rows (nargsort keys) df).
Qed.

Lemma columns_without_days (df df' : DataFrame) :
  columns df = columns df' ->
  columns (without_days df) = columns (without_days df').
Proof.
  intros H. unfold without_days. rewrite !columns_drop_column, H.
  reflexivity.
Qed.

Lemma stages_labels (add : DataFrame -> option pystr -> DataFrame)
    (df : DataFrame) (pattern : pystr) (keep : bool) (out : DataFrame) :
  (forall d x, columns (without_days (add d x)) = columns (without_days d)) ->
  (perform dt_col <- ExcelCleanerApp.find_datetime_col df ;;
   perform cols <- ExcelCleanerApp.detect_sensor_columns df pattern ;;
   perform df1 <- datetime_stage df dt_col ;;
   perform df3 <-
     returned (ExcelCleanerApp.coerce_numeric (blank_stage keep df1) cols) ;;
   sort_by_datetime (add df3 dt_col) dt_col) = Ok out ->
  columns (without_days out) = columns (without_days df).
Proof.
  intros Hadd H.
  apply stages_ok in H. destruct H as (dt_col & cols & df1 & df3 & _ & _ & D & N & S).
  apply sort_by_datetime_columns in S.
  rewrite (columns_without_days _ _ S), Hadd.
  apply columns_without_days.
  destruct (coerce_numeric_keeps (blank_stage keep df1) cols) as [C _].
  rewrite N in C. cbn [fst] in C. rewrite C, columns_blank_stage.
  apply (datetime_stage_frame _ _ D).
Qed.

(** X13.  When a script returns a cleaned frame, the labels of that frame
    other than [Days] are the normalised headers of the sheet other than
    [Days], in the order of the sheet: no stage of the cleaning drops,
    renames or moves any other column. *)
Theorem cleaning_script_labels (raw_df : DataFrame) (pattern : pystr)
    (keep_blank_rows : bool) (out : DataFrame) :
  distinct_labels (with_normalized_headers raw_df) ->
  CleaningScript.excel_cleaner_app raw_df pattern keep_blank_rows = Ok out \/
  CleaningScript.excel_cleaner_app_2_like raw_df pattern keep_blank_rows
  = Ok out \/
  CleaningScript.streamlit_excel_cleaner_app raw_df pattern keep_blank_rows
  = Ok out ->
  columns (without_days out)
  = filter (fun c => negb (label_eqb c (LStr DAYS)))
      (map LStr (ExcelCleanerApp.normalize_headers (columns raw_df))).
Proof.
  intros _ H.
  rewrite <- columns_with_normalized_headers.
  rewrite <- columns_drop_column.
  fold (without_days (with_normalized_headers raw_df)).
  assert (H' : CleaningScript.excel_cleaner_app raw_df pattern keep_blank_rows
               = Ok out \/
               CleaningScript.streamlit_excel_cleaner_app raw_df pattern
                 keep_blank_rows = Ok out)
    by (destruct H as [H | [H | H]]; [left | left | right]; exact H).
  clear H. destruct H' as [H | H].
  - rewrite excel_cleaner_app_eq in H. cbv zeta in H.
    apply (stages_labels
             (fun d x => snd (ExcelCleanerApp.add_days_column d x x))
             _ _ _ ) in H; [exact H|].
    intros d x. apply add_days_column_frame.
  - rewrite streamlit_excel_cleaner_app_eq in H. cbv zeta in H.
    apply (stages_labels
             (fun d x => StreamlitExcelCleanerApp.add_days_column d x x)
             _ _ _ ) in H; [exact H|].
    intros d x.
    destruct (add_days_column_frame d x x) as (_ & _ & _ & E & _).
    cbv zeta in E. rewrite E. reflexivity.
Qed.


Lemma index_after_target_self (base : DataFrame) (h : pystr) :
  index_after_target base h (Some h) = index_after base h.
Proof.
  unfold index_after_target, index_after.
  destruct (has_column base h); [|rewrite andb_false_r; reflexivity].
  destruct (truthy (Some h)); reflexivity.
Qed.

(** On a datetime column that has the timestamp dtype, and with the
    datetime column as target, the two versions of [add_days_column]
    return the same frame. *)
Lemma add_days_column_typed (df : DataFrame) (h : pystr)
    (keys : list (option Z)) :
  getitem df h = Some (SDatetime keys) ->
  StreamlitExcelCleanerApp.add_days_column df (Some h) (Some h)
  = snd (ExcelCleanerApp.add_days_column df (Some h) (Some h)).
Proof.
  intros G. rewrite add_days_column_eq, add_days_column_streamlit_eq, G.
  cbv zeta. cbn [written_back].
  destruct (days_of (datetime_of (SDatetime keys))); [|reflexivity].
  cbn [snd]. rewrite index_after_target_self. reflexivity.
Qed.

(** The datetime column still has the timestamp dtype after the blank rows
    are dropped and the sensor columns converted, unless it is itself a
    sensor column. *)
Lemma datetime_column_typed (df df1 df3 : DataFrame) (h : pystr)
    (keep : bool) (cols : list pystr) (e : option exn) :
  datetime_stage df (Some h) = Ok df1 ->
  ExcelCleanerApp.coerce_numeric (blank_stage keep df1) cols = (df3, e) ->
  ~ In h cols ->
  exists keys, getitem df3 h = Some (SDatetime keys).
Proof.
  intros D N Hh.
  destruct (datetime_stage_frame _ _ D) as (_ & _ & T).
  destruct (T h eq_refl) as (col & _ & G1).
  destruct (coerce_numeric_keeps (blank_stage keep df1) cols) as [_ K].
  rewrite N in K. cbn [fst] in K. rewrite (K h Hh).
  destruct keep; cbn [blank_stage].
  - eexists. exact G1.
  - unfold dropna_all. rewrite getitem_take_rows, G1. eexists. reflexivity.
Qed.

Lemma streamlit_script_agrees (raw_df : DataFrame) (pattern : pystr)
    (keep : bool) :
  let df := with_normalized_headers raw_df in
  (forall h cols,
     ExcelCleanerApp.find_datetime_col df = Ok (Some h) ->
     ExcelCleanerApp.detect_sensor_columns df pattern = Ok cols ->
     ~ In h cols) ->
  CleaningScript.streamlit_excel_cleaner_app raw_df pattern keep
  = CleaningScript.excel_cleaner_app raw_df pattern keep.
Proof.
  intros df Hs.
  rewrite streamlit_excel_cleaner_app_eq, excel_cleaner_app_eq. cbv zeta.
  fold df.
  destruct (ExcelCleanerApp.find_datetime_col df) as [[h|]|e] eqn:F;
    cbn [bind]; [| |reflexivity].
  - destruct (ExcelCleanerApp.detect_sensor_columns df pattern)
      as [cols|e] eqn:Dt; cbn [bind]; [|reflexivity].
    destruct (datetime_stage df (Some h)) as [df1|e] eqn:D;
      cbn [bind]; [|reflexivity].
    destruct (ExcelCleanerApp.coerce_numeric (blank_stage keep df1) cols)
      as [df3 [e|]] eqn:N; cbn [returned bind]; [reflexivity|].
    destruct (@datetime_column_typed _ _ _ _ _ _ _ D N
                (Hs h cols eq_refl eq_refl)) as [keys G].
    rewrite (@add_days_column_typed _ _ _ G). reflexivity.
  - destruct (ExcelCleanerApp.detect_sensor_columns df pattern)
      as [cols|e]; cbn [bind]; [|reflexivity].
    destruct (datetime_stage df None) as [df1|e]; cbn [bind]; [|reflexivity].
    destruct (ExcelCleanerApp.coerce_numeric (blank_stage keep df1) cols)
      as [df3 [e|]]; reflexivity.
Qed.

(** X14.  The three scripts clean a sheet in the same way: for every
    sheet, pattern and choice about blank rows they return the same frame
    or raise the same exception, provided the detected datetime column is
    not also detected as a sensor column.  (The scripts differ in
    [add_days_column] only, and the script calls it with the datetime
    column as target, on a column that already has the timestamp
    dtype.) *)
Theorem cleaning_scripts_agree (raw_df : DataFrame) (pattern : pystr)
    (keep_blank_rows : bool) :
  let df := with_normalized_headers raw_df in
  distinct_labels df ->
  (forall h cols,
     ExcelCleanerApp.find_datetime_col df = Ok (Some h) ->
     ExcelCleanerApp.detect_sensor_columns df pattern = Ok cols ->
     ~ In h cols) ->
  CleaningScript.excel_cleaner_app_2_like raw_df pattern keep_blank_rows
  = CleaningScript.excel_cleaner_app raw_df pattern keep_blank_rows /\
  CleaningScript.streamlit_excel_cleaner_app raw_df pattern keep_blank_rows
  = CleaningScript.excel_cleaner_app raw_df pattern keep_blank_rows.
Proof.
  intros df _ Hs. split; [reflexivity|].
  apply streamlit_script_agrees, Hs.
Qed.


Lemma take_app {A} (a b : list nat) (l : list A) :
  take (a ++ b) l = take a l ++ take b l.
Proof. apply flat_map_app. Qed.

Lemma take_nth {A} (d : A) (indexer : list nat) (l : list A) :
  Forall (fun i => i < length l) indexer ->
  take indexer l = map (fun i => nth i l d) indexer.
Proof.
  unfold take. induction indexer as [|i ix IH]; intros H; [reflexivity|].
  apply Forall_cons_iff in H. destruct H as [Hi Hix].
  cbn [flat_map map]. rewrite (IH Hix).
  destruct (nth_error l i) as [x|] eqn:E.
  - rewrite (nth_error_nth _ _ d E). reflexivity.
  - apply nth_error_None in E. lia.
Qed.

Lemma map_missing (keys : list (option Z)) :
  map (fun i => nth i keys None) (missing_positions keys)
  = repeat None (length (missing_positions keys)).
Proof.
  pose proof (missing_positions_missing keys) as H.
  induction H as [|i l Hi Hl IH]; [reflexivity|].
  cbn [map length repeat]. rewrite Hi, IH. reflexivity.
Qed.

Lemma sort_values_take_rows (df : DataFrame) (keys : list (option Z)) :
  sort_values df keys = take_rows (nargsort keys) df.
Proof. reflexivity. Qed.

Lemma Ok_inj {A} (a b : A) : Ok a = Ok b -> a = b.
Proof. congruence. Qed.

Lemma sort_by_datetime_typed (df : DataFrame) (h : pystr)
    (keys : list (option Z)) :
  h <> [] ->
  getitem df h = Some (SDatetime keys) ->
  sort_by_datetime df (Some h) = Ok (sort_values df keys).
Proof.
  intros Hne G. unfold sort_by_datetime.
  destruct h as [|c h]; [congruence|]. cbn [truthy]. rewrite G. reflexivity.
Qed.

(** The datetime column after the sort: the timestamps in ascending order,
    then the missing ones. *)
Lemma take_nargsort (keys : list (option Z)) :
  argsort_contract R ->
  exists ts,
    take (nargsort keys) keys
    = map Some ts ++ repeat None (length (missing_positions keys)) /\
    Sorted Z.le ts.
Proof.
  intros contract.
  pose proof (nargsort_perm contract keys) as P.
  assert (In_range : Forall (fun i => i < length keys) (nargsort keys)).
  { apply Forall_forall. intros i Hi.
    apply (Permutation_in _ P) in Hi. apply in_seq in Hi. lia. }
  rewrite (take_nth None _ In_range), nargsort_split, map_app, map_missing.
  destruct (nargsort_valid_ascending contract keys) as [Hv Hs].
  eexists. split; [|exact Hs]. rewrite Hv. reflexivity.
Qed.

Lemma add_days_column_keeps_typed (df : DataFrame) (h : pystr)
    (ia : option pystr) (keys : list (option Z)) :
  getitem df h = Some (SDatetime keys) ->
  h <> DAYS ->
  getitem (snd (ExcelCleanerApp.add_days_column df (Some h) ia)) h
  = Some (SDatetime keys) /\
  getitem (StreamlitExcelCleanerApp.add_days_column df (Some h) ia) h
  = Some (SDatetime keys).
Proof.
  intros G Hn.
  rewrite add_days_column_eq, add_days_column_streamlit_eq, G.
  cbv zeta. cbn [written_back].
  destruct (days_of (datetime_of (SDatetime keys))); cbn [snd];
    [|split; exact G].
  rewrite !(getitem_splice_other _ _ _ Hn). unfold without_days.
  rewrite (getitem_drop_other _ Hn). split; exact G.
Qed.

(** X15.  When the scripts detect a datetime column whose name is neither
    empty nor [Days] and which is not also a sensor column, the frame they
    return is sorted by it: the column has the timestamp dtype and holds
    its timestamps in ascending order, followed by the missing ones.  The
    test of the dtype before the sort never fails in the script, since the
    column was coerced at the start of the cleaning. *)
Theorem cleaning_script_sorted (raw_df : DataFrame) (pattern : pystr)
    (keep_blank_rows : bool) (h : pystr) (cols : list pystr)
    (out : DataFrame) :
  let df := with_normalized_headers raw_df in
  argsort_contract R ->
  distinct_labels df ->
  ExcelCleanerApp.find_datetime_col df = Ok (Some h) ->
  ExcelCleanerApp.detect_sensor_columns df pattern = Ok cols ->
  h <> [] -> h <> DAYS -> ~ In h cols ->
  CleaningScript.excel_cleaner_app raw_df pattern keep_blank_rows = Ok out \/
  CleaningScript.excel_cleaner_app_2_like raw_df pattern keep_blank_rows
  = Ok out \/
  CleaningScript.streamlit_excel_cleaner_app raw_df pattern keep_blank_rows
  = Ok out ->
  exists ts m,
    getitem out h = Some (SDatetime (map Some ts ++ repeat None m)) /\
    Sorted Z.le ts.
Proof.
  intros df contract _ F Dt Hne Hnd Hns H.
  assert (H' : CleaningScript.excel_cleaner_app raw_df pattern keep_blank_rows
               = Ok out).
  { destruct H as [H | [H | H]]; [exact H | exact H |].
    rewrite <- H. symmetry. apply streamlit_script_agrees.
    fold df. intros h' cols'. rewrite F, Dt. intros [= <-] [= <-]. exact Hns. }
  clear H. rewrite excel_cleaner_app_eq in H'. cbv zeta in H'. fold df in H'.
  apply (stages_ok
           (fun d x => snd (ExcelCleanerApp.add_days_column d x x))) in H'.
  destruct H' as (dt_col & cols' & df1 & df3 & F' & Dt' & D & N & S).
  rewrite F in F'. injection F' as <-.
  rewrite Dt in Dt'. injection Dt' as <-.
  cbv beta in S.
  destruct (@datetime_column_typed _ _ _ _ _ _ _ D N Hns) as [keys G].
  destruct (@add_days_column_keeps_typed df3 h (Some h) keys G Hnd) as [G' _].
  rewrite (sort_by_datetime_typed _ Hne G') in S.
  apply Ok_inj in S. subst out.
  destruct (take_nargsort keys contract) as (ts & E & Hs).
  exists ts, (length (missing_positions keys)). split; [|exact Hs].
  rewrite sort_values_take_rows, getitem_take_rows, G'.
  cbn [option_map take_series]. rewrite E. reflexivity.
Qed.


Lemma row_count_map_snd (df : DataFrame) (n : nat) :
  row_count df n <-> Forall (fun s => slen s = n) (map snd df).
Proof. unfold row_count. rewrite Forall_map. reflexivity. Qed.

Lemma row_count_with_normalized_headers (raw_df : DataFrame) (n : nat) :
  row_count raw_df n -> row_count (with_normalized_headers raw_df) n.
Proof.
  rewrite !row_count_map_snd, snd_with_normalized_headers. auto.
Qed.

Lemma coerce_datetime_length (series : Series) :
  to_datetime_keeps_length R ->
  length (ExcelCleanerApp.coerce_datetime series) = slen series.
Proof.
  intros HL. rewrite coerce_datetime_unfold.
  destruct (isna_mean_gt_0_5 (text_pass series));
    [destruct (serial_pass series); [rewrite fillna_length|]|];
    apply text_pass_length, HL.
Qed.

Lemma row_count_setitem (df : DataFrame) (h : pystr) (s : Series) (n : nat) :
  row_count df n -> slen s = n -> row_count (setitem df h s) n.
Proof.
  intros H Hs. unfold setitem, row_count in *.
  destruct (has_column df h).
  - apply Forall_map. apply (Forall_impl _ (P := fun cs => slen (snd cs) = n));
      [|exact H].
    intros [c x] Hx. cbn [fst snd] in *.
    destruct (label_eqb c (LStr h)); [exact Hs | exact Hx].
  - apply Forall_app. split; [exact H|]. constructor; [exact Hs | constructor].
Qed.

Lemma take_length {A} (indexer : list nat) (l : list A) :
  Forall (fun i => i < length l) indexer ->
  length (take indexer l) = length indexer.
Proof.
  intros H.
  destruct l as [|d l]; [|rewrite (take_nth d _ H); apply length_map].
  destruct indexer as [|i ix]; [reflexivity|].
  apply Forall_cons_iff in H. destruct H as [Hi _]. inversion Hi.
Qed.

Lemma row_count_take_rows (indexer : list nat) (df : DataFrame) (n : nat) :
  row_count df n ->
  Forall (fun i => i < n) indexer ->
  row_count (take_rows indexer df) (length indexer).
Proof.
  intros H Hi. unfold take_rows, row_count in *. apply Forall_map.
  apply (Forall_impl _ (P := fun cs => slen (snd cs) = n)); [|exact H].
  intros [c s] Hs. cbn [fst snd] in *. subst n.
  destruct s as [l|l|l]; cbn [take_series slen] in *; apply take_length, Hi.
Qed.

Lemma nonblank_rows_bounds (df : DataFrame) (n : nat) :
  row_count df n ->
  Forall (fun i => i < n) (nonblank_rows df) /\
  length (nonblank_rows df) <= n.
Proof.
  intros H. unfold nonblank_rows.
  assert (Hn : nrows df <= n).
  { destruct df as [|[c s] df]; [apply Nat.le_0_l|].
    apply Forall_cons_iff in H. destruct H as [Hs _]. cbn [snd] in Hs.
    cbn [nrows]. lia. }
  split.
  - apply Forall_forall. intros i Hi. apply filter_In in Hi.
    destruct Hi as [Hi _]. apply in_seq in Hi. lia.
  - etransitivity; [apply filter_length_le|]. rewrite length_seq. exact Hn.
Qed.

Lemma row_count_blank_stage (keep : bool) (df : DataFrame) (n : nat) :
  row_count df n ->
  exists m, row_count (blank_stage keep df) m /\ m <= n /\
            (keep = true -> m = n).
Proof.
  intros H. destruct keep; cbn [blank_stage].
  - exists n. split; [exact H|]. split; [apply Nat.le_refl | reflexivity].
  - destruct (nonblank_rows_bounds H) as [B L].
    exists (length (nonblank_rows df)).
    split; [apply (row_count_take_rows H B)|]. split; [exact L | discriminate].
Qed.

Lemma row_count_coerce_numeric (df : DataFrame) (cols : list pystr) (n : nat) :
  to_numeric_keeps_length R ->
  row_count df n ->
  row_count (fst (ExcelCleanerApp.coerce_numeric df cols)) n.
Proof.
  intros HL. revert df; induction cols as [|c cols IH]; intros df H;
    cbn [ExcelCleanerApp.coerce_numeric]; [exact H|].
  destruct (getitem df c) as [col|] eqn:G; [|exact H].
  destruct (to_numeric_coerce col) as [col'|e] eqn:T; [|exact H].
  apply IH, row_count_setitem; [exact H|].
  rewrite (HL _ _ T). apply (getitem_row_count _ H G).
Qed.

Lemma datetime_of_length (col : Series) :
  to_datetime_keeps_length R -> length (datetime_of col) = slen col.
Proof.
  intros HL.
  destruct col; cbn [datetime_of];
    [apply coerce_datetime_length, HL | reflexivity
    | apply coerce_datetime_length, HL].
Qed.

Lemma row_count_written_back (df : DataFrame) (h : pystr) (col : Series)
    (n : nat) :
  to_datetime_keeps_length R ->
  row_count df n -> getitem df h = Some col ->
  row_count (written_back df h col) n.
Proof.
  intros HL H G.
  pose proof (getitem_row_count _ H G) as Hc.
  destruct col; cbn [written_back]; try exact H;
    apply row_count_setitem; try exact H; cbn [slen];
    rewrite (coerce_datetime_length _ HL); exact Hc.
Qed.

Lemma row_count_splice (base : DataFrame) (i : nat)
    (days : list (option Q)) (n : nat) :
  row_count base n -> length days = n ->
  row_count (splice (without_days base) i days) n.
Proof.
  intros H Hd. unfold splice, row_count in *.
  assert (W : Forall (fun cs => slen (snd cs) = n) (without_days base)).
  { unfold without_days, drop_column. apply Forall_forall. intros x Hx.
    apply filter_In in Hx. rewrite Forall_forall in H. apply H, Hx. }
  rewrite <- (firstn_skipn i (without_days base)) in W.
  apply Forall_app in W. destruct W as [W1 W2].
  apply Forall_app. split; [exact W1|].
  apply Forall_app. split; [|exact W2].
  constructor; [exact Hd | constructor].
Qed.

Lemma row_count_add_days_column (df : DataFrame) (dt_col ia : option pystr)
    (n : nat) :
  to_datetime_keeps_length R ->
  row_count df n ->
  row_count (snd (ExcelCleanerApp.add_days_column df dt_col ia)) n /\
  row_count (StreamlitExcelCleanerApp.add_days_column df dt_col ia) n.
Proof.
  intros HL H.
  destruct dt_col as [h|]; [|split; exact H].
  rewrite add_days_column_eq, add_days_column_streamlit_eq.
  destruct (getitem df h) as [col|] eqn:G; [|split; exact H].
  cbv zeta.
  pose proof (row_count_written_back _ HL H G) as W.
  assert (Hd : forall days, days_of (datetime_of col) = Some days ->
                            length days = n).
  { unfold days_of. intros days.
    destruct (first_valid (datetime_of col)); [|discriminate].
    intros [= <-]. rewrite days_since_length, (datetime_of_length _ HL).
    apply (getitem_row_count _ H G). }
  destruct (days_of (datetime_of col)) as [days|]; cbn [snd];
    [|split; assumption].
  split; apply row_count_splice; auto.
Qed.

Lemma row_count_sort_by_datetime (df : DataFrame) (dt_col : option pystr)
    (out : DataFrame) (n : nat) :
  argsort_contract R ->
  row_count df n ->
  sort_by_datetime df dt_col = Ok out ->
  row_count out n.
Proof.
  intros contract H. unfold sort_by_datetime.
  destruct dt_col as [h|]; [|intros [= <-]; exact H].
  destruct (truthy (Some h)); [|intros [= <-]; exact H].
  destruct (getitem df h) as [[l|keys|l]|] eqn:G; try discriminate;
    intros S; apply Ok_inj in S; subst out; try exact H.
  assert (Hk : length keys = n) by apply (getitem_row_count _ H G).
  pose proof (nargsort_perm contract keys) as P. rewrite Hk in P.
  rewrite sort_values_take_rows. apply (take_rows_keeps_cells P H).
Qed.

Lemma stages_rows (add : DataFrame -> option pystr -> DataFrame)
    (df : DataFrame) (pattern : pystr) (keep : bool) (out : DataFrame)
    (n : nat) :
  to_numeric_keeps_length R ->
  to_datetime_keeps_length R ->
  argsort_contract R ->
  (forall d x m, row_count d m -> row_count (add d x) m) ->
  row_count df n ->
  (perform dt_col <- ExcelCleanerApp.find_datetime_col df ;;
   perform cols <- ExcelCleanerApp.detect_sensor_columns df pattern ;;
   perform df1 <- datetime_stage df dt_col ;;
   perform df3 <-
     returned (ExcelCleanerApp.coerce_numeric (blank_stage keep df1) cols) ;;
   sort_by_datetime (add df3 dt_col) dt_col) = Ok out ->
  exists m, row_count out m /\ m <= n /\ (keep = true -> m = n).
Proof.
  intros HN HL contract Hadd H S.
  apply stages_ok in S.
  destruct S as (dt_col & cols & df1 & df3 & _ & _ & D & N & S).
  assert (H1 : row_count df1 n).
  { unfold datetime_stage in D. destruct dt_col as [h|].
    - destruct (getitem df h) as [col|] eqn:G; [|discriminate].
      apply Ok_inj in D. subst df1.
      apply row_count_setitem; [exact H|]. cbn [slen].
      rewrite (coerce_datetime_length _ HL).
      apply (getitem_row_count _ H G).
    - apply Ok_inj in D. subst df1. exact H. }
  destruct (row_count_blank_stage keep H1) as (m & H2 & Hm & Hk).
  exists m. split; [|split; assumption].
  eapply row_count_sort_by_datetime; [exact contract | | exact S].
  apply Hadd.
  pose proof (@row_count_coerce_numeric _ cols _ HN H2) as H3.
  rewrite N in H3. exact H3.
Qed.

(** X16.  A sheet whose columns all have [n] rows is cleaned into a frame
    whose columns all have the same number of rows, at most [n], and
    exactly [n] when blank rows are kept: rows are only ever removed by the
    dropping of blank rows, never by the coercions, the [Days] column or
    the sort.  (The library functions are assumed to return series on the
    index of their argument, and the sort to meet the contract of an
    argsort.) *)
Theorem cleaning_script_rows (raw_df : DataFrame) (pattern : pystr)
    (keep_blank_rows : bool) (out : DataFrame) (n : nat) :
  to_numeric_keeps_length R ->
  to_datetime_keeps_length R ->
  argsort_contract R ->
  distinct_labels (with_normalized_headers raw_df) ->
  row_count raw_df n ->
  CleaningScript.excel_cleaner_app raw_df pattern keep_blank_rows = Ok out \/
  CleaningScript.excel_cleaner_app_2_like raw_df pattern keep_blank_rows
  = Ok out \/
  CleaningScript.streamlit_excel_cleaner_app raw_df pattern keep_blank_rows
  = Ok out ->
  exists m, row_count out m /\ m <= n /\ (keep_blank_rows = true -> m = n).
Proof.
  intros HN HL contract _ Hn H.
  apply row_count_with_normalized_headers in Hn.
  assert (H' : CleaningScript.excel_cleaner_app raw_df pattern keep_blank_rows
               = Ok out \/
               CleaningScript.streamlit_excel_cleaner_app raw_df pattern
                 keep_blank_rows = Ok out)
    by (destruct H as [H | [H | H]]; [left | left | right]; exact H).
  clear H. destruct H' as [H | H].
  - rewrite excel_cleaner_app_eq in H. cbv zeta in H.
    apply (@stages_rows
             (fun d x => snd (ExcelCleanerApp.add_days_column d x x))
             (with_normalized_headers raw_df) pattern keep_blank_rows out n
             HN HL contract); [|exact Hn | exact H].
    intros d x m Hd. apply (@row_count_add_days_column d x x m HL Hd).
  - rewrite streamlit_excel_cleaner_app_eq in H. cbv zeta in H.
    apply (@stages_rows
             (fun d x => StreamlitExcelCleanerApp.add_days_column d x x)
             (with_normalized_headers raw_df) pattern keep_blank_rows out n
             HN HL contract); [|exact Hn | exact H].
    intros d x m Hd. apply (@row_count_add_days_column d x x m HL Hd).
Qed.


Lemma normalized_labels_with_normalized_headers (raw_df : DataFrame) :
  normalized_labels (with_normalized_headers raw_df).
Proof.
  unfold normalized_labels. rewrite columns_with_normalized_headers.
  apply Forall_map.
  apply (Forall_impl _ (P := normalized));
    [|apply normalize_headers_normalized].
  intros s Hs. exists s. split; [reflexivity | exact Hs].
Qed.

Lemma header_has_column (raw_df : DataFrame) (h : pystr) :
  let df := with_normalized_headers raw_df in
  In h (ExcelCleanerApp.normalize_headers (columns df)) ->
  has_column df h = true.
Proof.
  intros df Hh. subst df. apply has_column_in.
  rewrite <- (normalized_labels_headers
                (normalized_labels_with_normalized_headers raw_df)).
  apply in_map, Hh.
Qed.

Lemma has_column_columns (df df' : DataFrame) (h : pystr) :
  columns df = columns df' -> has_column df h = has_column df' h.
Proof. unfold has_column. intros ->. reflexivity. Qed.

Lemma coerce_numeric_no_error (df : DataFrame) (cols : list pystr) :
  (forall s, exists s', to_numeric_coerce s = Ok s') ->
  (forall c, In c cols -> has_column df c = true) ->
  snd (ExcelCleanerApp.coerce_numeric df cols) = None.
Proof.
  intros HN. revert df; induction cols as [|c cols IH]; intros df Hc;
    cbn [ExcelCleanerApp.coerce_numeric]; [reflexivity|].
  assert (H : has_column df c = true) by (apply Hc; left; reflexivity).
  destruct (proj1 (getitem_has_column df c) H) as [col G]. rewrite G.
  destruct (HN col) as [col' T]. rewrite T.
  apply IH. intros c' Hc'. rewrite has_column_setitem by exact H.
  apply Hc. right. exact Hc'.
Qed.

Lemma has_column_add_days_column (df : DataFrame) (h : pystr)
    (ia : option pystr) :
  has_column df h = true ->
  has_column (snd (ExcelCleanerApp.add_days_column df (Some h) ia)) h = true /\
  has_column (StreamlitExcelCleanerApp.add_days_column df (Some h) ia) h
  = true.
Proof.
  intros H.
  destruct (proj1 (getitem_has_column df h) H) as [col G].
  rewrite add_days_column_eq, add_days_column_streamlit_eq, G. cbv zeta.
  assert (W : has_column (written_back df h col) h = true)
    by (rewrite (@has_column_written_back _ _ _ _ _ G); exact H).
  destruct (days_of (datetime_of col)) as [days|]; cbn [snd];
    [|split; assumption].
  assert (P : forall base i, has_column base h = true ->
                has_column (splice (without_days base) i days) h = true).
  { intros base i Hb. apply getitem_has_column.
    destruct (list_eq_dec N.eq_dec h DAYS) as [-> | Hn].
    - eexists. apply getitem_splice_days, has_column_without_days.
    - rewrite (getitem_splice_other _ _ _ Hn). unfold without_days.
      rewrite (getitem_drop_other _ Hn). apply getitem_has_column, Hb. }
  split; apply P; assumption.
Qed.

Lemma sort_by_datetime_ok (df : DataFrame) (dt_col : option pystr) :
  (forall h, dt_col = Some h -> has_column df h = true) ->
  exists out, sort_by_datetime df dt_col = Ok out.
Proof.
  intros Hin. unfold sort_by_datetime.
  destruct dt_col as [h|]; [|eauto].
  destruct (truthy (Some h)); [|eauto].
  destruct (proj1 (getitem_has_column df h) (Hin h eq_refl)) as [col G].
  rewrite G. destruct col; eauto.
Qed.

Lemma stages_return (add : DataFrame -> option pystr -> DataFrame)
    (raw_df : DataFrame) (pattern : pystr) (keep : bool) (rx : regex) :
  let df := with_normalized_headers raw_df in
  (forall d h, has_column d h = true -> has_column (add d (Some h)) h = true) ->
  re_compile_ignorecase pattern = Ok rx ->
  parses_without_error df ->
  (forall s, exists s', to_numeric_coerce s = Ok s') ->
  exists out,
    (perform dt_col <- ExcelCleanerApp.find_datetime_col df ;;
     perform cols <- ExcelCleanerApp.detect_sensor_columns df pattern ;;
     perform df1 <- datetime_stage df dt_col ;;
     perform df3 <-
       returned (ExcelCleanerApp.coerce_numeric (blank_stage keep df1) cols) ;;
     sort_by_datetime (add df3 dt_col) dt_col) = Ok out.
Proof.
  intros df Hadd Hrx Hp HN.
  destruct (find_datetime_col_ok
              (normalized_labels_with_normalized_headers raw_df) Hp)
    as [dt_col F].
  fold df in F. rewrite F. cbn [bind].
  rewrite detect_sensor_columns_filter, Hrx. cbn [bind].
  set (cols := filter (sensor_test rx)
                 (ExcelCleanerApp.normalize_headers (columns df))).
  assert (Hd : forall h, dt_col = Some h -> has_column df h = true).
  { intros h ->. apply header_has_column, find_datetime_col_header, F. }
  assert (D : exists df1, datetime_stage df dt_col = Ok df1).
  { unfold datetime_stage. destruct dt_col as [h|]; [|eauto].
    destruct (proj1 (getitem_has_column df h) (Hd h eq_refl)) as [col G].
    rewrite G. eauto. }
  destruct D as [df1 D]. rewrite D. cbn [bind].
  destruct (datetime_stage_frame _ _ D) as (C1 & _).
  assert (C2 : columns (blank_stage keep df1) = columns df)
    by (rewrite columns_blank_stage; exact C1).
  assert (N : snd (ExcelCleanerApp.coerce_numeric (blank_stage keep df1) cols)
              = None).
  { apply (coerce_numeric_no_error _ _ HN). intros c Hc.
    rewrite (has_column_columns _ _ c C2). apply header_has_column.
    apply filter_In in Hc. apply Hc. }
  destruct (coerce_numeric_keeps (blank_stage keep df1) cols) as [C3 _].
  destruct (ExcelCleanerApp.coerce_numeric (blank_stage keep df1) cols)
    as [df3 e]. cbn [fst snd] in *. subst e. cbn [returned bind].
  apply sort_by_datetime_ok. intros h ->. apply Hadd.
  rewrite (has_column_columns _ _ h C3), (has_column_columns _ _ h C2).
  apply Hd. reflexivity.
Qed.

(** X17.  The scripts raise only what the libraries raise.  When the
    pattern compiles, [pd.to_datetime] raises on no column of the sheet and
    [pd.to_numeric] does not raise, each script returns a cleaned frame: no
    lookup of a column fails, from the detection of the datetime column to
    the final sort. *)
Theorem cleaning_script_returns (raw_df : DataFrame) (pattern : pystr)
    (keep_blank_rows : bool) (rx : regex) :
  let df := with_normalized_headers raw_df in
  distinct_labels df ->
  re_compile_ignorecase pattern = Ok rx ->
  parses_without_error df ->
  (forall s, exists s', to_numeric_coerce s = Ok s') ->
  (exists out,
     CleaningScript.excel_cleaner_app raw_df pattern keep_blank_rows = Ok out /\
     CleaningScript.excel_cleaner_app_2_like raw_df pattern keep_blank_rows
     = Ok out) /\
  (exists out,
     CleaningScript.streamlit_excel_cleaner_app raw_df pattern keep_blank_rows
     = Ok out).
Proof.
  intros df _ Hrx Hp HN. split.
  - destruct (@stages_return
                (fun d x => snd (ExcelCleanerApp.add_days_column d x x))
                raw_df pattern keep_blank_rows rx) as [out H]; try assumption.
    + intros d h Hh.
      apply (proj1 (@has_column_add_days_column d h (Some h) Hh)).
    + assert (E : CleaningScript.excel_cleaner_app raw_df pattern
                    keep_blank_rows = Ok out)
        by (rewrite excel_cleaner_app_eq; exact H).
      exists out. split; exact E.
  - destruct (@stages_return
                (fun d x => StreamlitExcelCleanerApp.add_days_column d x x)
                raw_df pattern keep_blank_rows rx) as [out H]; try assumption.
    + intros d h Hh.
      apply (proj2 (@has_column_add_days_column d h (Some h) Hh)).
    + exists out. rewrite streamlit_excel_cleaner_app_eq. exact H.
Qed.


Lemma take_map {A B} (f : A -> B) (indexer : list nat) (l : list A) :
  take indexer (map f l) = map f (take indexer l).
Proof.
  unfold take. induction indexer as [|i ix IH]; [reflexivity|].
  cbn [flat_map]. rewrite map_app, IH, nth_error_map.
  destruct (nth_error l i); reflexivity.
Qed.

Lemma first_valid_in (l : list (option Z)) (t0 : Z) :
  first_valid l = Some t0 -> In (Some t0) l.
Proof.
  induction l as [|[t|] l IH]; cbn [first_valid]; [discriminate | |].
  - intros [= ->]. left. reflexivity.
  - intros H. right. apply IH, H.
Qed.

Lemma first_valid_some (l : list (option Z)) (t : Z) :
  In (Some t) l -> exists t0, first_valid l = Some t0.
Proof.
  induction l as [|[x|] l IH]; cbn [first_valid]; [intros [] | eauto |].
  intros [E | H]; [discriminate | apply IH, H].
Qed.

(** X19.  In the frame the scripts return (for a detected datetime column
    whose name is neither empty nor [Days] and which is not a sensor
    column), as soon as the datetime column holds a timestamp there is a
    [Days] column, it stands immediately after the datetime column, the
    other labels are those of the sheet in their order, and in every row
    the value of [Days] is the one that belongs to the timestamp of that
    row: the time in days since the midnight before one of the timestamps
    of the column.  The sort moves the two columns together. *)
Theorem cleaning_script_days (raw_df : DataFrame) (pattern : pystr)
    (keep_blank_rows : bool) (h : pystr) (cols : list pystr)
    (out : DataFrame) (sorted : list (option Z)) (t : Z) :
  let df := with_normalized_headers raw_df in
  argsort_contract R ->
  distinct_labels df ->
  ExcelCleanerApp.find_datetime_col df = Ok (Some h) ->
  ExcelCleanerApp.detect_sensor_columns df pattern = Ok cols ->
  h <> [] -> h <> DAYS -> ~ In h cols ->
  CleaningScript.excel_cleaner_app raw_df pattern keep_blank_rows = Ok out \/
  CleaningScript.excel_cleaner_app_2_like raw_df pattern keep_blank_rows
  = Ok out \/
  CleaningScript.streamlit_excel_cleaner_app raw_df pattern keep_blank_rows
  = Ok out ->
  getitem out h = Some (SDatetime sorted) ->
  In (Some t) sorted ->
  exists t0 before after,
    In (Some t0) sorted /\
    getitem out DAYS = Some (SNumeric (days_since (normalize_ts t0) sorted)) /\
    columns (without_days df) = before ++ LStr h :: after /\
    columns out = before ++ LStr h :: LStr DAYS :: after.
Proof.
  intros df contract _ F Dt Hne Hnd Hns H Gout Ht.
  assert (H' : CleaningScript.excel_cleaner_app raw_df pattern keep_blank_rows
               = Ok out).
  { destruct H as [H | [H | H]]; [exact H | exact H |].
    rewrite <- H. symmetry. apply streamlit_script_agrees.
    fold df. intros h' cols'. rewrite F, Dt. intros [= <-] [= <-]. exact Hns. }
  clear H. rewrite excel_cleaner_app_eq in H'. cbv zeta in H'. fold df in H'.
  apply (stages_ok
           (fun d x => snd (ExcelCleanerApp.add_days_column d x x))) in H'.
  destruct H' as (dt_col & cols' & df1 & df3 & F' & Dt' & D & N & S).
  rewrite F in F'. injection F' as <-.
  rewrite Dt in Dt'. injection Dt' as <-.
  cbv beta in S.
  destruct (@datetime_column_typed _ _ _ _ _ _ _ D N Hns) as [keys G].
  destruct (@add_days_column_keeps_typed df3 h (Some h) keys G Hnd) as [G' _].
  rewrite (sort_by_datetime_typed _ Hne G') in S.
  apply Ok_inj in S. subst out.
  rewrite sort_values_take_rows in *.
  rewrite getitem_take_rows, G' in Gout. cbn [option_map take_series] in Gout.
  assert (Es : sorted = take (nargsort keys) keys) by congruence.
  subst sorted. clear Gout.
  pose proof (@take_perm _ _ _ (nargsort_perm contract keys)) as P.
  apply (Permutation_in _ P) in Ht.
  destruct (first_valid_some _ _ Ht) as [t0 F0].
  assert (C3 : columns df3 = columns df).
  { destruct (coerce_numeric_keeps (blank_stage keep_blank_rows df1) cols)
      as [C _].
    rewrite N in C. cbn [fst] in C. rewrite C, columns_blank_stage.
    apply (datetime_stage_frame _ _ D). }
  assert (Hb : has_column (without_days df3) h = true).
  { unfold without_days. rewrite (has_column_drop_other _ Hnd).
    apply getitem_has_column. eauto. }
  assert (E4 : snd (ExcelCleanerApp.add_days_column df3 (Some h) (Some h))
               = splice (without_days df3)
                   (index_of (columns (without_days df3)) h + 1)
                   (days_since (normalize_ts t0) keys)).
  { rewrite add_days_column_eq, G. cbv zeta. cbn [written_back datetime_of].
    unfold days_of. rewrite F0. cbn [snd].
    rewrite (index_after_present _ _ Hb). reflexivity. }
  rewrite E4 in *. clear E4 G'.
  destruct (splice_after_column (without_days df3) h
              (days_since (normalize_ts t0) keys) Hb)
    as (l & col & r & Eb & _ & Eo).
  exists t0, (columns l), (columns r).
  split; [apply (Permutation_in _ (Permutation_sym P)), first_valid_in, F0|].
  split; [|split].
  - rewrite getitem_take_rows.
    rewrite (getitem_splice_days _ _ _ (has_column_without_days df3)).
    cbn [option_map take_series]. unfold days_since at 1.
    rewrite take_map. reflexivity.
  - rewrite <- (columns_without_days _ _ C3), Eb. unfold columns.
    rewrite map_app. reflexivity.
  - rewrite columns_take_rows, Eo. unfold columns. rewrite map_app.
    reflexivity.
Qed.

End ScriptProperties.

Lemma plain_to_numeric_keeps_length : to_numeric_keeps_length Plain.runtime.
Proof.
  intros [l|l|l] r; simpl; intros [= <-]; simpl;
    try rewrite length_map; reflexivity.
Qed.

Lemma logged_distinct :
  distinct_labels (with_normalized_headers Sheets.logged).
Proof. labels_distinct. Qed.

(** The three scripts on [Sheets.logged], with the default pattern and
    blank rows dropped. *)
Lemma logged_cleaned :
  @CleaningScript.excel_cleaner_app Plain.runtime Sheets.logged
    ExcelCleanerApp.SENSOR_DEFAULT_REGEX false = Ok Sheets.logged_clean.
Proof. vm_compute. reflexivity. Qed.

Lemma logged_datetime_col :
  @ExcelCleanerApp.find_datetime_col Plain.runtime
    (with_normalized_headers Sheets.logged) = Ok (Some (py "Date")).
Proof. vm_compute. reflexivity. Qed.

Lemma logged_sensor_cols :
  @ExcelCleanerApp.detect_sensor_columns Plain.runtime
    (with_normalized_headers Sheets.logged)
    ExcelCleanerApp.SENSOR_DEFAULT_REGEX = Ok [py "ALARM_HI"].
Proof. vm_compute. reflexivity. Qed.

Lemma cleaning_script_labels_witness :
  columns (without_days Sheets.logged_clean)
  = [LStr (py "Date"); LStr (py "ALARM_HI"); LStr (py "")].
Proof.
  rewrite (@cleaning_script_labels Plain.runtime Sheets.logged
             ExcelCleanerApp.SENSOR_DEFAULT_REGEX false Sheets.logged_clean
             logged_distinct (or_introl logged_cleaned)).
  reflexivity.
Defined.

Lemma cleaning_scripts_agree_witness :
  @CleaningScript.streamlit_excel_cleaner_app Plain.runtime Sheets.logged
    ExcelCleanerApp.SENSOR_DEFAULT_REGEX false
  = @CleaningScript.excel_cleaner_app Plain.runtime Sheets.logged
      ExcelCleanerApp.SENSOR_DEFAULT_REGEX false.
Proof.
  destruct (@cleaning_scripts_agree Plain.runtime Sheets.logged
              ExcelCleanerApp.SENSOR_DEFAULT_REGEX false logged_distinct)
    as [_ H]; [|exact H].
  intros h cols F D.
  rewrite logged_datetime_col in F. injection F as <-.
  rewrite logged_sensor_cols in D. injection D as <-.
  cbn [In]. intros [E | []]. discriminate E.
Defined.

Lemma cleaning_script_sorted_witness :
  exists ts m,
    getitem Sheets.logged_clean (py "Date")
    = Some (SDatetime (map Some ts ++ repeat None m)) /\
    Sorted Z.le ts.
Proof.
  apply (@cleaning_script_sorted Plain.runtime Sheets.logged
           ExcelCleanerApp.SENSOR_DEFAULT_REGEX false (py "Date")
           [py "ALARM_HI"] Sheets.logged_clean
           plain_argsort_contract logged_distinct
           logged_datetime_col logged_sensor_cols).
  - discriminate.
  - discriminate.
  - cbn [In]. intros [E | []]. discriminate E.
  - left. exact logged_cleaned.
Defined.

(** Of the four rows of [Sheets.logged] two are left: the blank row is
    dropped, and so is the row whose only content is a date that cannot be
    read. *)
Lemma cleaning_script_rows_witness :
  exists m, row_count Sheets.logged_clean m /\ m <= 4 /\
            (false = true -> m = 4).
Proof.
  apply (@cleaning_script_rows Plain.runtime Sheets.logged
           ExcelCleanerApp.SENSOR_DEFAULT_REGEX false Sheets.logged_clean 4
           plain_to_numeric_keeps_length plain_to_datetime_keeps_length
           plain_argsort_contract logged_distinct).
  - repeat constructor.
  - left. exact logged_cleaned.
Defined.

(** On [Sheets.logged], kept with its blank rows, the streamlit script
    returns a frame. *)
Lemma cleaning_script_returns_witness :
  exists out,
    @CleaningScript.streamlit_excel_cleaner_app Plain.runtime Sheets.logged
      ExcelCleanerApp.SENSOR_DEFAULT_REGEX true = Ok out.
Proof.
  destruct (@cleaning_script_returns Plain.runtime Sheets.logged
              ExcelCleanerApp.SENSOR_DEFAULT_REGEX true Plain.RxDefault
              logged_distinct eq_refl (plain_parses_without_error _))
    as [_ H]; [|exact H].
  intros [l|l|l]; eexists; reflexivity.
Defined.

(** On [Sheets.sensors] the default pattern finds [ALARM_HI] and
    [probe_c]; [S/N] and [days] are meta names, [Note] is not matched. *)
Lemma detect_sensor_columns_complete_witness :
  @ExcelCleanerApp.detect_sensor_columns Plain.runtime Sheets.sensors
    ExcelCleanerApp.SENSOR_DEFAULT_REGEX
  = Ok [py "ALARM_HI"; py "probe_c"].
Proof.
  destruct (@detect_sensor_columns_complete Plain.runtime Sheets.sensors
              ExcelCleanerApp.SENSOR_DEFAULT_REGEX Plain.RxDefault eq_refl)
    as (l & A & _ & _ & B & _).
  rewrite A, B. reflexivity.
Defined.

(** In the cleaned [Sheets.logged] the column [Days] stands after [Date]
    and counts from the day of one of its two timestamps. *)
Lemma cleaning_script_days_witness :
  exists t0 before after,
    In (Some t0) [Some Sheets.DAY; Some (2 * Sheets.DAY)%Z] /\
    getitem Sheets.logged_clean DAYS
    = Some (SNumeric (days_since (normalize_ts t0)
                        [Some Sheets.DAY; Some (2 * Sheets.DAY)%Z])) /\
    columns (without_days (with_normalized_headers Sheets.logged))
    = before ++ LStr (py "Date") :: after /\
    columns Sheets.logged_clean
    = before ++ LStr (py "Date") :: LStr DAYS :: after.
Proof.
  apply (@cleaning_script_days Plain.runtime Sheets.logged
           ExcelCleanerApp.SENSOR_DEFAULT_REGEX false (py "Date")
           [py "ALARM_HI"] Sheets.logged_clean
           [Some Sheets.DAY; Some (2 * Sheets.DAY)%Z] Sheets.DAY
           plain_argsort_contract logged_distinct
           logged_datetime_col logged_sensor_cols).
  - discriminate.
  - discriminate.
  - cbn [In]. intros [E | []]. discriminate E.
  - left. exact logged_cleaned.
  - reflexivity.
  - left. reflexivity.
Defined.
